(** * physio-dash-board: billing cycles, report analytics, the users
      page, notifications, the API route handlers and the maintenance
      scripts, embedded in Rocq.

    The file has three parts.  Part I translates the TypeScript sources
    into executable definitions, Part II defines the vocabulary of the
    statements, Part III states and proves the properties.

    Conventions of the embedding.
    - A JavaScript [number] that is an integer or [NaN] is an [option Z],
      [None] standing for [NaN]; where it is printed, an integer stands
      for the double nearest to it.  A sum of money is a double with its
      infinities and NaN.
    - A [Date] is its time value: milliseconds since the epoch (UTC), or
      [None] for an Invalid Date.
    - A string is a [string] of code units below 256.
    - The host environment (time zone, the implementation-defined part of
      [Date.parse]) is a record passed to the functions that read it.
    - A handler that performs effects returns its result together with the
      list of the effects it performed, in order.
    - A call that is started and not awaited is in flight until a later
      event settles it. *)

From Stdlib Require Import ZArith Lia Bool List Ascii String.
From Stdlib Require Import DecimalString DecimalZ.
From Stdlib Require Import QArith Qround Qabs Lqa SpecFloat.
From Stdlib Require Import Sorted Permutation.
Import ListNotations.

#[local] Set Warnings "-register-all".

Local Open Scope string_scope.
Local Open Scope list_scope.
Local Open Scope Z_scope.

(* ================================================================== *)
(** * Part I: the model *)
(* ================================================================== *)

(** ** Double-precision arithmetic

    A finite double is the rational it denotes.  An operation computes
    the exact rational result and rounds it to the nearest double, ties to
    even.  The exponent is not bounded here (no overflow, no subnormals):
    the analytics stay within the normal range, and where a result can
    leave the range of the doubles the caller tests for it. *)

Module Float.

Local Open Scope Z_scope.

(** Nearest integer to [a / b] for [b > 0], ties to even. *)
Definition div_half_even (a b : Z) : Z :=
  let q := a / b in
  let r := a mod b in
  if 2 * r <? b then q
  else if b <? 2 * r then q + 1
  else if Z.even q then q else q + 1.

(** Rounding of the positive rational [n / d] to 53 significant bits.
    The quotient is scaled by [2^s] so that its integer part [f] has at
    least 54 bits; [u] is then the weight of the last kept bit. *)
Definition round_pos (n d : Z) : Q :=
  let s := Z.max 0 (55 + Z.log2 d - Z.log2 n) in
  let x := n * 2 ^ s in
  let f := x / d in
  let u := 2 ^ (Z.log2 f - 52) in
  let m := div_half_even x (d * u) in
  (m * u) # (Z.to_pos (2 ^ s)).

(** Round to nearest double. *)
Definition rnd (q : Q) : Q :=
  match Qnum q with
  | Z0 => 0%Q
  | Zpos n => round_pos (Zpos n) (Zpos (Qden q))
  | Zneg n => Qopp (round_pos (Zpos n) (Zpos (Qden q)))
  end.

(** [a / b] and [a * b] on doubles. *)
Definition fdiv (a b : Q) : Q := rnd (a / b).
Definition fmul (a b : Q) : Q := rnd (a * b).

(** An integer below 2^53 in absolute value is a double. *)
Definition of_int (z : Z) : Q := inject_Z z.

(** [Math.round]: the nearest integer, a tie going up. *)
Definition Math_round (x : Q) : Z := Qfloor (x + (1 # 2)).

End Float.

(** ** JavaScript numbers and strings *)

Module JS.

(** An integral number or NaN. *)
Definition number := option Z.

Definition NaN : number := None.

Definition num_add (a b : number) : number :=
  match a, b with
  | Some x, Some y => Some (x + y)
  | _, _ => None
  end.

Definition num_sub (a b : number) : number :=
  match a, b with
  | Some x, Some y => Some (x - y)
  | _, _ => None
  end.

(** [a === b] on numbers: NaN is different from everything, itself included. *)
Definition num_strict_eq (a b : number) : bool :=
  match a, b with
  | Some x, Some y => x =? y
  | _, _ => false
  end.

(** [a <= b] on numbers: false as soon as one side is NaN. *)
Definition num_le (a b : number) : bool :=
  match a, b with
  | Some x, Some y => x <=? y
  | _, _ => false
  end.

(** [a >= b] on numbers. *)
Definition num_ge (a b : number) : bool := num_le b a.

(** The decimal numeral of an integer, ["-"] in front of a negative one. *)
Definition ZToString (n : Z) : string := NilZero.string_of_int (Z.to_int n).

(** The double nearest the integer [z]; it is an integer itself when [z]
    is 2^53 or more in absolute value. *)
Definition nearestDouble (z : Z) : Z := Qfloor (Float.rnd (inject_Z z)).

(** The candidates with [k] digits and exponent [n] for the double [x]:
    the two numerals [s] next to [x / 10^(n-k)], kept when they have [k]
    digits and their value [s * 10^(n-k)] is read back as [x]. *)
Definition candidates (x k n : Z) : list (Z * Z) :=
  let p := 10 ^ (n - k) in
  filter (fun c => let s := fst c in
            (10 ^ (k - 1) <=? s) && (s <? 10 ^ k) && (nearestDouble (s * p) =? x))
    [(x / p, n); (x / p + 1, n)].

(** The candidate whose value is closer to [x]; of two equally close, the
    even numeral. *)
Definition closer (x k : Z) (a b : Z * Z) : Z * Z :=
  let da := Z.abs (fst a * 10 ^ (snd a - k) - x) in
  let db := Z.abs (fst b * 10 ^ (snd b - k) - x) in
  if da <? db then a
  else if db <? da then b
  else if Z.even (fst a) then a else b.

Definition closest (x k : Z) (cs : list (Z * Z)) : option (Z * Z) :=
  match cs with
  | [] => None
  | c :: rest => Some (fold_left (closer x k) rest c)
  end.

(** The digits [s], their number [k] and the exponent [n] of
    Number::toString (ECMAScript 6.1.6.1.20) for a double [x] with [d]
    decimal digits, [d] at least 16: [k] is as small as possible, tried
    upwards from the given [k]. *)
Fixpoint shortest (x d k : Z) (tries : nat) : option (Z * Z * Z) :=
  match tries with
  | O => None
  | S tries' =>
      match closest x k (candidates x k d ++ candidates x k (d + 1)) with
      | Some (s, n) => Some (s, k, n)
      | None => shortest x d (k + 1) tries'
      end
  end.

Fixpoint zeros (count : nat) : string :=
  match count with
  | O => ""
  | S c => String "0" (zeros c)
  end.

(** Number::toString for a double [x] that is an integer of 2^53 or
    more: the digits followed by zeros up to 21 digits, the exponent form
    beyond. *)
Definition bigToString (x : Z) : string :=
  let d := Z.of_nat (String.length (ZToString x)) in
  match shortest x d 1 17 with
  | None => ZToString x
  | Some (s, k, n) =>
      let digits := ZToString s in
      if n <=? 21 then digits ++ zeros (Z.to_nat (n - k))
      else
        match digits with
        | String first EmptyString => String first ("e+" ++ ZToString (n - 1))
        | String first more => String first ("." ++ more ++ "e+" ++ ZToString (n - 1))
        | EmptyString => ""
        end
  end.

(** [String(n)] for the number an integer [z] denotes, the double nearest
    [z]: the decimal numeral of [z] below 2^53; from there on the shortest
    numeral that is read back as the same double, in exponent form from
    10^21; [Infinity] beyond the doubles. *)
Definition IntegerToString (z : Z) : string :=
  if Z.abs z <? 2 ^ 53 then ZToString z
  else
    let x := nearestDouble (Z.abs z) in
    (if z <? 0 then "-" else "") ++
    (if 2 ^ 1024 <=? x then "Infinity" else bigToString x).

(** [String(n)] for a number. *)
Definition NumberToString (n : number) : string :=
  match n with
  | Some z => IntegerToString z
  | None => "NaN"
  end.

(** [fill] repeated and cut to exactly [n] code units (empty when [fill]
    is empty). *)
Fixpoint repeat_fill (fill cur : string) (n : nat) : string :=
  match n with
  | O => ""
  | S n' =>
      match cur with
      | String c rest => String c (repeat_fill fill rest n')
      | EmptyString =>
          match fill with
          | String c rest => String c (repeat_fill fill rest n')
          | EmptyString => ""
          end
      end
  end.

(** [s.padStart(targetLength, fill)]. *)
Definition padStart (s : string) (targetLength : nat) (fill : string) : string :=
  if Nat.leb targetLength (String.length s) then s
  else repeat_fill fill fill (targetLength - String.length s) ++ s.

(** [s.includes(c)] for a one-unit needle. *)
Fixpoint includes_char (s : string) (c : ascii) : bool :=
  match s with
  | EmptyString => false
  | String a rest => Ascii.eqb a c || includes_char rest c
  end.

(** [parts.join(sep)]. *)
Fixpoint join (sep : string) (parts : list string) : string :=
  match parts with
  | [] => ""
  | [p] => p
  | p :: rest => p ++ sep ++ join sep rest
  end.

(** White space and line terminators below 256, as [String.prototype.trim]
    sees them. *)
Definition is_space (c : ascii) : bool :=
  let n := nat_of_ascii c in
  (Nat.leb 9 n && Nat.leb n 13) || Nat.eqb n 32 || Nat.eqb n 160.

Fixpoint trimStart (s : string) : string :=
  match s with
  | EmptyString => ""
  | String c rest => if is_space c then trimStart rest else s
  end.

(** Drops trailing white space, scanning from the left. *)
Fixpoint trimEnd (s : string) : string :=
  match s with
  | EmptyString => ""
  | String c rest =>
      match trimEnd rest with
      | EmptyString => if is_space c then "" else String c ""
      | t => String c t
      end
  end.

Definition trim (s : string) : string := trimEnd (trimStart s).

(** [arr.slice(start)] for an integral [start]: a negative [start] counts
    from the end, and both directions are clamped to the array. *)
Definition slice_from {A : Type} (start : Z) (l : list A) : list A :=
  let len := Z.of_nat (List.length l) in
  let k := if start <? 0 then Z.max (len + start) 0 else Z.min start len in
  skipn (Z.to_nat k) l.

(** [arr.slice(0, stop)] for a non-negative integral [stop]. *)
Definition slice_to {A : Type} (stop : Z) (l : list A) : list A :=
  let len := Z.of_nat (List.length l) in
  firstn (Z.to_nat (Z.min stop len)) l.

(** A thrown error object, with the fields the handlers look at. *)
Record JsError := {
  err_status : option Z;
  err_code : option string;
  err_message : option string
}.

(** [new Error(msg)], and likewise a TypeError or SyntaxError. *)
Definition Error (msg : string) : JsError :=
  {| err_status := None; err_code := None; err_message := Some msg |}.

(** A JSON value; numbers are the integral ones, [JNum n] being the
    double nearest [n]. *)
Inductive Json :=
| JNull
| JBool (b : bool)
| JNum (n : Z)
| JStr (s : string)
| JArr (items : list Json)
| JObj (fields : list (string * Json)).

(** [!!v]. *)
Definition truthy (v : Json) : bool :=
  match v with
  | JNull => false
  | JBool b => b
  | JNum n => negb (n =? 0)
  | JStr s => negb (String.eqb s "")
  | JArr _ => true
  | JObj _ => true
  end.

(** [String(v)]. *)
Fixpoint ToString (v : Json) : string :=
  match v with
  | JNull => "null"
  | JBool true => "true"
  | JBool false => "false"
  | JNum n => IntegerToString n
  | JStr s => s
  | JArr items =>
      join "," (map (fun x => match x with JNull => "" | _ => ToString x end) items)
  | JObj _ => "[object Object]"
  end.

(** The own property [k] of an object, [None] for undefined.  Each key
    occurs once in [fields]. *)
Fixpoint lookup (k : string) (fields : list (string * Json)) : option Json :=
  match fields with
  | [] => None
  | (k', v) :: rest => if String.eqb k k' then Some v else lookup k rest
  end.

(** [v.k] on a value other than null: only objects have the properties
    read in this program. *)
Definition getProp (v : Json) (k : string) : option Json :=
  match v with
  | JObj fields => lookup k fields
  | _ => None
  end.

End JS.

(** ** Dates: the time-value arithmetic of ECMAScript (section 21.4.1) *)

Module JSDate.
Import JS.

(** The host: its offset from UTC in milliseconds (taken constant, that is
    a zone without daylight saving, such as Asia/Kolkata), and what its
    [Date.parse] answers on a string that is not in one of the two
    interchange forms modelled below. *)
Record Host := {
  LocalTZA : Z;
  legacyParse : string -> option Z
}.

Definition Date := option Z.

Definition msPerDay : Z := 86400000.
Definition msPerHour : Z := 3600000.
Definition msPerMinute : Z := 60000.
Definition msPerSecond : Z := 1000.
Definition maxTime : Z := 8640000000000000.

Definition Day (t : Z) : Z := t / msPerDay.
Definition TimeWithinDay (t : Z) : Z := t mod msPerDay.

Definition DaysInYear (y : Z) : Z :=
  if negb (y mod 4 =? 0) then 365
  else if negb (y mod 100 =? 0) then 366
  else if negb (y mod 400 =? 0) then 365
  else 366.

Definition DayFromYear (y : Z) : Z :=
  365 * (y - 1970) + (y - 1969) / 4 - (y - 1901) / 100 + (y - 1601) / 400.

Definition TimeFromYear (y : Z) : Z := msPerDay * DayFromYear y.

(** The year of a day number: the largest [y] with [DayFromYear y <= d].
    A linear estimate is off by at most one year. *)
Definition YearFromDay (d : Z) : Z :=
  let y0 := 1970 + (400 * d) / 146097 in
  if d <? DayFromYear y0 then y0 - 1
  else if DayFromYear (y0 + 1) <=? d then y0 + 1
  else y0.

Definition YearFromTime (t : Z) : Z := YearFromDay (Day t).

(** 1 in a leap year, 0 otherwise. *)
Definition LeapOfYear (y : Z) : Z := if DaysInYear y =? 366 then 1 else 0.

Definition InLeapYear (t : Z) : Z := LeapOfYear (YearFromTime t).

Definition DayWithinYear (t : Z) : Z := Day t - DayFromYear (YearFromTime t).

Definition MonthFromTime (t : Z) : Z :=
  let d := DayWithinYear t in
  let l := InLeapYear t in
  if d <? 31 then 0
  else if d <? 59 + l then 1
  else if d <? 90 + l then 2
  else if d <? 120 + l then 3
  else if d <? 151 + l then 4
  else if d <? 181 + l then 5
  else if d <? 212 + l then 6
  else if d <? 243 + l then 7
  else if d <? 273 + l then 8
  else if d <? 304 + l then 9
  else if d <? 334 + l then 10
  else 11.

(** Number of days of the year before month [m] (0 to 11) begins. *)
Definition DaysBeforeMonth (l m : Z) : Z :=
  if m =? 0 then 0
  else if m =? 1 then 31
  else if m =? 2 then 59 + l
  else if m =? 3 then 90 + l
  else if m =? 4 then 120 + l
  else if m =? 5 then 151 + l
  else if m =? 6 then 181 + l
  else if m =? 7 then 212 + l
  else if m =? 8 then 243 + l
  else if m =? 9 then 273 + l
  else if m =? 10 then 304 + l
  else 334 + l.

Definition DateFromTime (t : Z) : Z :=
  DayWithinYear t + 1 - DaysBeforeMonth (InLeapYear t) (MonthFromTime t).

(** Length of month [m] (0 to 11) of year [y]. *)
Definition DaysInMonth (y m : Z) : Z :=
  if m =? 1 then 28 + LeapOfYear y
  else if (m =? 3) || (m =? 5) || (m =? 8) || (m =? 10) then 30
  else 31.

Definition MakeTime (hour min sec ms : Z) : Z :=
  hour * msPerHour + min * msPerMinute + sec * msPerSecond + ms.

(** [MakeDay]: the month may lie outside 0..11 and the date outside the
    month; both carry over. *)
Definition MakeDay (year month date : Z) : Z :=
  let ym := year + month / 12 in
  let mn := month mod 12 in
  DayFromYear ym + DaysBeforeMonth (LeapOfYear ym) mn + date - 1.

Definition MakeDate (day time : Z) : Z := day * msPerDay + time.

Definition TimeClip (t : Z) : Date :=
  if Z.abs t <=? maxTime then Some t else None.

Section WithHost.
Variable host : Host.

Definition LocalTime (t : Z) : Z := t + LocalTZA host.
Definition UTC (t : Z) : Z := t - LocalTZA host.

(** [new Date(year, monthIndex, day)]: local midnight of that day.  A year
    from 0 to 99 means 1900 + year. *)
Definition newDateYMD (year month day : number) : Date :=
  match year, month, day with
  | Some y, Some m, Some dt =>
      let yr := if (0 <=? y) && (y <=? 99) then 1900 + y else y in
      TimeClip (UTC (MakeDate (MakeDay yr m dt) (MakeTime 0 0 0 0)))
  | _, _, _ => None
  end.

Definition getTime (d : Date) : number := d.

Definition getFullYear (d : Date) : number :=
  option_map (fun t => YearFromTime (LocalTime t)) d.

Definition getMonth (d : Date) : number :=
  option_map (fun t => MonthFromTime (LocalTime t)) d.

Definition getDate (d : Date) : number :=
  option_map (fun t => DateFromTime (LocalTime t)) d.

(** [d.setHours(h, m, s, ms)]: same local day, new time of day. *)
Definition setHours (d : Date) (h m s ms : Z) : Date :=
  match d with
  | Some tv =>
      let t := LocalTime tv in
      TimeClip (UTC (MakeDate (Day t) (MakeTime h m s ms)))
  | None => None
  end.

(** *** Parsing *)

Definition digit (c : ascii) : option Z :=
  let n := nat_of_ascii c in
  if Nat.leb 48 n && Nat.leb n 57 then Some (Z.of_nat n - 48) else None.

Definition digits2 (a b : ascii) : option Z :=
  match digit a, digit b with
  | Some x, Some y => Some (10 * x + y)
  | _, _ => None
  end.

Definition digits3 (a b c : ascii) : option Z :=
  match digit a, digits2 b c with
  | Some x, Some y => Some (100 * x + y)
  | _, _ => None
  end.

Definition digits4 (a b c d : ascii) : option Z :=
  match digits2 a b, digits2 c d with
  | Some x, Some y => Some (100 * x + y)
  | _, _ => None
  end.

(** A calendar date that exists: month 1..12, day within the month. *)
Definition valid_ymd (y m d : Z) : bool :=
  (1 <=? m) && (m <=? 12) && (1 <=? d) && (d <=? DaysInMonth y (m - 1)).

Definition valid_hms (h mi s : Z) : bool :=
  (h <=? 23) && (mi <=? 59) && (s <=? 59).

(** The date-only form [YYYY-MM-DD], read as UTC midnight. *)
Definition parseDateOnly (s : string) : option Z :=
  match s with
  | String y1 (String y2 (String y3 (String y4 (String "-"
    (String m1 (String m2 (String "-" (String d1 (String d2 EmptyString))))))))) =>
      match digits4 y1 y2 y3 y4, digits2 m1 m2, digits2 d1 d2 with
      | Some y, Some m, Some d =>
          if valid_ymd y m d
          then Some (MakeDate (MakeDay y (m - 1) d) 0)
          else None
      | _, _, _ => None
      end
  | _ => None
  end.

(** The form [YYYY-MM-DDTHH:mm:ss.sssZ] that [toISOString] produces. *)
Definition parseDateTimeZ (s : string) : option Z :=
  match s with
  | String y1 (String y2 (String y3 (String y4 (String "-"
    (String m1 (String m2 (String "-" (String d1 (String d2 (String "T"
    (String h1 (String h2 (String ":" (String i1 (String i2 (String ":"
    (String s1 (String s2 (String "." (String f1 (String f2 (String f3
    (String "Z" EmptyString))))))))))))))))))))))) =>
      match digits4 y1 y2 y3 y4, digits2 m1 m2, digits2 d1 d2 with
      | Some y, Some m, Some d =>
          match digits2 h1 h2, digits2 i1 i2, digits2 s1 s2, digits3 f1 f2 f3 with
          | Some h, Some mi, Some sec, Some ms =>
              if valid_ymd y m d && valid_hms h mi sec
              then Some (MakeDate (MakeDay y (m - 1) d) (MakeTime h mi sec ms))
              else None
          | _, _, _, _ => None
          end
      | _, _, _ => None
      end
  | _ => None
  end.

(** [Date.parse]: the two interchange forms above are fixed by the
    language; every other string is left to the host. *)
Definition parse (s : string) : option Z :=
  match parseDateOnly s with
  | Some t => Some t
  | None =>
      match parseDateTimeZ s with
      | Some t => Some t
      | None => legacyParse host s
      end
  end.

(** [new Date(s)]. *)
Definition newDateOfString (s : string) : Date :=
  match parse s with
  | Some t => TimeClip t
  | None => None
  end.

End WithHost.

End JSDate.

(** ** Billing cycles (the billing utilities module) *)

Module Billing.
Import JS JSDate.

(** The object the cycle functions return. *)
Record Cycle := {
  month : number;
  year : number;
  startDate : string;
  endDate : string
}.

(** An argument of type [Date | string]. *)
Inductive DateOrString :=
| ofDate (d : Date)
| ofString (s : string).

Section WithHost.
Variable host : Host.

(** [formatDate]: year, two-digit month and two-digit day of the local
    date, hyphen-separated. *)
Definition formatDate (date : Date) : string :=
  let year := getFullYear host date in
  let month := padStart (NumberToString (num_add (getMonth host date) (Some 1))) 2 "0" in
  let day := padStart (NumberToString (getDate host date)) 2 "0" in
  NumberToString year ++ "-" ++ month ++ "-" ++ day.

(** [getBillingCycleForDate]. *)
Definition getBillingCycleForDate (date : DateOrString) : Cycle :=
  let d := match date with
           | ofString s => newDateOfString host s
           | ofDate d => d
           end in
  let year := getFullYear host d in
  let month := num_add (getMonth host d) (Some 1) in
  let startDate := newDateYMD host year (num_sub month (Some 1)) (Some 1) in
  let endDate := newDateYMD host year month (Some 0) in
  {| month := month;
     year := year;
     startDate := formatDate startDate;
     endDate := formatDate endDate |}.

(** [getCurrentBillingCycle]; [now] is what [new Date()] yields, the
    reading of the clock. *)
Definition getCurrentBillingCycle (now : Z) : Cycle :=
  let now := Some now in
  let year := getFullYear host now in
  let month := num_add (getMonth host now) (Some 1) in
  let startDate := newDateYMD host year (num_sub month (Some 1)) (Some 1) in
  let endDate := newDateYMD host year month (Some 0) in
  {| month := month;
     year := year;
     startDate := formatDate startDate;
     endDate := formatDate endDate |}.

(** [getBillingCycleId]; an omitted argument is [None] and falls back on
    the clock. *)
Definition getBillingCycleId (now : Z) (month year : option number) : string :=
  let now := Some now in
  let m := match month with
           | Some m => m
           | None => num_add (getMonth host now) (Some 1)
           end in
  let y := match year with
           | Some y => y
           | None => getFullYear host now
           end in
  NumberToString y ++ "-" ++ padStart (NumberToString m) 2 "0".

(** [isDateInBillingCycle]. *)
Definition isDateInBillingCycle (date : DateOrString) (cycleStart cycleEnd : string) : bool :=
  let d := match date with
           | ofString s => newDateOfString host s
           | ofDate d => d
           end in
  let start := newDateOfString host cycleStart in
  let end_ := newDateOfString host cycleEnd in
  let end_ := setHours host end_ 23 59 59 999 in
  num_ge d start && num_le d end_.



End WithHost.

(** Two hosts used in the examples: one on UTC, one on India Standard
    Time (UTC+05:30, no daylight saving).  Their parsers reject what the
    model leaves to the host. *)
Definition hostUTC : Host :=
  {| LocalTZA := 0; legacyParse := fun _ => None |}.

Definition hostIST : Host :=
  {| LocalTZA := 19800000; legacyParse := fun _ => None |}.

(** A host five hours behind UTC all year (America/Bogota). *)
Definition hostBogota : Host :=
  {| LocalTZA := -18000000; legacyParse := fun _ => None |}.

(** [new Date(year, monthIndex, day, hours, minutes)] on a host. *)
Definition localTime (host : Host) (y m d h mi : Z) : Date :=
  let yr := if (0 <=? y) && (y <=? 99) then 1900 + y else y in
  TimeClip (UTC host (MakeDate (MakeDay yr m d) (MakeTime h mi 0 0))).

End Billing.

(** ** [Array.prototype.sort] with a comparison function *)

Module JSArray.
Import JS.

Section Sort.
Context {A : Type}.
Variable comparefn : A -> A -> number.

(** The comparison the sort really uses: a NaN answer counts as 0. *)
Definition SortCompare (x y : A) : Z :=
  match comparefn x y with
  | Some v => v
  | None => 0
  end.

(** [x] goes in front of the first element it does not come after. *)
Fixpoint insert (x : A) (l : list A) : list A :=
  match l with
  | [] => [x]
  | y :: rest =>
      if SortCompare x y <=? 0 then x :: y :: rest
      else y :: insert x rest
  end.

(** A stable sort.  For a consistent comparison function the result of
    [sort] is fixed by the language; for an inconsistent one the order is
    implementation-defined and this is one admissible outcome. *)
Fixpoint sort (l : list A) : list A :=
  match l with
  | [] => []
  | x :: rest => insert x (sort rest)
  end.

End Sort.

(** [arr.map((x, index) => f x index)], indices counted from [start]. *)
Fixpoint mapi_from {A B : Type} (f : A -> nat -> B) (start : nat) (l : list A) : list B :=
  match l with
  | [] => []
  | x :: rest => f x start :: mapi_from f (S start) rest
  end.

Definition mapi {A B : Type} (f : A -> nat -> B) (l : list A) : list B :=
  mapi_from f 0 l.

End JSArray.

(** ** The analytics service: [fetchPatientAnalytics] *)

Module AnalyticsService.
Import JS JSDate JSArray.

Record PatientAnalytics := {
  summary : string;
  trend_analysis : string;
  key_achievements : list string;
  recommendation : string
}.

(** [a ?? b]. *)
Definition nullish {T : Type} (a b : option T) : option T :=
  match a with
  | Some v => Some v
  | None => b
  end.

Section Fetch.
(** The values stored in a report (pain scale, range of motion, ...):
    the service only copies them. *)
Variable V : Type.
Variable host : Host.
(** [d.toISOString()] of the host, applied to a time value. *)
Variable toISOString : Z -> string.

(** The [createdAt] field of a stored document. *)
Inductive CreatedAt :=
| CreatedTimestamp (ms : Z)   (* a Firestore Timestamp: an object with toDate *)
| CreatedString (s : string)
| CreatedOther                (* another truthy value *)
| CreatedMissing.             (* absent, null or another falsy value *)

Record ReportData := {
  rd_vasScale : option V;
  rd_painScale : option V;
  rd_painRating : option V;
  rd_rom : option V;
  rd_rangeOfMotion : option V;
  rd_diagnosis : option V;
  rd_clinicalDiagnosis : option V;
  rd_treatmentProvided : option V;
  rd_treatmentDone : option V;
  rd_treatment : option V
}.

Definition emptyReportData : ReportData :=
  {| rd_vasScale := None; rd_painScale := None; rd_painRating := None;
     rd_rom := None; rd_rangeOfMotion := None; rd_diagnosis := None;
     rd_clinicalDiagnosis := None; rd_treatmentProvided := None;
     rd_treatmentDone := None; rd_treatment := None |}.

(** A document of the [reportVersions] collection. *)
Record ReportVersionData := {
  doc_version : number;       (* absent is NaN here: both give 0 below *)
  doc_createdAt : CreatedAt;
  doc_reportData : option ReportData;
  doc_data : option ReportData
}.

(** An entry of [reportHistory]. *)
Record Report := {
  version : Z;
  createdAt : string;
  painRating : option V;
  rom : option V;
  diagnosis : option V;
  treatmentDone : option V
}.

(** The three queries the function may issue. *)
Inductive Query :=
| OrderByCreatedAt
| OrderByVersion
| Unordered.

Inductive Outcome (T : Type) :=
| Returns (v : T)
| Throws (e : JsError).
Arguments Returns {T} v.
Arguments Throws {T} e.

(** The answer to the POST request. *)
Record ApiBody := {
  body_success : bool;
  body_data : option PatientAnalytics;
  body_message : option string
}.

Record Response := {
  resp_ok : bool;
  resp_status : Z;
  resp_json : option ApiBody   (* [None]: the body is not JSON *)
}.

(** What the function does to the outside, in order. *)
Inductive Effect :=
| GetDocs (q : Query)
| ConsoleWarn (msg : string)
| ConsoleLog (msg : string)
| Fetch (url : string) (reportHistory : list Report).

(** The outside world: what Firestore answers to each query, what the
    clock reads while the document at a given index is converted, and
    what the endpoint answers to a request body. *)
Record World := {
  getDocs : Query -> Outcome (list ReportVersionData);
  clock : nat -> Z;
  fetch : list Report -> Outcome Response
}.

Variable w : World.

Definition failed_precondition (e : JsError) : bool :=
  match err_code e with
  | Some c => String.eqb c "failed-precondition"
  | None => false
  end.

(** Step 1: the query, with its two fallbacks. *)
Definition queryVersions : Outcome (list ReportVersionData) * list Effect :=
  match getDocs w OrderByCreatedAt with
  | Returns docs => (Returns docs, [GetDocs OrderByCreatedAt])
  | Throws error =>
      if failed_precondition error then
        match getDocs w OrderByVersion with
        | Returns docs =>
            (Returns docs,
             [GetDocs OrderByCreatedAt;
              ConsoleWarn "Firestore index missing for createdAt, trying version field";
              GetDocs OrderByVersion])
        | Throws versionError =>
            if failed_precondition versionError then
              let pre :=
                [GetDocs OrderByCreatedAt;
                 ConsoleWarn "Firestore index missing for createdAt, trying version field";
                 GetDocs OrderByVersion;
                 ConsoleWarn "Firestore index missing for version field, querying without orderBy and sorting client-side";
                 GetDocs Unordered] in
              match getDocs w Unordered with
              | Returns docs => (Returns docs, pre)
              | Throws e => (Throws e, pre)
              end
            else
              (Throws versionError,
               [GetDocs OrderByCreatedAt;
                ConsoleWarn "Firestore index missing for createdAt, trying version field";
                GetDocs OrderByVersion])
        end
      else (Throws error, [GetDocs OrderByCreatedAt])
  end.

(** Step 2: one document to one entry; [index] is its place in the
    query result. *)
Definition toReport (data : ReportVersionData) (index : nat) : Report :=
  let reportData :=
    match doc_reportData data with
    | Some r => r
    | None => match doc_data data with
              | Some r => r
              | None => emptyReportData
              end
    end in
  let createdAt :=
    match doc_createdAt data with
    | CreatedTimestamp ms => toISOString ms
    | CreatedString "" => toISOString (clock w index)
    | CreatedString s => s
    | CreatedOther => toISOString (clock w index)
    | CreatedMissing => toISOString (clock w index)
    end in
  {| version := match doc_version data with Some v => v | None => 0 end;
     createdAt := createdAt;
     painRating := nullish (rd_vasScale reportData)
                     (nullish (rd_painScale reportData) (rd_painRating reportData));
     rom := nullish (rd_rom reportData) (rd_rangeOfMotion reportData);
     diagnosis := nullish (rd_diagnosis reportData) (rd_clinicalDiagnosis reportData);
     treatmentDone := nullish (rd_treatmentProvided reportData)
                        (nullish (rd_treatmentDone reportData) (rd_treatment reportData)) |}.

(** [new Date(r.createdAt).getTime()]. *)
Definition createdTime (r : Report) : number :=
  getTime (newDateOfString host (createdAt r)).

(** The [every] test of step 3: each entry after the first is not earlier
    than the one before it. *)
Fixpoint isSortedAfter (prev : Report) (l : list Report) : bool :=
  match l with
  | [] => true
  | item :: rest => num_le (createdTime prev) (createdTime item) && isSortedAfter item rest
  end.

Definition isSorted (l : list Report) : bool :=
  match l with
  | [] => true
  | first :: rest => isSortedAfter first rest
  end.

(** The comparison function of step 3. *)
Definition compareReports (a b : Report) : number :=
  let dateA := createdTime a in
  let dateB := createdTime b in
  if negb (num_strict_eq dateA dateB) then num_sub dateA dateB
  else Some (version a - version b).

(** Step 3. *)
Definition sortHistory (reportHistory : list Report) : list Report :=
  if (0 <? Z.of_nat (List.length reportHistory)) then
    if negb (isSorted reportHistory) then sort compareReports reportHistory
    else reportHistory
  else reportHistory.

(** The message of the log line of step 3.5. *)
Definition limitMessage (k n : nat) : string :=
  "Limiting analysis to latest " ++ IntegerToString (Z.of_nat k) ++ " of "
  ++ IntegerToString (Z.of_nat n) ++ " reports to optimize token usage".

(** Steps 4 and 5: reading the answer. *)
Definition readResponse (r : Response) : Outcome PatientAnalytics :=
  if negb (resp_ok r) then
    let message :=
      match resp_json r with
      | Some b => body_message b
      | None => Some "Unknown error"
      end in
    match message with
    | Some (String c m) => Throws (Error (String c m))
    | _ => Throws (Error ("API request failed with status " ++ IntegerToString (resp_status r)))
    end
  else
    match resp_json r with
    | None => Throws (Error "Unexpected token in JSON")
    | Some result =>
        match body_success result, body_data result with
        | true, Some data => Returns data
        | _, _ =>
            match body_message result with
            | Some (String c m) => Throws (Error (String c m))
            | _ => Throws (Error "Failed to get analytics from API")
            end
        end
    end.

(** [fetchPatientAnalytics]. *)
Definition fetchPatientAnalytics (patientId : string) : Outcome PatientAnalytics * list Effect :=
  if String.eqb patientId "" then (Throws (Error "Patient ID is required"), [])
  else
    match queryVersions with
    | (Throws e, fx) => (Throws e, fx)
    | (Returns docs, fx) =>
        let reportHistory := sortHistory (mapi toReport docs) in
        if Nat.eqb (List.length reportHistory) 0 then
          (Throws (Error "No report versions found for this patient"), fx)
        else
          let latestReports := slice_from (-5) reportHistory in
          let fx := if Nat.ltb 5 (List.length reportHistory)
                    then fx ++ [ConsoleLog (limitMessage (List.length latestReports)
                                                          (List.length reportHistory))]
                    else fx in
          let fx := fx ++ [Fetch "/api/analyze-patient" latestReports] in
          match fetch w latestReports with
          | Throws e => (Throws e, fx)
          | Returns response => (readResponse response, fx)
          end
    end.

(** The request body the function sends, if it sends one. *)
Definition requestBody (fx : list Effect) : option (list Report) :=
  match filter (fun e => match e with Fetch _ _ => true | _ => false end) fx with
  | [Fetch _ body] => Some body
  | _ => None
  end.

(** The sorted report history the function works on, when the query
    succeeds. *)
Definition reportHistoryOf (docs : list ReportVersionData) : list Report :=
  sortHistory (mapi toReport docs).

End Fetch.

Arguments Returns {T} v.
Arguments Throws {T} e.

End AnalyticsService.

(** ** The progress component: [PatientProgressAnalytics] *)

Module ProgressAnalytics.
Import JS JSDate JSArray Float.

(** A report version as the component keeps it.  Of the report data only
    the pain status is kept: the other fields go through untouched or
    are display strings. *)
Record ReportVersion := {
  id : string;
  version : Z;
  createdAt : string;
  createdBy : string;
  currentPainStatus : option string
}.

(** The part of [SessionMetrics] computed from counts. *)
Record SessionMetrics := {
  sessionNumber : Z;
  painStatus : option string;
  cumulativeImprovementRate : Z
}.

Section Load.
Variable host : Host.

(** [new Date(v.createdAt).getTime()]. *)
Definition createdTime (v : ReportVersion) : number :=
  getTime (newDateOfString host (createdAt v)).

(** The comparison function of the load step: version number first, then
    creation time. *)
Definition compareVersions (a b : ReportVersion) : number :=
  if negb (version a =? version b) then Some (version a - version b)
  else num_sub (createdTime a) (createdTime b).

(** [versions.sort(...)] of the load step. *)
Definition sortVersions (versions : list ReportVersion) : list ReportVersion :=
  sort compareVersions versions.

End Load.

Definition isImproved (v : ReportVersion) : bool :=
  match currentPainStatus v with
  | Some s => String.eqb s "Improved"
  | None => false
  end.

(** Sessions marked improved among the first [index + 1]. *)
Definition sessionsWithImprovement (reportVersions : list ReportVersion) (index : nat) : Z :=
  Z.of_nat (List.length
    (filter isImproved (slice_to (Z.of_nat index + 1) reportVersions))).

(** The divisor of the rate. *)
Definition rateDivisor (index : nat) : Z := Z.of_nat index + 1.

(** [Math.round((sessionsWithImprovement / (index + 1)) * 100)], in double
    arithmetic. *)
Definition improvementRate (reportVersions : list ReportVersion) (index : nat) : Z :=
  Math_round
    (fmul (fdiv (of_int (sessionsWithImprovement reportVersions index))
                (of_int (rateDivisor index)))
          (of_int 100)).

(** [sessionMetrics]. *)
Definition sessionMetrics (reportVersions : list ReportVersion) : list SessionMetrics :=
  if Nat.eqb (List.length reportVersions) 0 then []
  else
    mapi (fun v index =>
            {| sessionNumber := if version v =? 0 then Z.of_nat index + 1 else version v;
               painStatus := match currentPainStatus v with
                             | Some "" => None
                             | other => other
                             end;
               cumulativeImprovementRate := improvementRate reportVersions index |})
         reportVersions.

End ProgressAnalytics.

(** ** The employee exports of the admin page: [Users] *)

Module Users.
Import JS.

Inductive EmployeeRole :=
| FrontDesk
| ClinicalTeam
| Physiotherapist
| StrengthAndConditioning
| Admin.

Inductive EmployeeStatus :=
| Active
| Inactive.

Record Employee := {
  id : string;
  userName : string;
  userEmail : string;
  role : EmployeeRole;
  status : EmployeeStatus;
  createdAt : option string;
  deleted : option bool;
  deletedAt : option string;
  phone : option string;
  address : option string;
  dateOfBirth : option string;
  dateOfJoining : option string;
  gender : option string;
  bloodGroup : option string;
  emergencyContact : option string;
  emergencyPhone : option string;
  qualifications : option string;
  specialization : option string;
  experience : option string;
  professionalAim : option string;
  profileImage : option string
}.

Definition ROLE_LABELS (r : EmployeeRole) : string :=
  match r with
  | Admin => "Admin"
  | FrontDesk => "Front Desk"
  | ClinicalTeam => "Clinical Team"
  | Physiotherapist => "Physiotherapist"
  | StrengthAndConditioning => "Strength & Conditioning"
  end.

Definition statusText (s : EmployeeStatus) : string :=
  match s with
  | Active => "Active"
  | Inactive => "Inactive"
  end.

Definition comma : ascii := ","%char.
Definition dquote : ascii := "034"%char.
Definition newline : ascii := "010"%char.

(** Every double quote of [s] written twice (the [replace] with the
    global quote pattern). *)
Fixpoint doubleQuotes (s : string) : string :=
  match s with
  | EmptyString => ""
  | String c rest =>
      if Ascii.eqb c dquote then String dquote (String dquote (doubleQuotes rest))
      else String c (doubleQuotes rest)
  end.

(** [String(cell || '')] for a cell that is a string. *)
Definition cellValue (cell : string) : string :=
  if String.eqb cell "" then "" else cell.

(** The function mapped over the cells of a row. *)
Definition escapeCell (cell : string) : string :=
  let cellValue := cellValue cell in
  if includes_char cellValue comma || includes_char cellValue dquote
     || includes_char cellValue newline
  then String dquote (doubleQuotes cellValue ++ String dquote "")
  else cellValue.

(** [x || ''] for an optional string. *)
Definition orEmpty (x : option string) : string :=
  match x with
  | Some s => s
  | None => ""
  end.

(** The lines of the file, joined. *)
Definition csvContent (headers : list string) (rows : list (list string)) : string :=
  join (String newline "")
       (join (String comma "") headers
        :: map (fun row => join (String comma "") (map escapeCell row)) rows).

Section Exports.
(** The placeholder shown for a missing date (an em dash in the source). *)
Variable dash : string.
(** [Intl.DateTimeFormat('en-US', ...).format(new Date(iso))]; [None] when
    it throws. *)
Variable intlFormat : string -> option string.

Definition formatDate (iso : option string) : string :=
  match iso with
  | None => dash
  | Some "" => dash
  | Some s =>
      match intlFormat s with
      | Some text => text
      | None => dash
      end
  end.

Definition exportHeaders : list string :=
  ["Name"; "Email"; "Role"; "Status"; "Created Date"].

Definition exportRow (employee : Employee) : list string :=
  [userName employee;
   userEmail employee;
   ROLE_LABELS (role employee);
   statusText (status employee);
   formatDate (createdAt employee)].

(** The text [handleExportCSV] puts in the file. *)
Definition handleExportCSV (filteredEmployees : list Employee) : string :=
  csvContent exportHeaders (map exportRow filteredEmployees).

Definition detailsHeaders : list string :=
  ["Name"; "Email"; "Role"; "Status"; "Phone"; "Address"; "Date of Birth";
   "Date of Joining"; "Gender"; "Blood Group"; "Emergency Contact";
   "Emergency Phone"; "Qualifications"; "Specialization"; "Experience";
   "Professional Aim"; "Created Date"; "Deleted"; "Deleted Date"].

Definition detailsRow (employee : Employee) : list string :=
  [cellValue (userName employee);
   cellValue (userEmail employee);
   cellValue (ROLE_LABELS (role employee));
   cellValue (statusText (status employee));
   orEmpty (phone employee);
   orEmpty (address employee);
   orEmpty (dateOfBirth employee);
   orEmpty (dateOfJoining employee);
   orEmpty (gender employee);
   orEmpty (bloodGroup employee);
   orEmpty (emergencyContact employee);
   orEmpty (emergencyPhone employee);
   orEmpty (qualifications employee);
   orEmpty (specialization employee);
   orEmpty (experience employee);
   orEmpty (professionalAim employee);
   formatDate (createdAt employee);
   match deleted employee with Some true => "Yes" | _ => "No" end;
   match deletedAt employee with
   | None => ""
   | Some "" => ""
   | Some s => formatDate (Some s)
   end].

(** The text [handleExportEmployeeDetailsCSV] puts in the file. *)
Definition handleExportEmployeeDetailsCSV (employees : list Employee) : string :=
  csvContent detailsHeaders (map detailsRow employees).

End Exports.

End Users.

(** ** Route handlers: effects and exceptions

    A computation yields the effects it performed and then either throws
    or returns. *)

Module Handler.
Import JS.

Section Monad.
Variable Effect : Type.

Definition M (A : Type) : Type := (list Effect * (JsError + A))%type.

Definition ret {A} (a : A) : M A := ([], inr a).
Definition throw {A} (e : JsError) : M A := ([], inl e).
Definition emit (e : Effect) : M unit := ([e], inr tt).

Definition bind {A B} (m : M A) (f : A -> M B) : M B :=
  match m with
  | (fx, inl e) => (fx, inl e)
  | (fx, inr a) => let (fx', r) := f a in (fx ++ fx', r)
  end.

(** [try { m } catch (e) { h e }]. *)
Definition try_catch {A} (m : M A) (h : JsError -> M A) : M A :=
  match m with
  | (fx, inl e) => let (fx', r) := h e in (fx ++ fx', r)
  | (fx, inr a) => (fx, inr a)
  end.

(** A [try] whose handler always returns: the whole never throws. *)
Definition try_total {A} (m : M A) (h : JsError -> list Effect * A) : list Effect * A :=
  match m with
  | (fx, inl e) => let (fx', a) := h e in (fx ++ fx', a)
  | (fx, inr a) => (fx, a)
  end.

(** The outcome of an outside call, lifted. *)
Definition lift {A} (r : JsError + A) : M A := ([], r).

End Monad.

Arguments ret {Effect A} a.
Arguments throw {Effect A} e.
Arguments emit {Effect} e.
Arguments bind {Effect A B} m f.
Arguments try_catch {Effect A} m h.
Arguments try_total {Effect A} m h.
Arguments lift {Effect A} r.

End Handler.

Declare Scope handler_scope.
Notation "x <- m ;; k" := (Handler.bind m (fun x => k))
  (at level 61, m at next level, right associativity) : handler_scope.
Notation "m ;;; k" := (Handler.bind m (fun _ => k))
  (at level 61, right associativity) : handler_scope.

(** ** [POST /api/analyze-patient] *)

Module AnalyzePatient.
Import JS Handler.
Local Open Scope handler_scope.

Record Response := {
  status : Z;
  success : bool;
  message : option string;
  data : option Json
}.

Inductive Effect :=
| ConsoleError (what : string)
| ConsoleWarn (what : string)
| ChatCompletion (model : string) (reportHistory : list Json).

(** The outside: the parsed request body (or the error [req.json()]
    throws), the environment variable, the completion service (it throws
    or yields the content of the first choice, if any), and [JSON.parse]
    ([None] when it throws). *)
Record World := {
  requestJson : JsError + Json;
  OPENAI_API_KEY : option string;
  createCompletion : list Json -> JsError + option string;
  JSON_parse : string -> option Json
}.

(** [NextResponse.json(body, { status })]. *)
Definition failure (msg : string) (code : Z) : Response :=
  {| status := code; success := false; message := Some msg; data := None |}.

(** [NextResponse.json({ success: true, data })]: the status defaults to 200. *)
Definition ok (d : Json) : Response :=
  {| status := 200; success := true; message := None; data := Some d |}.

(** The canned analysis returned when the service is rate limited. *)
Definition fallbackAnalysis : Json :=
  JObj [("summary", JStr "AI services are currently busy. Please try again in a moment.");
        ("trend_analysis", JStr "Unable to analyze trends at this time due to high service demand. Please retry shortly.");
        ("key_achievements", JArr [JStr "Analysis temporarily unavailable"]);
        ("recommendation", JStr "Please wait a moment and try again to get the latest analytics.")].

(** [e?.status === 429 || e?.code === 'rate_limit_exceeded']. *)
Definition isRateLimit (e : JsError) : bool :=
  match err_status e with
  | Some s => s =? 429
  | None => false
  end
  || match err_code e with
     | Some c => String.eqb c "rate_limit_exceeded"
     | None => false
     end.

Definition isUnauthorized (e : JsError) : bool :=
  match err_status e with
  | Some s => s =? 401
  | None => false
  end.

(** Reading a property: a TypeError on null. *)
Definition prop (v : Json) (k : string) : M Effect (option Json) :=
  match v with
  | JNull => throw (Error ("Cannot read properties of null (reading '" ++ k ++ "')"))
  | _ => ret (getProp v k)
  end.

Definition falsy (v : option Json) : bool :=
  match v with
  | Some j => negb (truthy j)
  | None => true
  end.

Definition isArray (v : option Json) : bool :=
  match v with
  | Some (JArr _) => true
  | _ => false
  end.

(** The elements of a value known to be an array. *)
Definition elements (v : option Json) : list Json :=
  match v with
  | Some (JArr items) => items
  | _ => []
  end.

(** [!process.env.OPENAI_API_KEY]. *)
Definition keyMissing (k : option string) : bool :=
  match k with
  | None => true
  | Some s => String.eqb s ""
  end.

Section Post.
Variable w : World.

(** The body of the outer [try]. *)
Definition handle : M Effect Response :=
  body <- lift (requestJson w) ;;
  reportHistory <- prop body "reportHistory" ;;
  if falsy reportHistory || negb (isArray reportHistory) then
    ret (failure "Missing or invalid field: reportHistory (must be an array)" 400)
  else
    let items := elements reportHistory in
    if Nat.eqb (List.length items) 0 then
      ret (failure "Report history is empty. At least one report is required for analysis." 400)
    else if keyMissing (OPENAI_API_KEY w) then
      emit (ConsoleError "OPENAI_API_KEY is not set") ;;;
      ret (failure "OpenAI API key is not configured" 500)
    else
      (* the inner try around the call *)
      r <- try_catch
             (emit (ChatCompletion "gpt-3.5-turbo" items) ;;;
              content <- lift (createCompletion w items) ;;
              ret (inr content))
             (fun rateLimitError =>
                if isRateLimit rateLimitError then
                  emit (ConsoleWarn "OpenAI rate limit exceeded, returning fallback response") ;;;
                  ret (inl (ok fallbackAnalysis))
                else throw rateLimitError) ;;
      match r with
      | inl response => ret response
      | inr None | inr (Some "") => ret (failure "No response from OpenAI" 500)
      | inr (Some responseContent) =>
          match JSON_parse w responseContent with
          | None =>
              emit (ConsoleError "Failed to parse OpenAI response:") ;;;
              ret (failure "Invalid JSON response from AI" 500)
          | Some analysisResult =>
              summary <- prop analysisResult "summary" ;;
              if falsy summary
                 || falsy (getProp analysisResult "trend_analysis")
                 || negb (isArray (getProp analysisResult "key_achievements"))
                 || falsy (getProp analysisResult "recommendation")
              then ret (failure "Invalid analysis structure from AI. Missing required fields." 500)
              else ret (ok analysisResult)
          end
      end.

(** The outer [catch]. *)
Definition recover (error : JsError) : list Effect * Response :=
  ([ConsoleError "Error analyzing patient data:"],
   if isUnauthorized error then failure "Invalid OpenAI API key" 401
   else if isRateLimit error then ok fallbackAnalysis
   else failure (match err_message error with
                 | Some (String c m) => String c m
                 | _ => "Failed to analyze patient data"
                 end) 500).

(** [POST]. *)
Definition POST : list Effect * Response := try_total handle recover.

End Post.

End AnalyzePatient.

(** ** The password-change route *)

Module ChangePassword.
Import JS Handler.
Local Open Scope handler_scope.

Inductive Body :=
| ErrorBody (error : string)
| SuccessBody (message : string).   (* with success: true *)

Record Response := {
  status : Z;
  body : Body
}.

Record DecodedToken := {
  uid : string;
  email : option string
}.

Inductive Effect :=
| ConsoleError (what : string)
| VerifyIdToken (idToken : string)
| UpdateUser (uid : string) (password : string).

(** The outside: the parsed request body (or what [request.json()]
    throws) and the two calls of the authentication service. *)
Record World := {
  requestJson : JsError + Json;
  verifyIdToken : string -> JsError + DecodedToken;
  updateUser : string -> string -> JsError + unit
}.

(** [String(body?.k || '').trim()]. *)
Definition field (body : Json) (k : string) : string :=
  let v := match body with
           | JNull => None
           | _ => getProp body k
           end in
  trim (match v with
        | Some j => if truthy j then ToString j else ""
        | None => ""
        end).

Definition respond (b : Body) (code : Z) : Response :=
  {| status := code; body := b |}.

Section Post.
Variable w : World.

Definition handle : M Effect Response :=
  body <- lift (requestJson w) ;;
  let idToken := field body "idToken" in
  let currentPassword := field body "currentPassword" in
  let newPassword := field body "newPassword" in
  if String.eqb idToken "" then
    ret (respond (ErrorBody "Authentication token is required") 401)
  else if String.eqb currentPassword "" then
    ret (respond (ErrorBody "Current password is required") 400)
  else if String.eqb newPassword "" then
    ret (respond (ErrorBody "New password is required") 400)
  else if Nat.ltb (String.length newPassword) 6 then
    ret (respond (ErrorBody "New password must be at least 6 characters long") 400)
  else
    r <- try_catch
           (emit (VerifyIdToken idToken) ;;;
            decodedToken <- lift (verifyIdToken w idToken) ;;
            ret (inr decodedToken))
           (fun error =>
              emit (ConsoleError "Token verification failed:") ;;;
              ret (inl (respond (ErrorBody "Invalid or expired authentication token. Please log in again.") 401))) ;;
    match r with
    | inl response => ret response
    | inr decodedToken =>
        match email decodedToken with
        | None | Some "" => ret (respond (ErrorBody "User email not found") 400)
        | Some _ =>
            try_catch
              (emit (UpdateUser (uid decodedToken) newPassword) ;;;
               lift (updateUser w (uid decodedToken) newPassword) ;;;
               ret (respond (SuccessBody "Password has been changed successfully") 200))
              (fun error =>
                 emit (ConsoleError "Failed to update password:") ;;;
                 ret (respond (ErrorBody "Failed to update password. Please try again.") 500))
        end
    end.

Definition recover (error : JsError) : list Effect * Response :=
  ([ConsoleError "Change password error:"],
   respond (ErrorBody "An error occurred while changing your password") 500).

(** [POST]. *)
Definition POST : list Effect * Response := try_total handle recover.

End Post.

End ChangePassword.

(** ** Sums of money in double arithmetic *)

Module Money.
Import Float.
Local Open Scope Q_scope.

(** A double: a finite value (the two zeros are one), an infinity, or
    NaN. *)
Inductive Double :=
| Finite (q : Q)
| Infinity (negative : bool)
| NotANumber.

(** The double for a rounded result [r]: an infinity once [r] reaches
    2^1024 in absolute value. *)
Definition bounded (r : Q) : Double :=
  if Qle_bool (inject_Z (2 ^ 1024)) (Qabs r) then Infinity (negb (Qle_bool 0 r))
  else Finite r.

(** [a + b] on doubles. *)
Definition fadd (a b : Double) : Double :=
  match a, b with
  | NotANumber, _ => NotANumber
  | _, NotANumber => NotANumber
  | Infinity s, Infinity s' => if Bool.eqb s s' then Infinity s else NotANumber
  | Infinity s, Finite _ => Infinity s
  | Finite _, Infinity s => Infinity s
  | Finite x, Finite y => bounded (rnd (x + y))
  end.

(** [Number(x.toFixed(2))].  Below 10^21 in absolute value [toFixed]
    prints the nearest multiple of 1/100 to the exact value of [x], a tie
    going away from zero, and [Number] reads it back as a double; from
    10^21 on, and for an infinity or NaN, it prints [x] as [String] does,
    which is read back as [x]. *)
Definition toFixed2 (x : Double) : Double :=
  match x with
  | Finite q =>
      if Qle_bool (inject_Z (10 ^ 21)) (Qabs q) then Finite q
      else if Qle_bool 0 q then Finite (rnd (Qfloor (q * 100 + (1 # 2)) # 100))
      else Finite (- rnd (Qfloor (- q * 100 + (1 # 2)) # 100))
  | _ => x
  end.

End Money.

(** ** Billing cycles in the database (the billing utilities module) *)

Module BillingStore.
Import JS JSDate Billing Float Money Handler.
Local Open Scope handler_scope.

Definition monthNames : list string :=
  ["January"; "February"; "March"; "April"; "May"; "June";
   "July"; "August"; "September"; "October"; "November"; "December"].

(** [getMonthName]: [months[month - 1] || '']. *)
Definition getMonthName (month : number) : string :=
  match month with
  | Some m =>
      if m - 1 <? 0 then ""
      else nth (Z.to_nat (m - 1)) monthNames ""
  | None => ""
  end.

(** The [amount] field of a billing record: a number, a string, a
    boolean, an array, map or other object of the database (with what
    [Number] makes of it; on such values [Number] does not throw), or
    nothing (absent or null). *)
Inductive Amount :=
| AmountNumber (x : Double)
| AmountText (s : string)
| AmountBool (b : bool)
| AmountObject (asNumber : Double)
| AmountAbsent.

(** A document of the [billing] collection, as far as it is read. *)
Record BillingData := {
  status : option string;
  amount : Amount
}.

(** The document [updateCycleTotalForDate] adds; its [createdAt] is the
    server timestamp. *)
Record NewCycle := {
  nc_id : string;
  nc_startDate : string;
  nc_endDate : string;
  nc_month : number;
  nc_year : number;
  nc_status : string;
  nc_totalAmount : Z
}.

Inductive Effect :=
| QueryBilling (startDate endDate : string)
| UpdateCycle (docId : string) (totalAmount : Double) (updatedAt : string)
| QueryCycles (month year : number)
| AddCycle (c : NewCycle)
| ConsoleError (what : string).

(** The outside: the dynamic import of the database module, the answers
    of the database to the two queries and the two writes, and the clock
    at the time of the update. *)
Record World := {
  importFirestore : JsError + unit;
  queryBilling : string -> string -> JsError + list BillingData;
  updateDoc : string -> Double -> string -> JsError + unit;
  queryCycles : number -> number -> JsError + list string;
  addDoc : NewCycle -> JsError + string;
  clock : Z
}.

Section WithHost.
Variable host : Host.
(** [d.toISOString()] of the host, applied to a time value. *)
Variable toISOString : Z -> string.
(** [Number(s)] of the host on a string. *)
Variable StringToNumber : string -> Double.
Variable w : World.

(** [!!x] on a number: every number but 0 and NaN. *)
Definition numberTruthy (x : Double) : bool :=
  match x with
  | Finite q => negb (Qeq_bool q 0)
  | Infinity _ => true
  | NotANumber => false
  end.

(** [data.amount] is truthy. *)
Definition amountTruthy (a : Amount) : bool :=
  match a with
  | AmountNumber x => numberTruthy x
  | AmountText s => negb (String.eqb s "")
  | AmountBool b => b
  | AmountObject _ => true
  | AmountAbsent => false
  end.

(** [Number(data.amount)]. *)
Definition amountNumber (a : Amount) : Double :=
  match a with
  | AmountNumber x => x
  | AmountText s => StringToNumber s
  | AmountBool b => Finite (if b then 1 else 0)
  | AmountObject asNumber => asNumber
  | AmountAbsent => NotANumber
  end.

(** [Number(data.amount) || 0]. *)
Definition amountValue (a : Amount) : Double :=
  if numberTruthy (amountNumber a) then amountNumber a else Finite 0.

(** The record counts: [data.status === 'Completed' && data.amount]. *)
Definition counted (data : BillingData) : bool :=
  match status data with
  | Some s => String.eqb s "Completed"
  | None => false
  end && amountTruthy (amount data).

(** The loop over the records. *)
Definition sumCompleted (docs : list BillingData) : Double :=
  fold_left (fun totalAmount data =>
               if counted data then fadd totalAmount (amountValue (amount data))
               else totalAmount)
            docs (Finite 0).

(** [updateCycleTotalAmount].  The effect [UpdateCycle] is the write to
    the cycle document, from the making of its reference on. *)
Definition updateCycleTotalAmount (cycleId cycleStartDate cycleEndDate : string)
  : M Effect unit :=
  try_catch
    (lift (importFirestore w) ;;;
     emit (QueryBilling cycleStartDate cycleEndDate) ;;;
     docs <- lift (queryBilling w cycleStartDate cycleEndDate) ;;
     let totalAmount := sumCompleted docs in
     let updatedAt := toISOString (clock w) in
     emit (UpdateCycle cycleId (toFixed2 totalAmount) updatedAt) ;;;
     lift (updateDoc w cycleId (toFixed2 totalAmount) updatedAt))
    (fun error =>
       emit (ConsoleError ("Failed to update cycle total for cycle " ++ cycleId ++ ":")) ;;;
       ret tt).

(** [updateCycleTotalForDate]. *)
Definition updateCycleTotalForDate (billingDate : string) : M Effect unit :=
  try_catch
    (let cycle := getBillingCycleForDate host (ofString billingDate) in
     let cycleId := getBillingCycleId host (clock w) (Some (month cycle)) (Some (year cycle)) in
     lift (importFirestore w) ;;;
     emit (QueryCycles (month cycle) (year cycle)) ;;;
     cycles <- lift (queryCycles w (month cycle) (year cycle)) ;;
     match cycles with
     | cycleDoc :: _ =>
         updateCycleTotalAmount cycleDoc (startDate cycle) (endDate cycle)
     | [] =>
         let c := {| nc_id := cycleId;
                     nc_startDate := startDate cycle;
                     nc_endDate := endDate cycle;
                     nc_month := month cycle;
                     nc_year := year cycle;
                     nc_status := "active";
                     nc_totalAmount := 0 |} in
         emit (AddCycle c) ;;;
         cycleRef <- lift (addDoc w c) ;;
         updateCycleTotalAmount cycleRef (startDate cycle) (endDate cycle)
     end)
    (fun error =>
       emit (ConsoleError ("Failed to update cycle total for date " ++ billingDate ++ ":")) ;;;
       ret tt).

End WithHost.

End BillingStore.

(** ** Completion of the planned sessions (the progress component) *)

Module CompletionStatus.
Import JS Float.

(** The patient info the component keeps.  A field is [None] when the
    stored value is not a number or is NaN: the component treats both
    alike. *)
Record PatientInfo := {
  totalSessions : option Z;
  remainingSessions : option Z
}.

Record Completion := {
  completed : Z;
  total : Z;
  percentage : Z;
  remaining : Z
}.

(** [x || 0]. *)
Definition orZero (x : option Z) : Z :=
  match x with
  | Some v => v
  | None => 0
  end.

(** [completionStatus]; [reportCount] is [reportVersions.length]. *)
Definition completionStatus (patientInfo : option PatientInfo) (reportCount : nat)
  : Completion :=
  match match patientInfo with
        | Some info => totalSessions info
        | None => None
        end with
  | None | Some 0 =>
      {| completed := Z.of_nat reportCount;
         total := Z.of_nat reportCount;
         percentage := 100;
         remaining := 0 |}
  | Some totalSessions =>
      let remainingSessions :=
        match patientInfo with
        | Some info => remainingSessions info
        | None => None
        end in
      let completed := totalSessions - orZero remainingSessions in
      let percentage :=
        Math_round (fmul (fdiv (of_int completed) (of_int totalSessions)) (of_int 100)) in
      {| completed := Z.max 0 completed;
         total := totalSessions;
         percentage := percentage;
         remaining := Z.max 0 (orZero remainingSessions) |}
  end.

End CompletionStatus.

(** ** The SMS route and its client *)

Module SendSms.
Import JS Handler.
Local Open Scope handler_scope.

(** The message the service has accepted. *)
Record Sms := {
  sms_sid : string;
  sms_status : string
}.

(** The JSON body of an answer and its status. *)
Record Response := {
  status : Z;
  success : bool;
  error : option string;
  sid : option string;
  smsStatus : option string
}.

Inductive Effect :=
| ConsoleError (what : string)
| CreateMessage (to : Json) (from : string) (body : Json).

(** The outside: the parsed request body (or what [request.json()]
    throws), the three environment variables, and the messaging service. *)
Record World := {
  requestJson : JsError + Json;
  TWILIO_ACCOUNT_SID : option string;
  TWILIO_AUTH_TOKEN : option string;
  TWILIO_PHONE_NUMBER : option string;
  createMessage : Json -> string -> Json -> JsError + Sms
}.

(** The text [Missing "to" or "message" in request body]. *)
Definition missingFields : string :=
  let q := String "034"%char "" in
  "Missing " ++ q ++ "to" ++ q ++ " or " ++ q ++ "message" ++ q ++ " in request body".

Definition failure (msg : string) (code : Z) : Response :=
  {| status := code; success := false; error := Some msg; sid := None; smsStatus := None |}.

(** [!v] for a destructured field. *)
Definition falsy (v : option Json) : bool :=
  match v with
  | Some j => negb (truthy j)
  | None => true
  end.

(** [!v] for an environment variable. *)
Definition unset (v : option string) : bool :=
  match v with
  | Some s => String.eqb s ""
  | None => true
  end.

Section Post.
Variable w : World.

(** The value of a field that has passed the truthiness test. *)
Definition value (v : option Json) : Json :=
  match v with
  | Some j => j
  | None => JNull
  end.

Definition text (v : option string) : string :=
  match v with
  | Some s => s
  | None => ""
  end.

(** The body of the [try]. *)
Definition handle : M Effect Response :=
  body <- lift (requestJson w) ;;
  let source := if truthy body then body else JObj [] in
  let to := getProp source "to" in
  let message := getProp source "message" in
  if falsy to || falsy message then ret (failure missingFields 400)
  else if unset (TWILIO_ACCOUNT_SID w) || unset (TWILIO_AUTH_TOKEN w)
          || unset (TWILIO_PHONE_NUMBER w)
  then ret (failure "Twilio environment variables are not configured" 500)
  else
    let fromNumber := text (TWILIO_PHONE_NUMBER w) in
    emit (CreateMessage (value to) fromNumber (value message)) ;;;
    sms <- lift (createMessage w (value to) fromNumber (value message)) ;;
    ret {| status := 200; success := true; error := None;
           sid := Some (sms_sid sms); smsStatus := Some (sms_status sms) |}.

(** The [catch]. *)
Definition recover (error : JsError) : list Effect * Response :=
  ([ConsoleError "Error sending SMS via Twilio:"],
   failure (match err_message error with
            | Some (String c m) => String c m
            | _ => "Failed to send SMS"
            end) 500).

(** [POST]. *)
Definition POST : list Effect * Response := try_total handle recover.

End Post.

(** *** The client, [sendSms] *)

(** What [fetch] resolves to: the [ok] flag and the parsed body, or what
    [res.json()] throws. *)
Record HttpResponse := {
  http_ok : bool;
  http_json : JsError + Json
}.

Inductive Outcome :=
| Returns (data : Json)
| Throws (e : JsError).

(** [sendSms], given what [fetch] does with the request body. *)
Definition sendSms (fetch : Json -> JsError + HttpResponse) (to message : Json) : Outcome :=
  match fetch (JObj [("to", to); ("message", message)]) with
  | inl e => Throws e
  | inr res =>
      match http_json res with
      | inl e => Throws e
      | inr data =>
          match data with
          | JNull =>
              if negb (http_ok res)
              then Throws (Error "Cannot read properties of null (reading 'error')")
              else Throws (Error "Cannot read properties of null (reading 'success')")
          | _ =>
              if negb (http_ok res) || falsy (getProp data "success") then
                Throws (Error (match getProp data "error" with
                               | Some j => if truthy j then ToString j else "Failed to send SMS"
                               | None => "Failed to send SMS"
                               end))
              else Returns data
          end
      end
  end.

(** The answer of the route as the client receives it: [ok] for a status
    from 200 to 299, and the body as JSON. *)
Definition served (r : Response) : HttpResponse :=
  let opt (k : string) (v : option string) :=
    match v with
    | Some s => [(k, JStr s)]
    | None => []
    end in
  {| http_ok := (200 <=? status r) && (status r <=? 299);
     http_json := inr (JObj ([("success", JBool (success r))]
                             ++ opt "error" (error r)
                             ++ opt "sid" (sid r)
                             ++ opt "status" (smsStatus r))) |}.

(** The route behind [fetch]: the server with its environment and
    messaging service, answering the body it is sent. *)
Definition route (w : World) (body : Json) : World :=
  {| requestJson := inr body;
     TWILIO_ACCOUNT_SID := TWILIO_ACCOUNT_SID w;
     TWILIO_AUTH_TOKEN := TWILIO_AUTH_TOKEN w;
     TWILIO_PHONE_NUMBER := TWILIO_PHONE_NUMBER w;
     createMessage := createMessage w |}.

End SendSms.

(** ** Text search *)

Module JSText.

(** [toLowerCase] on one code unit below 256: the letters A to Z and the
    accented capitals from 192 to 222, the multiplication sign excepted,
    move up by 32. *)
Definition lower (c : ascii) : ascii :=
  let n := nat_of_ascii c in
  if (Nat.leb 65 n && Nat.leb n 90)
     || (Nat.leb 192 n && Nat.leb n 222 && negb (Nat.eqb n 215))
  then ascii_of_nat (n + 32)
  else c.

(** [s.toLowerCase()]. *)
Fixpoint toLowerCase (s : string) : string :=
  match s with
  | EmptyString => ""
  | String c rest => String (lower c) (toLowerCase rest)
  end.

(** [s.startsWith(q)]. *)
Fixpoint startsWith (s q : string) {struct q} : bool :=
  match q, s with
  | EmptyString, _ => true
  | String a q', String b s' => Ascii.eqb a b && startsWith s' q'
  | String _ _, EmptyString => false
  end.

(** [s.includes(q)]. *)
Fixpoint includes (s q : string) : bool :=
  startsWith s q ||
  match s with
  | EmptyString => false
  | String _ rest => includes rest q
  end.

End JSText.

(** ** The employee list, its counters and its form (the users page) *)

Module UsersView.
Import JS JSArray JSText Users.

(** [a === b] on roles. *)
Definition role_eqb (a b : EmployeeRole) : bool :=
  match a, b with
  | FrontDesk, FrontDesk | ClinicalTeam, ClinicalTeam
  | Physiotherapist, Physiotherapist
  | StrengthAndConditioning, StrengthAndConditioning | Admin, Admin => true
  | _, _ => false
  end.

Definition status_eqb (a b : EmployeeStatus) : bool :=
  match a, b with
  | Active, Active | Inactive, Inactive => true
  | _, _ => false
  end.

Section Snapshot.
(** [a.localeCompare(b)] of the host. *)
Variable localeCompare : string -> string -> Z.

(** The end of the snapshot handler: the records with one of the four
    staff roles, sorted by name. *)
Definition staffRecords (records : list Employee) : list Employee :=
  sort (fun a b => Some (localeCompare (userName a) (userName b)))
       (filter (fun record =>
                  role_eqb (role record) FrontDesk
                  || role_eqb (role record) ClinicalTeam
                  || role_eqb (role record) Physiotherapist
                  || role_eqb (role record) StrengthAndConditioning)
               records).

End Snapshot.

(** The role filter of the page: all roles, or one. *)
Inductive RoleFilter :=
| AllRoles
| OnlyRole (r : EmployeeRole).

(** [employee.deleted === true]. *)
Definition isDeleted (employee : Employee) : bool :=
  match deleted employee with
  | Some true => true
  | _ => false
  end.

(** [filteredEmployees]. *)
Definition filteredEmployees (employees : list Employee) (searchTerm : string)
  (roleFilter : RoleFilter) (showDeletedEmployees : bool) : list Employee :=
  let query := toLowerCase (trim searchTerm) in
  filter (fun employee =>
            let isDeleted := isDeleted employee in
            if showDeletedEmployees && negb isDeleted then false
            else if negb showDeletedEmployees && isDeleted then false
            else
              let matchesSearch :=
                String.eqb query ""
                || includes (toLowerCase (userName employee)) query
                || includes (toLowerCase (userEmail employee)) query
                || includes (toLowerCase (ROLE_LABELS (role employee))) query in
              let matchesRole :=
                match roleFilter with
                | AllRoles => true
                | OnlyRole r => role_eqb (role employee) r
                end in
              matchesSearch && matchesRole)
         employees.

Record Analytics := {
  total : Z;
  active : Z;
  inactive : Z;
  frontDesk : Z;
  clinical : Z;
  adminCount : Z;
  deletedCount : Z
}.

(** [arr.filter(f).length]. *)
Definition count {A : Type} (f : A -> bool) (l : list A) : Z :=
  Z.of_nat (List.length (filter f l)).

(** [analytics]. *)
Definition analytics (employees : list Employee) : Analytics :=
  let activeEmployees := filter (fun emp => negb (isDeleted emp)) employees in
  let total := Z.of_nat (List.length activeEmployees) in
  let active := count (fun emp => status_eqb (status emp) Active) activeEmployees in
  let inactive := total - active in
  let frontDesk := count (fun emp => role_eqb (role emp) FrontDesk) activeEmployees in
  let clinical := count (fun emp => role_eqb (role emp) ClinicalTeam) activeEmployees in
  let adminCount := count (fun emp => role_eqb (role emp) Admin) activeEmployees in
  let deletedCount := count isDeleted employees in
  {| total := total; active := active; inactive := inactive; frontDesk := frontDesk;
     clinical := clinical; adminCount := adminCount; deletedCount := deletedCount |}.

(** *** The form *)

Record FormState := {
  form_userName : string;
  form_userEmail : string;
  form_userRole : EmployeeRole;
  form_userStatus : EmployeeStatus;
  form_password : string
}.

(** [openEditDialog]: the form it sets for an employee. *)
Definition openEditDialog (employee : Employee) : FormState :=
  {| form_userName := userName employee;
     form_userEmail := userEmail employee;
     form_userRole := if role_eqb (role employee) Admin then FrontDesk else role employee;
     form_userStatus := status employee;
     form_password := "" |}.

(** The messages [handleSubmit] shows, by kind, with their variable parts. *)
Inductive SubmitError :=
| Required                               (* Name and email are required. *)
| ShortPassword                          (* Password must be at least 6 characters long (if provided). *)
| PermissionDenied (code : string)       (* ... Error code: code *)
| Unavailable (msg : string)             (* ... Error: msg *)
| CreateFailed (msg code : string)       (* ... Error: msg, Code: code *)
| SaveFailed (msg : string).             (* Error: msg ... *)

Inductive Effect :=
| PreventDefault
| SetError (e : option SubmitError)
| SetSaving (b : bool)
| UpdateDoc (id userName : string) (role : EmployeeRole) (status : EmployeeStatus)
| AddDoc (userName userEmail : string) (role : EmployeeRole) (status : EmployeeStatus)
| ConsoleError (what : string)
| CloseDialog.

(** The database, as far as the form writes to it. *)
Record World := {
  updateDoc : string -> string -> EmployeeRole -> EmployeeStatus -> JsError + unit;
  addDoc : string -> string -> EmployeeRole -> EmployeeStatus -> JsError + unit
}.

Section Submit.
(** [err.toString()] of the host. *)
Variable errToString : JsError -> string.
Variable w : World.

Definition code_is (err : JsError) (c : string) : bool :=
  match err_code err with
  | Some k => String.eqb k c
  | None => false
  end.

(** [err?.message?.includes(part)], as a condition. *)
Definition message_includes (err : JsError) (part : string) : bool :=
  match err_message err with
  | Some m => includes m part
  | None => false
  end.

(** [err?.message || err?.toString() || 'Unknown error']. *)
Definition errorMsg (err : JsError) : string :=
  match err_message err with
  | Some (String c m) => String c m
  | _ => match errToString err with
         | String c m => String c m
         | EmptyString => "Unknown error"
         end
  end.

(** [err?.code || fallback]. *)
Definition codeOr (err : JsError) (fallback : string) : string :=
  match err_code err with
  | Some (String c m) => String c m
  | _ => fallback
  end.

(** The message shown when the new record cannot be added. *)
Definition createError (err : JsError) : SubmitError :=
  if code_is err "permission-denied" || message_includes err "permission"
     || code_is err "PERMISSION_DENIED"
  then PermissionDenied (codeOr err "Unknown")
  else if code_is err "unavailable" || message_includes err "unavailable"
  then Unavailable (match err_message err with
                    | Some (String c m) => String c m
                    | _ => "Unknown error"
                    end)
  else CreateFailed (errorMsg err) (codeOr err "N/A").

(** [handleSubmit]: what it does, in order. *)
Definition handleSubmit (formState : FormState) (editingEmployee : option Employee)
  : list Effect :=
  let trimmedName := trim (form_userName formState) in
  let trimmedEmail := toLowerCase (trim (form_userEmail formState)) in
  let trimmedPassword := trim (form_password formState) in
  PreventDefault :: SetError None ::
  if String.eqb trimmedName "" || String.eqb trimmedEmail "" then
    [SetError (Some Required)]
  else if match editingEmployee with None => true | Some _ => false end
          && negb (String.eqb trimmedPassword "")
          && Nat.ltb (String.length trimmedPassword) 6 then
    [SetError (Some ShortPassword)]
  else
    SetSaving true ::
    match editingEmployee with
    | Some employee =>
        UpdateDoc (id employee) trimmedName (form_userRole formState)
                  (form_userStatus formState) ::
        match updateDoc w (id employee) trimmedName (form_userRole formState)
                        (form_userStatus formState) with
        | inr _ => [CloseDialog; SetSaving false]
        | inl err =>
            [ConsoleError "Failed to save employee";
             SetError (Some (SaveFailed (errorMsg err)));
             SetSaving false]
        end
    | None =>
        AddDoc trimmedName trimmedEmail (form_userRole formState)
               (form_userStatus formState) ::
        match addDoc w trimmedName trimmedEmail (form_userRole formState)
                     (form_userStatus formState) with
        | inr _ => [CloseDialog; SetSaving false]
        | inl err =>
            (* the inner catch returns; the finally clause still runs *)
            [ConsoleError "Failed to create staff record:";
             SetError (Some (createError err));
             SetSaving false;
             SetSaving false]
        end
    end.

End Submit.

End UsersView.

(** ** Notifications of leave requests *)

Module LeaveNotification.
Import JS JSText.

(** A pending leave request as stored, as far as the component reads it.
    A field is [None] when it is absent, null or empty. *)
Record LeaveDoc := {
  doc_id : string;
  doc_approvalRequestedToEmail : option string;
  doc_userName : option string;
  doc_leaveType : option string;
  doc_startDate : option string;
  doc_endDate : option string
}.

Record LeaveRequest := {
  id : string;
  userName : string;
  leaveType : string;
  startDate : string;
  endDate : string;
  approvalRequestedToEmail : option string
}.

Record ToastNotification := {
  toast_id : string;
  message : string;
  leaveRequestId : string
}.

(** The state of the component and its two refs. *)
Record State := {
  pendingCount : Z;
  toasts : list ToastNotification;
  previousRequestIds : list string;
  hasInitialized : bool
}.

Definition initial : State :=
  {| pendingCount := 0; toasts := []; previousRequestIds := []; hasInitialized := false |}.

(** [x || fallback] for a string field. *)
Definition orElse (x : option string) (fallback : string) : string :=
  match x with
  | Some (String c s) => String c s
  | _ => fallback
  end.

(** [set.has(x)]. *)
Definition has (set : list string) (x : string) : bool :=
  existsb (String.eqb x) set.

Section Component.
(** [new Date(s).toLocaleDateString('en-US', ...)] of the host. *)
Variable toLocaleDateString : string -> string.
(** The email of the signed-in user, lower-cased. *)
Variable adminEmail : string.

(** The test of the loop: the request was addressed to this user. *)
Definition addressed (data : LeaveDoc) : bool :=
  let requestEmail := toLowerCase (orElse (doc_approvalRequestedToEmail data) "") in
  String.eqb requestEmail adminEmail && negb (String.eqb requestEmail "").

Definition toRequest (data : LeaveDoc) : LeaveRequest :=
  {| id := doc_id data;
     userName := orElse (doc_userName data) "Unknown";
     leaveType := orElse (doc_leaveType data) "";
     startDate := orElse (doc_startDate data) "";
     endDate := orElse (doc_endDate data) "";
     approvalRequestedToEmail :=
       match doc_approvalRequestedToEmail data with
       | Some (String c s) => Some (String c s)
       | _ => None
       end |}.

(** The [formatDate] of the toast. *)
Definition formatDate (dateStr : string) : string :=
  if String.eqb dateStr "" then "" else toLocaleDateString dateStr.

(** The toast for a request, made at time [now]. *)
Definition toastFor (now : Z) (request : LeaveRequest) : ToastNotification :=
  {| toast_id := id request ++ "-" ++ IntegerToString now;
     message := "New leave request from " ++ userName request ++ ": "
                ++ leaveType request ++ " from " ++ formatDate (startDate request)
                ++ " to " ++ formatDate (endDate request);
     leaveRequestId := id request |}.

(** The snapshot callback; [now n] is what [Date.now()] yields for the
    [n]-th new request of this snapshot. *)
Definition onSnapshot (s : State) (snapshot : list LeaveDoc) (now : nat -> Z) : State :=
  let requests := map toRequest (filter addressed snapshot) in
  let currentRequestIds := map id requests in
  let toasts :=
    if hasInitialized s then
      let newRequests :=
        filter (fun req => negb (has (previousRequestIds s) (id req))) requests in
      toasts s ++ JSArray.mapi (fun request n => toastFor (now n) request) newRequests
    else toasts s in
  {| pendingCount := Z.of_nat (List.length requests);
     toasts := toasts;
     previousRequestIds := currentRequestIds;
     hasInitialized := true |}.

(** [removeToast], also what the timer of a toast does after 8 seconds. *)
Definition removeToast (s : State) (toastId : string) : State :=
  {| pendingCount := pendingCount s;
     toasts := filter (fun t => negb (String.eqb (toast_id t) toastId)) (toasts s);
     previousRequestIds := previousRequestIds s;
     hasInitialized := hasInitialized s |}.

(** What happens to the component. *)
Inductive Event :=
| Snapshot (docs : list LeaveDoc) (now : nat -> Z)
| Remove (toastId : string).

Definition step (s : State) (e : Event) : State :=
  match e with
  | Snapshot docs now => onSnapshot s docs now
  | Remove toastId => removeToast s toastId
  end.

Definition run (events : list Event) : State := fold_left step events initial.

End Component.

End LeaveNotification.

(** ** The analytics modal

    The modal starts a load and does not wait for it: the load settles
    later, whatever has happened to the modal in between, and nothing
    cancels it.  The model is a transition system whose events are the
    runs of the effect of the component, the clicks on Retry and the
    settling of the loads in flight. *)

Module AnalyticsModal.
Import JS AnalyticsService.

(** The three state variables. *)
Record State := {
  analytics : option PatientAnalytics;
  loading : bool;
  error : option string
}.

Definition setAnalytics (a : option PatientAnalytics) (s : State) : State :=
  {| analytics := a; loading := loading s; error := error s |}.

Definition setLoading (b : bool) (s : State) : State :=
  {| analytics := analytics s; loading := b; error := error s |}.

Definition setError (e : option string) (s : State) : State :=
  {| analytics := analytics s; loading := loading s; error := e |}.

(** The component: the props of its last render, its state, and the
    patients of the loads that have started and not settled yet, oldest
    first. *)
Record Modal := {
  isOpen : bool;
  patientId : string;
  view : State;
  pending : list string
}.

(** The modal as it is mounted, closed. *)
Definition initial : Modal :=
  {| isOpen := false; patientId := "";
     view := {| analytics := None; loading := false; error := None |};
     pending := [] |}.

(** [l] without its element at index [k]. *)
Fixpoint remove_nth {A : Type} (k : nat) (l : list A) : list A :=
  match l, k with
  | [], _ => []
  | _ :: rest, O => rest
  | x :: rest, S k' => x :: remove_nth k' rest
  end.

Section Modal.
Variable V : Type.
Variable host : JSDate.Host.
Variable toISOString : Z -> string.

Inductive Effect :=
| Service (e : AnalyticsService.Effect V)
| ConsoleError (what : string).

Inductive Event :=
| Change (isOpen : bool) (patientId : string)
    (* the effect of the component runs, with these props *)
| Retry
    (* the Retry button is clicked *)
| Settle (k : nat) (w : World V).
    (* the load at index [k] of the loads in flight settles; [w] is what
       the database, the clock and the endpoint have answered to it *)

(** [loadAnalytics] up to its [await]: the three state variables are
    set and the load is in flight. *)
Definition loadAnalytics (m : Modal) : Modal :=
  let s := setLoading true (view m) in
  let s := setError None s in
  let s := setAnalytics None s in
  {| isOpen := isOpen m; patientId := patientId m; view := s;
     pending := pending m ++ [patientId m] |}.

(** [loadAnalytics] from its [await] on, for the load of [patient]: the
    state it leaves and what the load has done.  The calls of the
    service are listed here, when the load settles. *)
Definition settle (w : World V) (patient : string) (s : State) : State * list Effect :=
  match fetchPatientAnalytics V host toISOString w patient with
  | (Returns result, fx) =>
      let s := setAnalytics (Some result) s in
      (setLoading false s, map Service fx)
  | (Throws err, fx) =>
      let s := setError (Some (match err_message err with
                               | Some (String c m) => String c m
                               | _ => "Failed to load patient analytics"
                               end)) s in
      (setLoading false s, map Service fx ++ [ConsoleError "Error loading analytics:"])
  end.

(** The Retry button is on the screen: the modal is open and shows an
    error. *)
Definition retryShown (m : Modal) : bool :=
  isOpen m && match error (view m) with
              | Some msg => negb (String.eqb msg "")
              | None => false
              end.

Definition step (m : Modal) (e : Event) : Modal * list Effect :=
  match e with
  | Change o p =>
      let m := {| isOpen := o; patientId := p; view := view m; pending := pending m |} in
      if o && negb (String.eqb p "") then (loadAnalytics m, [])
      else
        let s := setAnalytics None (view m) in
        let s := setError None s in
        ({| isOpen := o; patientId := p; view := setLoading false s;
            pending := pending m |}, [])
  | Retry => if retryShown m then (loadAnalytics m, []) else (m, [])
  | Settle k w =>
      match nth_error (pending m) k with
      | Some patient =>
          let (s, fx) := settle w patient (view m) in
          ({| isOpen := isOpen m; patientId := patientId m; view := s;
              pending := remove_nth k (pending m) |}, fx)
      | None => (m, [])
      end
  end.

(** The modal after a sequence of events. *)
Definition run (m : Modal) (events : list Event) : Modal :=
  fold_left (fun m e => fst (step m e)) events m.

End Modal.

Arguments Service {V} e.
Arguments ConsoleError {V} what.
Arguments Change {V} isOpen patientId.
Arguments Retry {V}.
Arguments Settle {V} k w.

End AnalyticsModal.

(** ** The script that deletes sample appointments *)

Module SampleAppointments.
Import JS JSText.

(** An appointment as stored, as far as the script reads it to decide.
    A field is [None] when it is absent, null or empty. *)
Record Appointment := {
  ap_id : string;
  notes : option string;
  patient : option string;
  doctor : option string;
  patientId : option string
}.

Definition SAMPLE_PATIENT_NAMES : list string :=
  ["John Doe"; "Jane Smith"; "Robert Johnson"; "Emily Williams";
   "Michael Brown"; "Sarah Davis"; "David Wilson"; "Lisa Anderson"].

Definition SAMPLE_DOCTOR_NAMES : list string :=
  ["Dr. Smith"; "Dr. Johnson"; "Dr. Williams"; "Dr. Brown"; "Dr. Davis"].

(** [\d]. *)
Definition is_digit (c : ascii) : bool :=
  let n := nat_of_ascii c in
  Nat.leb 48 n && Nat.leb n 57.

(** [SAMPLE_PATIENT_ID_PATTERN.test(s)]: the letters PAT and four digits,
    nothing before and nothing after. *)
Definition matchesPattern (s : string) : bool :=
  match s with
  | String "P" (String "A" (String "T" (String a (String b (String c (String d ""))))))
    => is_digit a && is_digit b && is_digit c && is_digit d
  | _ => false
  end.

(** [names.includes(x)]. *)
Definition listed (names : list string) (x : string) : bool :=
  existsb (String.eqb x) names.

(** [x && test x] for an optional string. *)
Definition truthyAnd (x : option string) (test : string -> bool) : bool :=
  match x with
  | Some (String c s) => test (String c s)
  | _ => false
  end.

(** The four checks of the loop; [isSample] is true when one of them
    succeeds. *)
Definition isSample (data : Appointment) : bool :=
  truthyAnd (notes data)
            (fun n => let notesLower := toLowerCase n in
                      includes notesLower "sample" || includes notesLower "testing")
  || truthyAnd (patient data) (listed SAMPLE_PATIENT_NAMES)
  || truthyAnd (doctor data) (listed SAMPLE_DOCTOR_NAMES)
  || truthyAnd (patientId data) matchesPattern.

Inductive Effect :=
| Delete (id : string).

(** The counts the script prints at the end. *)
Record Counts := {
  checkedCount : Z;
  foundCount : Z;
  deletedCount : Z;
  errorCount : Z
}.

Inductive Outcome :=
| NoAppointments               (* the collection is empty *)
| NothingToDelete (checked : Z)
| Deleted (c : Counts)
| Failed.                      (* the process exits with code 1 *)

(** The database: the appointments, and what deleting one does. *)
Record World := {
  getAppointments : JsError + list Appointment;
  deleteDoc : string -> JsError + unit
}.

Section Script.
Variable w : World.

(** The deletion loop: the two counters after the appointments of the
    list, and the deletions attempted. *)
Fixpoint deleteAll (ids : list string) (deletedCount errorCount : Z)
  : list Effect * (Z * Z) :=
  match ids with
  | [] => ([], (deletedCount, errorCount))
  | id :: rest =>
      let counts := match deleteDoc w id with
                    | inr _ => (deletedCount + 1, errorCount)
                    | inl _ => (deletedCount, errorCount + 1)
                    end in
      let (fx, final) := deleteAll rest (fst counts) (snd counts) in
      (Delete id :: fx, final)
  end.

(** [deleteSampleAppointments]. *)
Definition deleteSampleAppointments : list Effect * Outcome :=
  match getAppointments w with
  | inl _ => ([], Failed)
  | inr [] => ([], NoAppointments)
  | inr snapshot =>
      let appointmentsToDelete := map ap_id (filter isSample snapshot) in
      let checkedCount := Z.of_nat (List.length snapshot) in
      if Nat.eqb (List.length appointmentsToDelete) 0 then ([], NothingToDelete checkedCount)
      else
        let (fx, counts) := deleteAll appointmentsToDelete 0 0 in
        (fx, Deleted {| checkedCount := checkedCount;
                        foundCount := Z.of_nat (List.length appointmentsToDelete);
                        deletedCount := fst counts;
                        errorCount := snd counts |})
  end.

End Script.

End SampleAppointments.

(** ** The script that creates the admin user *)

Module CreateAdminUser.
Import JS JSText Handler.
Local Open Scope handler_scope.

Definition DEFAULT_PROJECT_ID : string := "centerforsportsandscience".
Definition DEFAULT_DATABASE_ID : string := "sixs-physio".

(** [a || b] on values that are strings or undefined. *)
Definition or_ (a b : option string) : option string :=
  match a with
  | Some (String c s) => Some (String c s)
  | _ => b
  end.

(** [a ?? b]. *)
Definition nullish (a b : option string) : option string :=
  match a with
  | Some s => Some s
  | None => b
  end.

Section Env.
(** [process.env]: [None] for a variable that is not set. *)
Variable env : string -> option string.

Definition isStaging : bool :=
  match env "NEXT_PUBLIC_ENVIRONMENT" with
  | Some s => String.eqb s "staging"
  | None => false
  end.

(** [resolveProjectId]. *)
Definition resolveProjectId (serviceAccountProjectId : option string) : option string :=
  let stagingId :=
    or_ (env "NEXT_PUBLIC_FIREBASE_STAGING_PROJECT_ID") (env "FIREBASE_STAGING_PROJECT_ID") in
  let prodId :=
    or_ (env "NEXT_PUBLIC_FIREBASE_PROJECT_ID") (env "FIREBASE_PROJECT_ID") in
  or_ (or_ (if isStaging then nullish stagingId prodId else nullish prodId stagingId)
           serviceAccountProjectId)
      (Some DEFAULT_PROJECT_ID).

(** [resolveDatabaseId]; [None] is [undefined], the default database. *)
Definition resolveDatabaseId : option string :=
  let stagingId :=
    or_ (env "FIREBASE_STAGING_DATABASE_ID") (env "NEXT_PUBLIC_FIREBASE_STAGING_DATABASE_ID") in
  let prodId :=
    or_ (env "FIREBASE_DATABASE_ID") (env "NEXT_PUBLIC_FIREBASE_DATABASE_ID") in
  let rawId := if isStaging then nullish stagingId prodId else nullish prodId stagingId in
  let candidate := or_ rawId (Some DEFAULT_DATABASE_ID) in
  match candidate with
  | None | Some EmptyString => None
  | Some c =>
      if String.eqb c "(default)" || String.eqb (toLowerCase c) "default" then None
      else Some c
  end.

End Env.

(** *** [createAdminUser] *)

Definition ADMIN_EMAIL : string := "admincss@test.com".
Definition ADMIN_PASSWORD : string := "admin123".
Definition ADMIN_DISPLAY_NAME : string := "Admin User".
Definition ADMIN_ROLE : string := "Admin".

(** The profile written to the [users] collection, merged into what is
    there. *)
Record Profile := {
  email : string;
  displayName : string;
  userName : string;
  role : string;
  status : string;
  updatedAt : string;
  createdAt : option string
}.

Inductive Effect :=
| GetUserByEmail (email : string)
| UpdateUser (uid displayName password : string)
| CreateUser (email password displayName : string)
| SetCustomUserClaims (uid role : string)
| SetProfile (databaseId : option string) (uid : string) (profile : Profile)
| ConsoleError (what : string).

(** The outside: the initialisation of the SDK, the authentication
    service (each call yields the uid of the user record), the profile
    store, and the clock at its successive readings. *)
Record World := {
  initializeFirebaseAdmin : JsError + unit;
  getUserByEmail : string -> JsError + string;
  updateUser : string -> JsError + string;
  createUser : string -> JsError + string;
  setCustomUserClaims : string -> JsError + unit;
  setProfile : string -> Profile -> JsError + unit;
  clock : nat -> Z
}.

Section Script.
Variable env : string -> option string.
(** [d.toISOString()] of the host, applied to a time value. *)
Variable toISOString : Z -> string.
Variable w : World.

Definition code_is (e : JsError) (c : string) : bool :=
  match err_code e with
  | Some k => String.eqb k c
  | None => false
  end.

(** The body of the [try]. *)
Definition create : M Effect unit :=
  lift (initializeFirebaseAdmin w) ;;;
  let databaseId := resolveDatabaseId env in
  found <- try_catch
             (emit (GetUserByEmail ADMIN_EMAIL) ;;;
              uid <- lift (getUserByEmail w ADMIN_EMAIL) ;;
              emit (UpdateUser uid ADMIN_DISPLAY_NAME ADMIN_PASSWORD) ;;;
              uid <- lift (updateUser w uid) ;;
              ret (uid, false))
             (fun getUserError =>
                if code_is getUserError "auth/user-not-found" then
                  emit (CreateUser ADMIN_EMAIL ADMIN_PASSWORD ADMIN_DISPLAY_NAME) ;;;
                  uid <- lift (createUser w ADMIN_EMAIL) ;;
                  ret (uid, true)
                else throw getUserError) ;;
  let uid := fst found in
  let isNewUser := snd found in
  emit (SetCustomUserClaims uid ADMIN_ROLE) ;;;
  lift (setCustomUserClaims w uid) ;;;
  let userProfileData :=
    {| email := ADMIN_EMAIL;
       displayName := ADMIN_DISPLAY_NAME;
       userName := ADMIN_DISPLAY_NAME;
       role := ADMIN_ROLE;
       status := "Active";
       updatedAt := toISOString (clock w 0);
       createdAt := if isNewUser then Some (toISOString (clock w 1)) else None |} in
  emit (SetProfile databaseId uid userProfileData) ;;;
  lift (setProfile w uid userProfileData).

(** [createAdminUser] and the two handlers of its promise: the effects
    and the exit code of the process. *)
Definition createAdminUser : list Effect * Z :=
  try_total (create ;;; ret 0)
            (fun error => ([ConsoleError "Error creating admin user:"], 1)).

End Script.

End CreateAdminUser.

(* ================================================================== *)
(** * Part II: the vocabulary of the statements *)
(* ================================================================== *)

(** ** Printed dates and cycles *)

Module BillingSpec.
Import JS JSDate Billing.

(** [s] is the four-digit numeral of [y]. *)
Definition four_digits (s : string) (y : Z) : Prop :=
  exists a b c d, s = String a (String b (String c (String d ""))) /\ digits4 a b c d = Some y.

(** [s] is the two-digit numeral of [v]. *)
Definition two_digits (s : string) (v : Z) : Prop :=
  exists a b, s = String a (String b "") /\ digits2 a b = Some v.

(** Decides [four_digits (ZToString y) y]. *)
Definition four_digits_b (y : Z) : bool :=
  match ZToString y with
  | String a (String b (String c (String d ""))) =>
      match digits4 a b c d with
      | Some v => v =? y
      | None => false
      end
  | _ => false
  end.

(** Decides [two_digits (padStart (ZToString v) 2 "0") v]. *)
Definition two_digits_b (v : Z) : bool :=
  match padStart (ZToString v) 2 "0" with
  | String a (String b "") =>
      match digits2 a b with
      | Some x => x =? v
      | None => false
      end
  | _ => false
  end.

(** The integers [lo], [lo + 1], ..., [lo + n - 1]. *)
Definition zrange (lo n : Z) : list Z :=
  map (fun k => lo + Z.of_nat k) (seq 0 (Z.to_nat n)).

(** The text [formatDate] gives for year [y], month [m] (1 to 12) and
    day [d]. *)
Definition isoDate (y m d : Z) : string :=
  IntegerToString y ++ "-" ++ padStart (ZToString m) 2 "0" ++ "-" ++ padStart (ZToString d) 2 "0".

(** [s] reads YYYY-MM-DD and denotes year [y], month [m], day [d]. *)
Definition is_YYYY_MM_DD (s : string) (y m d : Z) : Prop :=
  exists sy sm sd : string,
    s = (sy ++ "-" ++ sm ++ "-" ++ sd)%string /\
    four_digits sy y /\ two_digits sm m /\ two_digits sd d.

(** [s] reads YYYY-MM and denotes year [y], month [m]. *)
Definition is_YYYY_MM (s : string) (y m : Z) : Prop :=
  exists sy sm : string,
    s = (sy ++ "-" ++ sm)%string /\ four_digits sy y /\ two_digits sm m.

(** Local midnight of the day is a time value a [Date] can hold. *)
Definition representable (host : Host) (y m d : Z) : Prop :=
  Z.abs (MakeDate (MakeDay y m d) 0 - LocalTZA host) <= maxTime.

(** The cycle of month [m] (1 to 12) of year [y]. *)
Definition cycleOf (y m : Z) : Cycle :=
  {| month := Some m;
     year := Some y;
     startDate := isoDate y m 1;
     endDate := isoDate y m (DaysInMonth y (m - 1)) |}.


End BillingSpec.

(** ** The rate and the rounding error *)

Module FloatSpec.
Import Float.
Local Open Scope Q_scope.

(** Half an ulp, relative: 2^-53. *)
Definition eps : Q := 1 # 9007199254740992.

(** The rate computed from a count [c] out of [n]. *)
Definition rate (c n : Z) : Z :=
  Math_round (fmul (fdiv (of_int c) (of_int n)) (of_int 100)).

(** The reference operations of the Standard Library on binary floats,
    at precision 53 and maximal exponent 1024: the double operations. *)
Definition b64_of_Z (z : Z) : spec_float := binary_normalize 53 1024 z 0 false.

(** The rational a finite binary float denotes. *)
Definition Q_of_b64 (f : spec_float) : option Q :=
  match f with
  | S754_zero _ => Some 0%Q
  | S754_finite s m e =>
      let v := if s then Z.neg m else Z.pos m in
      Some (if (0 <=? e)%Z then inject_Z (v * 2 ^ e) else (v # Z.to_pos (2 ^ (- e))))
  | _ => None
  end.

(** The reference operations and the model give the same product
    [(c / n) * 100]. *)
Definition agree (c n : Z) : bool :=
  match Q_of_b64 (SFmul 53 1024 (SFdiv 53 1024 (b64_of_Z c) (b64_of_Z n)) (b64_of_Z 100)) with
  | Some q => Qeq_bool q (fmul (fdiv (of_int c) (of_int n)) (of_int 100))
  | None => false
  end.

End FloatSpec.

(** ** Orders on reports *)

Module AnalyticsSpec.
Import JS JSDate ProgressAnalytics.

(** Both arguments have a time and the first is not later. *)
Definition time_le {A : Type} (time : A -> number) (a b : A) : Prop :=
  match time a, time b with
  | Some x, Some y => x <= y
  | _, _ => False
  end.

(** The element has a time: its date is valid. *)
Definition has_time {A : Type} (time : A -> number) (a : A) : Prop :=
  exists t, time a = Some t.

(** Nondecreasing times along the list. *)
Definition chronological {A : Type} (time : A -> number) (l : list A) : Prop :=
  StronglySorted (time_le time) l.

(** The last [k] elements of a list. *)
Definition lastn {A : Type} (k : nat) (l : list A) : list A :=
  skipn (List.length l - k) l.

(** The effect is a request to the endpoint. *)
Definition isFetch (V : Type) (e : AnalyticsService.Effect V) : bool :=
  match e with
  | AnalyticsService.Fetch _ _ _ => true
  | _ => false
  end.

(** The order of the load step: by version number, and by creation time
    among equal version numbers. *)
Definition version_then_time (host : Host) (a b : ReportVersion) : Prop :=
  has_time (createdTime host) a /\ has_time (createdTime host) b /\
  (version a < version b \/
   (version a = version b /\ time_le (createdTime host) a b)).

(** Two versions whose numbers and creation times disagree: version 1
    created on 1 February 2024, version 2 on 1 January 2024. *)
Definition versionFeb : ReportVersion :=
  {| id := "a"; version := 1; createdAt := "2024-02-01T00:00:00.000Z";
     createdBy := "Unknown"; currentPainStatus := None |}.

Definition versionJan : ReportVersion :=
  {| id := "b"; version := 2; createdAt := "2024-01-01T00:00:00.000Z";
     createdBy := "Unknown"; currentPainStatus := None |}.

End AnalyticsSpec.

(** ** Cells and boundaries of a CSV text *)

Module CsvSpec.
Import JS Users.
Local Open Scope string_scope.

Definition creturn : ascii := "013"%char.

(** A cell without comma, double quote or line feed. *)
Definition plain (s : string) : bool :=
  negb (includes_char s comma || includes_char s dquote || includes_char s newline).

(** A cell that holds no carriage return, or that the export encloses in
    double quotes. *)
Definition readable (s : string) : bool :=
  negb (plain s && includes_char s creturn).

(** *** Reading a CSV text

    The reader follows RFC 4180.  A record ends at a line break, CR LF or
    a single LF; the last record may or may not be followed by one.  A
    field is either bare, running up to the next comma or line break and
    holding no double quote, or enclosed in double quotes, where a
    doubled quote stands for one quote and commas, line feeds and
    carriage returns are data.  Outside double quotes a carriage return
    is the first half of a line break and nothing else: a text where it
    is not followed by a line feed is not read. *)

Inductive ReaderState :=
| RecordStart   (* at the start of the text or just after a line break *)
| FieldStart    (* just after a comma *)
| Bare          (* inside a bare field *)
| Quoted        (* inside a quoted field *)
| QuoteSeen     (* a quote was read inside a quoted field *)
| CrSeen.       (* a carriage return was read outside quotes *)

Definition snoc (s : string) (c : ascii) : string := s ++ String c "".

(** [cur] is the field read so far, [row] the earlier fields of the
    record and [rows] the earlier records, both latest first. *)
Fixpoint readCsv (st : ReaderState) (cur : string) (row : list string)
  (rows : list (list string)) (s : string) : option (list (list string)) :=
  match s with
  | EmptyString =>
      match st with
      | RecordStart => Some (rev rows)
      | Quoted | CrSeen => None
      | FieldStart | Bare | QuoteSeen => Some (rev (rev (cur :: row) :: rows))
      end
  | String c rest =>
      match st with
      | RecordStart | FieldStart =>
          if Ascii.eqb c dquote then readCsv Quoted "" row rows rest
          else if Ascii.eqb c comma then readCsv FieldStart "" (cur :: row) rows rest
          else if Ascii.eqb c newline then readCsv RecordStart "" [] (rev (cur :: row) :: rows) rest
          else if Ascii.eqb c creturn then readCsv CrSeen cur row rows rest
          else readCsv Bare (snoc cur c) row rows rest
      | Bare =>
          if Ascii.eqb c dquote then None
          else if Ascii.eqb c comma then readCsv FieldStart "" (cur :: row) rows rest
          else if Ascii.eqb c newline then readCsv RecordStart "" [] (rev (cur :: row) :: rows) rest
          else if Ascii.eqb c creturn then readCsv CrSeen cur row rows rest
          else readCsv Bare (snoc cur c) row rows rest
      | Quoted =>
          if Ascii.eqb c dquote then readCsv QuoteSeen cur row rows rest
          else readCsv Quoted (snoc cur c) row rows rest
      | QuoteSeen =>
          if Ascii.eqb c dquote then readCsv Quoted (snoc cur c) row rows rest
          else if Ascii.eqb c comma then readCsv FieldStart "" (cur :: row) rows rest
          else if Ascii.eqb c newline then readCsv RecordStart "" [] (rev (cur :: row) :: rows) rest
          else if Ascii.eqb c creturn then readCsv CrSeen cur row rows rest
          else None
      | CrSeen =>
          if Ascii.eqb c newline then readCsv RecordStart "" [] (rev (cur :: row) :: rows) rest
          else None
      end
  end.

Definition parseCsv (s : string) : option (list (list string)) :=
  readCsv RecordStart "" [] [] s.

(** The rest of the text begins where a field may end: at the end of the
    text, at a comma or at a line feed. *)
Definition boundary (tail : string) : Prop :=
  tail = "" \/ (exists t, tail = String comma t) \/ (exists t, tail = String newline t).

(** The rest of the text begins where a record may end. *)
Definition row_boundary (tail : string) : Prop :=
  tail = "" \/ exists t, tail = String newline t.

(** An employee for the examples, with a name and an address. *)
Definition sampleEmployee (name : string) (addr : option string) : Employee :=
  {| id := "u1"; userName := name; userEmail := "asha@example.com";
     role := Physiotherapist; status := Active;
     createdAt := Some "2024-01-05T10:00:00.000Z";
     deleted := None; deletedAt := None; phone := None; address := addr;
     dateOfBirth := None; dateOfJoining := None; gender := None;
     bloodGroup := None; emergencyContact := None; emergencyPhone := None;
     qualifications := None; specialization := None; experience := None;
     professionalAim := None; profileImage := None |}.

(** A formatter for the examples: every date is printed as the en-US one
    prints 5 January 2024. *)
Definition format_jan5 (iso : string) : option string := Some "Jan 5, 2024".

End CsvSpec.

(** ** Requests to the route handlers *)

Module RouteSpec.
Import JS.

(** The field is absent, or is not an array, or is the empty array. *)
Definition no_reports (reportHistory : option Json) : Prop :=
  AnalyzePatient.isArray reportHistory = false \/ reportHistory = Some (JArr []).

(** The password checks made before the token is verified. *)
Definition passwords_ok (body : Json) : Prop :=
  ChangePassword.field body "currentPassword" <> "" /\
  ChangePassword.field body "newPassword" <> "" /\
  (6 <= String.length (ChangePassword.field body "newPassword"))%nat.




(** The decoded token names an email. *)
Definition has_email (d : ChangePassword.DecodedToken) : Prop :=
  ChangePassword.email d <> None /\ ChangePassword.email d <> Some "".

(** The request passes every check of the handler: its body is [b], it
    carries a token and passwords that pass, and the service verifies the
    token as [d], with an email. *)
Definition accepted (w : ChangePassword.World) (b : Json)
  (d : ChangePassword.DecodedToken) : Prop :=
  ChangePassword.requestJson w = inr b /\
  ChangePassword.field b "idToken" <> "" /\
  passwords_ok b /\
  ChangePassword.verifyIdToken w (ChangePassword.field b "idToken") = inr d /\
  has_email d.


End RouteSpec.

(** ** Writes to the billing cycles *)

Module BillingStoreSpec.
Import JS JSDate Billing BillingStore.

(** The effect writes to a cycle document. *)
Definition isUpdateCycle (e : Effect) : bool :=
  match e with
  | UpdateCycle _ _ _ => true
  | _ => false
  end.

(** The effect adds a cycle document. *)
Definition isAddCycle (e : Effect) : bool :=
  match e with
  | AddCycle _ => true
  | _ => false
  end.

(** The effect asks for the cycles of a month. *)
Definition isQueryCycles (e : Effect) : bool :=
  match e with
  | QueryCycles _ _ => true
  | _ => false
  end.

(** The effect asks for the billing records of a range of dates. *)
Definition isQueryBilling (e : Effect) : bool :=
  match e with
  | QueryBilling _ _ => true
  | _ => false
  end.

(** The double [x] is the whole number [k]. *)
Definition isWhole (x : Money.Double) (k : Z) : Prop :=
  match x with
  | Money.Finite q => (q == inject_Z k)%Q
  | _ => False
  end.

(** The cycle document added for a cycle, under the identifier [id]. *)
Definition newCycle (id : string) (cycle : Cycle) : NewCycle :=
  {| nc_id := id;
     nc_startDate := startDate cycle;
     nc_endDate := endDate cycle;
     nc_month := month cycle;
     nc_year := year cycle;
     nc_status := "active";
     nc_totalAmount := 0 |}.

(** The sum of the whole amounts [f data] of the records that count. *)
Fixpoint wholeSum (counts : BillingData -> bool) (f : BillingData -> Z)
  (docs : list BillingData) : Z :=
  match docs with
  | [] => 0
  | data :: rest =>
      (if counts data then f data else 0) + wholeSum counts f rest
  end.

(** The same sum of absolute values. *)
Fixpoint wholeAbsSum (counts : BillingData -> bool) (f : BillingData -> Z)
  (docs : list BillingData) : Z :=
  match docs with
  | [] => 0
  | data :: rest =>
      (if counts data then Z.abs (f data) else 0) + wholeAbsSum counts f rest
  end.

End BillingStoreSpec.

(** ** Answers of the analysis route *)

Module AnalyzePatientSpec.
Import JS AnalyzePatient.

(** The analysis has the four fields the route requires: [summary],
    [trend_analysis] and [recommendation] truthy, [key_achievements] an
    array. *)
Definition analysis_shape (d : Json) : Prop :=
  falsy (getProp d "summary") = false /\
  falsy (getProp d "trend_analysis") = false /\
  isArray (getProp d "key_achievements") = true /\
  falsy (getProp d "recommendation") = false.

(** The effect is a call of the completion service. *)
Definition isCompletion (e : Effect) : bool :=
  match e with
  | ChatCompletion _ _ => true
  | _ => false
  end.

(** The answers of the route: a failure with one of its messages, the
    canned analysis, a parsed analysis of the right shape, or what the
    catch-all answers. *)
Inductive answer : Response -> Prop :=
| answer_failure msg code :
    msg <> "" -> code = 400 \/ code = 500 -> answer (failure msg code)
| answer_ok d : analysis_shape d -> answer (ok d)
| answer_recover error : answer (snd (recover error)).

(** The request is one the route passes on to the service: its body has
    the non-empty array [items] as report history, and the key is
    configured. *)
Definition passed_on (w : World) (items : list Json) : Prop :=
  exists body,
    requestJson w = inr body /\
    getProp body "reportHistory" = Some (JArr items) /\
    items <> [] /\
    keyMissing (OPENAI_API_KEY w) = false.

End AnalyzePatientSpec.

(** ** Queries and request bodies of the analytics service *)

Module ServiceSpec.
Import JS JSDate AnalyticsService.

(** The queries among the effects, in the order they were issued. *)
Fixpoint queriesOf {V : Type} (fx : list (Effect V)) : list Query :=
  match fx with
  | [] => []
  | GetDocs _ q :: rest => q :: queriesOf rest
  | _ :: rest => queriesOf rest
  end.

(** The query threw an error with the code failed-precondition: the
    index it needs is missing. *)
Definition index_missing {V : Type} (w : World V) (q : Query) : Prop :=
  exists e, getDocs V w q = Throws e /\ failed_precondition e = true.

(** What [JSON.stringify] followed by [JSON.parse] makes of an entry of
    the report history; [encode] does it for the stored values, and an
    absent value has become [null]. *)
Definition encodeReport {V : Type} (encode : V -> Json) (r : Report V) : Json :=
  let field (v : option V) := match v with Some x => encode x | None => JNull end in
  JObj [("version", JNum (version V r));
        ("createdAt", JStr (createdAt V r));
        ("painRating", field (painRating V r));
        ("rom", field (rom V r));
        ("diagnosis", field (diagnosis V r));
        ("treatmentDone", field (treatmentDone V r))].

(** The body of the request as the route reads it. *)
Definition encodeBody {V : Type} (encode : V -> Json) (reports : list (Report V)) : Json :=
  JObj [("reportHistory", JArr (map (encodeReport encode) reports))].

End ServiceSpec.

(** ** Requests to the SMS route *)

Module SendSmsSpec.
Import JS SendSms.

(** The effect is a call of the messaging service. *)
Definition isCreateMessage (e : Effect) : bool :=
  match e with
  | CreateMessage _ _ _ => true
  | _ => false
  end.

(** The three environment variables are set, and [from] is the number. *)
Definition configured (w : World) (from : string) : Prop :=
  unset (TWILIO_ACCOUNT_SID w) = false /\
  unset (TWILIO_AUTH_TOKEN w) = false /\
  TWILIO_PHONE_NUMBER w = Some from /\ from <> "".

(** The body asks for [message] to be sent to [to], both truthy. *)
Definition asks (body : Json) (to message : Json) : Prop :=
  getProp body "to" = Some to /\ getProp body "message" = Some message /\
  truthy to = true /\ truthy message = true.

End SendSmsSpec.

(** ** Search terms and forms of the users page *)

Module TextSpec.

(** [q] occurs in [s]. *)
Definition occurs (q s : string) : Prop :=
  exists a b : string, s = (a ++ q ++ b)%string.

End TextSpec.

Module UsersSpec.
Import JS JSText Users UsersView.
Export TextSpec.

(** The employee matches the search term: the term is blank, or it occurs
    in the name, the email or the role label, letter case apart. *)
Definition matches (searchTerm : string) (e : Employee) : Prop :=
  let q := toLowerCase (trim searchTerm) in
  q = "" \/
  occurs q (toLowerCase (userName e)) \/
  occurs q (toLowerCase (userEmail e)) \/
  occurs q (toLowerCase (ROLE_LABELS (role e))).

(** The employee passes the role filter. *)
Definition passes (f : RoleFilter) (e : Employee) : Prop :=
  match f with
  | AllRoles => True
  | OnlyRole r => role e = r
  end.

(** The effect writes to the database. *)
Definition isWrite (e : Effect) : bool :=
  match e with
  | UpdateDoc _ _ _ _ | AddDoc _ _ _ _ => true
  | _ => false
  end.

(** The form passes the checks of [handleSubmit]. *)
Definition valid_form (formState : FormState) (editing : bool) : Prop :=
  trim (form_userName formState) <> "" /\
  toLowerCase (trim (form_userEmail formState)) <> "" /\
  (editing = true \/ trim (form_password formState) = "" \/
   (6 <= String.length (trim (form_password formState)))%nat).

(** The text is as [handleSubmit] stores it: trimming changes nothing. *)
Definition trimmed (s : string) : Prop := trim s = s.

(** Lower-casing changes nothing. *)
Definition lowercase (s : string) : Prop := toLowerCase s = s.

End UsersSpec.

(** ** Snapshots of leave requests *)

Module LeaveSpec.
Import JS JSText LeaveNotification.

(** The ids of the requests of a snapshot that are addressed to the user. *)
Definition addressedIds (adminEmail : string) (docs : list LeaveDoc) : list string :=
  map doc_id (filter (addressed adminEmail) docs).

(** The number of snapshots among the events. *)
Fixpoint snapshots (events : list Event) : nat :=
  match events with
  | [] => 0
  | Snapshot _ _ :: rest => S (snapshots rest)
  | Remove _ :: rest => snapshots rest
  end.

(** The toasts a snapshot adds to those shown. *)
Definition added (toLocaleDateString : string -> string) (adminEmail : string)
  (s : State) (docs : list LeaveDoc) (now : nat -> Z) : list ToastNotification :=
  if hasInitialized s then
    JSArray.mapi (fun request n => toastFor toLocaleDateString (now n) request)
         (filter (fun req => negb (has (previousRequestIds s) (id req)))
                 (map toRequest (filter (addressed adminEmail) docs)))
  else [].

End LeaveSpec.

(** ** Marks of sample appointments *)

Module SampleSpec.
Import JS JSText SampleAppointments.
Export TextSpec.

(** The ids the script tries to delete, in order. *)
Definition deletions (fx : list Effect) : list string :=
  map (fun e => match e with Delete id => id end) fx.

(** [s] is PAT followed by four decimal digits. *)
Definition sample_id (s : string) : Prop :=
  exists a b c d,
    s = String "P" (String "A" (String "T" (String a (String b (String c (String d ""))))))
    /\ is_digit a = true /\ is_digit b = true /\ is_digit c = true /\ is_digit d = true.

(** The appointment carries one of the four marks of seed data. *)
Definition marked (data : Appointment) : Prop :=
  (exists n, notes data = Some n /\
             (occurs "sample" (toLowerCase n) \/ occurs "testing" (toLowerCase n))) \/
  (exists p, patient data = Some p /\ In p SAMPLE_PATIENT_NAMES) \/
  (exists d, doctor data = Some d /\ In d SAMPLE_DOCTOR_NAMES) \/
  (exists i, patientId data = Some i /\ sample_id i).

End SampleSpec.

(** ** Effects of the admin script *)

Module AdminSpec.
Import JS JSText CreateAdminUser.

(** The accounts the run has created, and the accounts whose update it
    has asked for. *)
Definition isCreate (e : Effect) : bool :=
  match e with
  | CreateUser _ _ _ => true
  | _ => false
  end.

Definition isClaims (e : Effect) : bool :=
  match e with
  | SetCustomUserClaims _ _ => true
  | _ => false
  end.

Definition isProfile (e : Effect) : bool :=
  match e with
  | SetProfile _ _ _ => true
  | _ => false
  end.

(** The lookup of the admin user, or the update that follows it, failed
    with the code auth/user-not-found. *)
Definition not_found (w : World) : Prop :=
  (exists e, getUserByEmail w ADMIN_EMAIL = inl e /\
             code_is e "auth/user-not-found" = true) \/
  (exists uid e, getUserByEmail w ADMIN_EMAIL = inr uid /\ updateUser w uid = inl e /\
                 code_is e "auth/user-not-found" = true).

(** The admin account is there under [uid]: the lookup and the update
    succeeded ([isNew] false), or the user was not found and the creation
    succeeded ([isNew] true). *)
Definition resolved (w : World) (uid : string) (isNew : bool) : Prop :=
  (isNew = false /\
   exists uid0, getUserByEmail w ADMIN_EMAIL = inr uid0 /\ updateUser w uid0 = inr uid) \/
  (isNew = true /\ not_found w /\ createUser w ADMIN_EMAIL = inr uid).

(** The profile of the admin user, with a creation date for a new
    account. *)
Definition adminProfile (toISOString : Z -> string) (w : World) (isNew : bool) : Profile :=
  {| email := ADMIN_EMAIL;
     displayName := ADMIN_DISPLAY_NAME;
     userName := ADMIN_DISPLAY_NAME;
     role := ADMIN_ROLE;
     status := "Active";
     updatedAt := toISOString (clock w 0);
     createdAt := if isNew then Some (toISOString (clock w 1)) else None |}.

End AdminSpec.

(* ================================================================== *)
(** * Part III: properties *)
(* ================================================================== *)

(** Case analysis on the integer tests of a goal. *)
Ltac zbool :=
  repeat match goal with
  | |- context [?a =? ?b] => destruct (Z.eqb_spec a b); cbn [negb andb orb]
  | |- context [?a <? ?b] => destruct (Z.ltb_spec a b); cbn [negb andb orb]
  | |- context [?a <=? ?b] => destruct (Z.leb_spec a b); cbn [negb andb orb]
  end.

(** Floor divisions by constants, handed to [lia]. *)
Ltac zdiv := Z.to_euclidean_division_equations; lia.

(** ** The calendar *)

Module CalendarFacts.
Import JS JSDate.

Lemma DayFromYear_succ y : DayFromYear (y + 1) = DayFromYear y + DaysInYear y.
Proof. unfold DayFromYear, DaysInYear. zbool; zdiv. Qed.

Lemma DayFromYear_mono y1 y2 : y1 <= y2 -> DayFromYear y1 <= DayFromYear y2.
Proof. unfold DayFromYear. intros. zdiv. Qed.

(** [YearFromDay] is the year of the language definition: the one whose
    first day is the latest not after [d]. *)
Lemma YearFromDay_spec d :
  DayFromYear (YearFromDay d) <= d < DayFromYear (YearFromDay d + 1).
Proof.
  unfold YearFromDay.
  set (y0 := 1970 + (400 * d) / 146097).
  destruct (Z.ltb_spec d (DayFromYear y0)) as [Hlo|Hlo].
  - replace (y0 - 1 + 1) with y0 by lia. split; [|lia].
    unfold DayFromYear in *. subst y0. zdiv.
  - destruct (Z.leb_spec (DayFromYear (y0 + 1)) d) as [Hhi|Hhi]; [|lia].
    split; [lia|]. unfold DayFromYear in *. subst y0. zdiv.
Qed.

Lemma YearFromDay_unique d y :
  DayFromYear y <= d < DayFromYear (y + 1) -> YearFromDay d = y.
Proof.
  intros H. pose proof (YearFromDay_spec d) as S.
  destruct (Z.lt_trichotomy (YearFromDay d) y) as [L|[E|G]]; [|exact E|].
  - pose proof (DayFromYear_mono (YearFromDay d + 1) y ltac:(lia)). lia.
  - pose proof (DayFromYear_mono (y + 1) (YearFromDay d) ltac:(lia)). lia.
Qed.

Lemma DaysInYear_cases y : DaysInYear y = 365 + LeapOfYear y.
Proof. unfold LeapOfYear, DaysInYear. zbool; lia. Qed.

Lemma LeapOfYear_cases y : LeapOfYear y = 0 \/ LeapOfYear y = 1.
Proof. unfold LeapOfYear. zbool; auto. Qed.

Lemma month_cases m :
  0 <= m <= 11 ->
  m = 0 \/ m = 1 \/ m = 2 \/ m = 3 \/ m = 4 \/ m = 5 \/ m = 6 \/ m = 7 \/
  m = 8 \/ m = 9 \/ m = 10 \/ m = 11.
Proof. lia. Qed.

Ltac each_month H :=
  apply month_cases in H;
  repeat match type of H with _ \/ _ => destruct H as [H|H] end; subst.

(** Evaluates the month tables at a given month. *)
Ltac tables :=
  unfold DaysInMonth, DaysBeforeMonth in *;
  cbn [Z.eqb Pos.eqb orb andb negb] in *.

Lemma DaysInMonth_range y m : 0 <= m <= 11 -> 28 <= DaysInMonth y m <= 31.
Proof.
  intros H. pose proof (LeapOfYear_cases y).
  each_month H; tables; lia.
Qed.

(** A month lies within its year. *)
Lemma month_span y m :
  0 <= m <= 11 ->
  0 <= DaysBeforeMonth (LeapOfYear y) m /\
  DaysBeforeMonth (LeapOfYear y) m + DaysInMonth y m <= 365 + LeapOfYear y.
Proof.
  intros H. pose proof (LeapOfYear_cases y).
  each_month H; tables; lia.
Qed.

(** The day number [MakeDay] gives for a date that exists. *)
Lemma MakeDay_in_range y m dt :
  0 <= m <= 11 ->
  MakeDay y m dt = DayFromYear y + DaysBeforeMonth (LeapOfYear y) m + dt - 1.
Proof.
  intros H. unfold MakeDay.
  replace (m / 12) with 0 by zdiv. replace (m mod 12) with m by zdiv.
  now rewrite Z.add_0_r.
Qed.

(** Day 0 of the following month is the last day of the month. *)
Lemma MakeDay_day0_next y m :
  0 <= m <= 11 ->
  MakeDay y (m + 1) 0 = MakeDay y m (DaysInMonth y m).
Proof.
  intros H. rewrite (MakeDay_in_range y m) by exact H.
  destruct (Z.eq_dec m 11) as [->|Hne].
  - unfold MakeDay. change ((11 + 1) / 12) with 1. change ((11 + 1) mod 12) with 0.
    rewrite DayFromYear_succ, DaysInYear_cases. tables. lia.
  - rewrite MakeDay_in_range by lia.
    pose proof (LeapOfYear_cases y).
    each_month H;
      match goal with
      | |- context [DaysBeforeMonth _ (?a + 1)] =>
          let v := eval cbv in (a + 1) in change (a + 1) with v
      end; tables; lia.
Qed.

Section Fields.
Variables (y m dt t : Z).
Hypothesis Hm : 0 <= m <= 11.
Hypothesis Hdt : 1 <= dt <= DaysInMonth y m.
Hypothesis Hday : Day t = MakeDay y m dt.

Lemma Day_within_year :
  DayFromYear y <= Day t < DayFromYear (y + 1).
Proof using Hm Hdt Hday.
  rewrite Hday, MakeDay_in_range, DayFromYear_succ, DaysInYear_cases by exact Hm.
  pose proof (LeapOfYear_cases y). revert Hdt. clear Hday.
  each_month Hm; tables; lia.
Qed.

Lemma YearFromTime_MakeDay : YearFromTime t = y.
Proof using Hm Hdt Hday.
  unfold YearFromTime. apply YearFromDay_unique, Day_within_year.
Qed.

Lemma DayWithinYear_MakeDay :
  DayWithinYear t = DaysBeforeMonth (LeapOfYear y) m + dt - 1.
Proof using Hm Hdt Hday.
  unfold DayWithinYear. rewrite YearFromTime_MakeDay, Hday, MakeDay_in_range by exact Hm.
  lia.
Qed.

Lemma MonthFromTime_MakeDay : MonthFromTime t = m.
Proof using Hm Hdt Hday.
  unfold MonthFromTime, InLeapYear.
  rewrite DayWithinYear_MakeDay, YearFromTime_MakeDay.
  pose proof (LeapOfYear_cases y). revert Hdt. clear Hday.
  each_month Hm; tables; intros; zbool; lia.
Qed.

Lemma DateFromTime_MakeDay : DateFromTime t = dt.
Proof using Hm Hdt Hday.
  unfold DateFromTime, InLeapYear.
  rewrite MonthFromTime_MakeDay, DayWithinYear_MakeDay, YearFromTime_MakeDay. lia.
Qed.

End Fields.

(** Every time value has a month from 0 to 11 and a day within it. *)
Lemma MonthFromTime_range t : 0 <= MonthFromTime t <= 11.
Proof. unfold MonthFromTime. zbool; lia. Qed.

Lemma DayWithinYear_range t :
  0 <= DayWithinYear t < 365 + InLeapYear t.
Proof.
  unfold DayWithinYear, InLeapYear, YearFromTime.
  pose proof (YearFromDay_spec (Day t)) as H.
  rewrite DayFromYear_succ, DaysInYear_cases in H. lia.
Qed.

Lemma Day_MakeDate d tm :
  0 <= tm < msPerDay -> Day (MakeDate d tm) = d.
Proof.
  intros H. unfold Day, MakeDate, msPerDay in *. zdiv.
Qed.

End CalendarFacts.

(** ** Decimal numerals of fixed width *)

Module NumeralFacts.
Import JS JSDate.
Export BillingSpec.

Lemma in_zrange lo n z : lo <= z < lo + n -> In z (zrange lo n).
Proof.
  intros H. unfold zrange. apply in_map_iff.
  exists (Z.to_nat (z - lo)). split; [lia|]. apply in_seq. lia.
Qed.

(** Below 2^53 a number is printed as its decimal numeral. *)
Lemma IntegerToString_small z : Z.abs z < 2 ^ 53 -> IntegerToString z = ZToString z.
Proof.
  intros H. unfold IntegerToString.
  destruct (Z.ltb_spec (Z.abs z) (2 ^ 53)) as [_|G]; [reflexivity | lia].
Qed.

Lemma four_digits_all : forallb four_digits_b (zrange 1000 9000) = true.
Proof. vm_compute. reflexivity. Qed.

Lemma two_digits_all : forallb two_digits_b (zrange 0 100) = true.
Proof. vm_compute. reflexivity. Qed.

(** A year from 1000 to 9999 is printed with exactly four digits. *)
Lemma ZToString_four_digits y :
  1000 <= y <= 9999 -> four_digits (ZToString y) y.
Proof.
  intros H. pose proof four_digits_all as A.
  rewrite forallb_forall in A. specialize (A y (in_zrange 1000 9000 y ltac:(lia))).
  unfold four_digits_b in A. unfold four_digits.
  destruct (ZToString y) as [|a [|b [|c [|d [|]]]]]; try discriminate.
  destruct (digits4 a b c d) as [v|] eqn:E; [|discriminate].
  apply Z.eqb_eq in A. subst v. now exists a, b, c, d.
Qed.

(** Padding to two places prints a number below 100 with two digits. *)
Lemma padStart_two_digits v :
  0 <= v <= 99 -> two_digits (padStart (ZToString v) 2 "0") v.
Proof.
  intros H. pose proof two_digits_all as A.
  rewrite forallb_forall in A. specialize (A v (in_zrange 0 100 v ltac:(lia))).
  unfold two_digits_b in A. unfold two_digits.
  destruct (padStart (ZToString v) 2 "0") as [|a [|b [|]]]; try discriminate.
  destruct (digits2 a b) as [x|] eqn:E; [|discriminate].
  apply Z.eqb_eq in A. subst x. now exists a, b.
Qed.

End NumeralFacts.

(** ** Billing cycles *)

Module BillingFacts.
Import JS JSDate Billing CalendarFacts NumeralFacts.

Section WithHost.
Variable host : Host.

Lemma LocalTime_UTC t : LocalTime host (UTC host t) = t.
Proof. unfold LocalTime, UTC. lia. Qed.

(** The date constructor on a date that exists, outside the first century. *)
Lemma newDateYMD_exists y m d :
  ~ (0 <= y <= 99) ->
  representable host y m d ->
  newDateYMD host (Some y) (Some m) (Some d)
  = Some (UTC host (MakeDate (MakeDay y m d) 0)).
Proof.
  intros Hy Hr. unfold newDateYMD.
  replace ((0 <=? y) && (y <=? 99)) with false by (zbool; lia).
  change (MakeTime 0 0 0 0) with 0.
  unfold TimeClip, representable, UTC in *.
  destruct (Z.leb_spec (Z.abs (MakeDate (MakeDay y m d) 0 - LocalTZA host)) maxTime);
    [reflexivity | lia].
Qed.

(** [formatDate] on local midnight of a date that exists. *)
Lemma formatDate_midnight y m d :
  0 <= m <= 11 -> 1 <= d <= DaysInMonth y m ->
  formatDate host (Some (UTC host (MakeDate (MakeDay y m d) 0))) = isoDate y (m + 1) d.
Proof.
  intros Hm Hd.
  assert (HD : Day (LocalTime host (UTC host (MakeDate (MakeDay y m d) 0))) = MakeDay y m d).
  { rewrite LocalTime_UTC. apply Day_MakeDate. unfold msPerDay. lia. }
  unfold formatDate, getFullYear, getMonth, getDate, option_map, num_add, NumberToString.
  rewrite (YearFromTime_MakeDay y m d _ Hm Hd HD).
  rewrite (MonthFromTime_MakeDay y m d _ Hm Hd HD).
  rewrite (DateFromTime_MakeDay y m d _ Hm Hd HD).
  pose proof (DaysInMonth_range y m Hm) as R.
  rewrite (IntegerToString_small (m + 1)), (IntegerToString_small d)
    by (change (2 ^ 53) with 9007199254740992; lia).
  reflexivity.
Qed.

(** The two dates the cycle functions build and print, for month [m]
    (1 to 12) of a year outside the first century. *)
Lemma cycle_dates y m :
  1 <= m <= 12 ->
  ~ (0 <= y <= 99) ->
  representable host y (m - 1) 1 ->
  representable host y (m - 1) (DaysInMonth y (m - 1)) ->
  formatDate host (newDateYMD host (Some y) (Some (m - 1)) (Some 1)) = isoDate y m 1 /\
  formatDate host (newDateYMD host (Some y) (Some m) (Some 0))
  = isoDate y m (DaysInMonth y (m - 1)).
Proof.
  intros Hm Hy H1 H2.
  pose proof (DaysInMonth_range y (m - 1) ltac:(lia)) as R.
  split.
  - rewrite newDateYMD_exists by assumption.
    rewrite formatDate_midnight by lia. f_equal. lia.
  - assert (E : MakeDay y m 0 = MakeDay y (m - 1) (DaysInMonth y (m - 1))).
    { replace m with (m - 1 + 1) at 1 by lia. apply MakeDay_day0_next. lia. }
    assert (R0 : representable host y m 0).
    { unfold representable in *. now rewrite E. }
    rewrite newDateYMD_exists by assumption. rewrite E.
    rewrite formatDate_midnight by lia. f_equal. lia.
Qed.

(** [getBillingCycleForDate] on a valid Date whose local year lies
    outside the first century, when the first and the last day of its
    month are representable: the cycle of that month. *)
Theorem getBillingCycleForDate_spec t :
  let y := YearFromTime (LocalTime host t) in
  let m := MonthFromTime (LocalTime host t) + 1 in
  ~ (0 <= y <= 99) ->
  representable host y (m - 1) 1 ->
  representable host y (m - 1) (DaysInMonth y (m - 1)) ->
  1 <= m <= 12 /\ getBillingCycleForDate host (ofDate (Some t)) = cycleOf y m.
Proof.
  intros y m Hy H1 H2.
  pose proof (MonthFromTime_range (LocalTime host t)) as Hm.
  assert (Hm' : 1 <= m <= 12) by (subst m; lia).
  split; [exact Hm'|].
  destruct (cycle_dates y m Hm' Hy H1 H2) as [S E].
  unfold getBillingCycleForDate, cycleOf.
  cbn [getFullYear getMonth option_map num_add num_sub].
  fold y. fold m. rewrite S, E. reflexivity.
Qed.

(** A string argument is the date it parses to. *)
Lemma getBillingCycleForDate_string s :
  getBillingCycleForDate host (ofString s)
  = getBillingCycleForDate host (ofDate (newDateOfString host s)).
Proof using Type. reflexivity. Qed.

(** [getCurrentBillingCycle] is [getBillingCycleForDate] at the clock. *)
Lemma getCurrentBillingCycle_eq now :
  getCurrentBillingCycle host now = getBillingCycleForDate host (ofDate (Some now)).
Proof. reflexivity. Qed.

End WithHost.

(** Every day of the years -271820 to 275759 is representable, whatever
    the zone (offsets stay within a day). *)
Lemma representable_years host y m d :
  Z.abs (LocalTZA host) <= msPerDay ->
  -271820 <= y <= 275759 -> 0 <= m <= 11 -> 1 <= d <= DaysInMonth y m ->
  representable host y m d.
Proof.
  intros Hz Hy Hm Hd. unfold representable, MakeDate.
  rewrite MakeDay_in_range by exact Hm.
  pose proof (DayFromYear_mono (-271820) y ltac:(lia)) as L.
  pose proof (DayFromYear_mono y 275759 ltac:(lia)) as U.
  change (DayFromYear (-271820)) with (-99999744) in L.
  change (DayFromYear 275759) with 99999379 in U.
  pose proof (LeapOfYear_cases y) as C.
  pose proof (DaysInMonth_range y m Hm) as R.
  assert (0 <= DaysBeforeMonth (LeapOfYear y) m <= 335).
  { clear Hd R. each_month Hm; tables; lia. }
  unfold msPerDay, maxTime in *. lia.
Qed.

(** *** The shape of the printed dates *)

Lemma isoDate_shape y m d :
  1000 <= y <= 9999 -> 0 <= m <= 99 -> 0 <= d <= 99 ->
  is_YYYY_MM_DD (isoDate y m d) y m d.
Proof.
  intros Hy Hm Hd. unfold is_YYYY_MM_DD, isoDate.
  rewrite IntegerToString_small by (change (2 ^ 53) with 9007199254740992; lia).
  exists (ZToString y), (padStart (ZToString m) 2 "0"), (padStart (ZToString d) 2 "0").
  split; [reflexivity|].
  auto using ZToString_four_digits, padStart_two_digits.
Qed.

Lemma getBillingCycleId_shape host now m y :
  1000 <= y <= 9999 -> 0 <= m <= 99 ->
  is_YYYY_MM (getBillingCycleId host now (Some (Some m)) (Some (Some y))) y m.
Proof.
  intros Hy Hm. unfold is_YYYY_MM, getBillingCycleId, NumberToString.
  rewrite !IntegerToString_small by (change (2 ^ 53) with 9007199254740992; lia).
  exists (ZToString y), (padStart (ZToString m) 2 "0").
  split; [reflexivity|].
  auto using ZToString_four_digits, padStart_two_digits.
Qed.

(** *** Previous and next cycle *)

Section Neighbours.
Variable host : Host.
Hypothesis zone : Z.abs (LocalTZA host) <= msPerDay.




End Neighbours.

End BillingFacts.

(** ** Billing cycles and the time zone *)

Module BillingZoneFacts.
Import JS JSDate Billing CalendarFacts NumeralFacts BillingFacts.

(** A printed date is read back by the date-only form as UTC midnight of
    that day. *)
Lemma parseDateOnly_YMD s y m d :
  is_YYYY_MM_DD s y m d -> valid_ymd y m d = true ->
  parseDateOnly s = Some (MakeDate (MakeDay y (m - 1) d) 0).
Proof.
  intros (sy & sm & sd & -> & (a & b & c & e & -> & Hy) & (f & g & -> & Hm) & (h & k & -> & Hd)) Hv.
  cbn [append parseDateOnly]. rewrite Hy, Hm, Hd, Hv. reflexivity.
Qed.

(** The days of a month, as day numbers. *)
Lemma Day_in_month t :
  let y := YearFromTime t in
  let m := MonthFromTime t in
  MakeDay y m 1 <= Day t <= MakeDay y m (DaysInMonth y m).
Proof.
  intros y m. pose proof (MonthFromTime_range t) as Hm. fold m in Hm.
  rewrite !MakeDay_in_range by exact Hm.
  pose proof (DayWithinYear_range t) as R.
  unfold DayWithinYear in R. fold y in R.
  assert (E : DayWithinYear t = Day t - DayFromYear y) by reflexivity.
  assert (Em : MonthFromTime t = m) by reflexivity.
  unfold MonthFromTime in Em. rewrite E in Em.
  unfold InLeapYear in *. fold y in Em, R.
  pose proof (LeapOfYear_cases y) as C.
  revert Em. zbool; intros <-; tables; lia.
Qed.

Lemma valid_ymd_true y m d :
  1 <= m <= 12 -> 1 <= d <= DaysInMonth y (m - 1) -> valid_ymd y m d = true.
Proof.
  intros Hm Hd. unfold valid_ymd.
  repeat (apply andb_true_intro; split); apply Z.leb_le; lia.
Qed.

Section AtUTC.
Variable host : Host.
Hypothesis utc : LocalTZA host = 0.

Lemma LocalTime_utc t : LocalTime host t = t.
Proof using utc. unfold LocalTime. rewrite utc. lia. Qed.

(** [new Date(s)] for a printed date of a four-digit year. *)
Lemma newDateOfString_isoDate y m d :
  1000 <= y <= 9999 -> 1 <= m <= 12 -> 1 <= d <= DaysInMonth y (m - 1) ->
  newDateOfString host (isoDate y m d) = Some (MakeDate (MakeDay y (m - 1) d) 0).
Proof using utc.
  intros Hy Hm Hd.
  pose proof (DaysInMonth_range y (m - 1) ltac:(lia)) as R.
  unfold newDateOfString, parse.
  rewrite (parseDateOnly_YMD (isoDate y m d) y m d).
  - pose proof (representable_years host y (m - 1) d) as Rep.
    unfold representable in Rep. rewrite utc in Rep. rewrite Z.sub_0_r in Rep.
    unfold TimeClip.
    destruct (Z.leb_spec (Z.abs (MakeDate (MakeDay y (m - 1) d) 0)) maxTime) as [L|L];
      [reflexivity|].
    exfalso. revert L. apply Z.le_ngt. apply Rep; unfold msPerDay; lia.
  - apply isoDate_shape; lia.
  - apply valid_ymd_true; assumption.
Qed.

(** On a host at UTC the test is what its name says: from 00:00:00.000
    of the start day to 23:59:59.999 of the end day (UTC), both days of
    four-digit years. *)
Lemma isDateInBillingCycle_at_UTC t y1 m1 d1 y2 m2 d2 :
  1000 <= y1 <= 9999 -> 1 <= m1 <= 12 -> 1 <= d1 <= DaysInMonth y1 (m1 - 1) ->
  1000 <= y2 <= 9999 -> 1 <= m2 <= 12 -> 1 <= d2 <= DaysInMonth y2 (m2 - 1) ->
  isDateInBillingCycle host (ofDate (Some t)) (isoDate y1 m1 d1) (isoDate y2 m2 d2) = true
  <-> MakeDate (MakeDay y1 (m1 - 1) d1) (MakeTime 0 0 0 0) <= t
      <= MakeDate (MakeDay y2 (m2 - 1) d2) (MakeTime 23 59 59 999).
Proof using utc.
  intros Hy1 Hm1 Hd1 Hy2 Hm2 Hd2.
  unfold isDateInBillingCycle.
  rewrite !newDateOfString_isoDate by assumption.
  unfold setHours. rewrite LocalTime_utc.
  rewrite Day_MakeDate by (unfold msPerDay; lia).
  unfold UTC. rewrite utc, Z.sub_0_r.
  assert (Hlast : DayFromYear 1000 <= MakeDay y2 (m2 - 1) d2 < DayFromYear 10000).
  { rewrite MakeDay_in_range by lia.
    pose proof (DayFromYear_mono 1000 y2 ltac:(lia)).
    pose proof (DayFromYear_mono (y2 + 1) 10000 ltac:(lia)) as U.
    rewrite DayFromYear_succ, DaysInYear_cases in U.
    pose proof (month_span y2 (m2 - 1) ltac:(lia)). lia. }
  assert (E1 : DayFromYear 1000 = -354285) by reflexivity.
  assert (E2 : DayFromYear 10000 = 2932897) by reflexivity.
  rewrite E1, E2 in Hlast.
  change (MakeTime 23 59 59 999) with 86399999. change (MakeTime 0 0 0 0) with 0.
  set (first := MakeDay y1 (m1 - 1) d1) in *. set (last := MakeDay y2 (m2 - 1) d2) in *.
  unfold TimeClip, MakeDate, msPerDay, maxTime.
  destruct (Z.leb_spec (Z.abs (last * 86400000 + 86399999)) 8640000000000000) as [L|L]; [|lia].
  unfold num_ge, num_le. rewrite andb_true_iff, !Z.leb_le. reflexivity.
Qed.

(** On a host at UTC, a date of a four-digit year lies inside the cycle
    computed for it. *)
Theorem own_cycle_at_UTC t :
  1000 <= YearFromTime t <= 9999 ->
  let c := getBillingCycleForDate host (ofDate (Some t)) in
  isDateInBillingCycle host (ofDate (Some t)) (startDate c) (endDate c) = true.
Proof using utc.
  intros Hy c.
  set (y := YearFromTime t) in *. set (m0 := MonthFromTime t).
  pose proof (MonthFromTime_range t) as Hm. fold m0 in Hm.
  pose proof (DaysInMonth_range y m0 Hm) as R.
  assert (Hz : Z.abs (LocalTZA host) <= msPerDay) by (rewrite utc; cbn; discriminate).
  assert (Ec : c = cycleOf y (m0 + 1)).
  { subst c. pose proof (getBillingCycleForDate_spec host t) as S.
    rewrite LocalTime_utc in S. fold y m0 in S. cbv zeta in S.
    replace (m0 + 1 - 1) with m0 in S by lia.
    apply S; [lia | |]; apply representable_years; try assumption; lia. }
  rewrite Ec. unfold cycleOf. cbn [startDate endDate].
  replace (m0 + 1 - 1) with m0 by lia.
  unfold isDateInBillingCycle.
  rewrite !newDateOfString_isoDate by (replace (m0 + 1 - 1) with m0 by lia; lia).
  replace (m0 + 1 - 1) with m0 by lia.
  unfold setHours. rewrite LocalTime_utc.
  rewrite Day_MakeDate by (unfold msPerDay; lia).
  unfold UTC. rewrite utc, Z.sub_0_r.
  pose proof (Day_in_month t) as D. cbv zeta in D. fold y m0 in D.
  set (first := MakeDay y m0 1) in *. set (last := MakeDay y m0 (DaysInMonth y m0)) in *.
  assert (Hlast : DayFromYear 1000 <= last < DayFromYear 10000).
  { subst last. rewrite MakeDay_in_range by exact Hm.
    pose proof (DayFromYear_mono 1000 y ltac:(lia)).
    pose proof (DayFromYear_mono (y + 1) 10000 ltac:(lia)) as U.
    rewrite DayFromYear_succ, DaysInYear_cases in U.
    pose proof (LeapOfYear_cases y).
    pose proof (month_span y m0 Hm). lia. }
  assert (E1 : DayFromYear 1000 = -354285) by reflexivity.
  assert (E2 : DayFromYear 10000 = 2932897) by reflexivity.
  rewrite E1, E2 in Hlast.
  change (MakeTime 23 59 59 999) with 86399999.
  unfold TimeClip, MakeDate, msPerDay, maxTime.
  destruct (Z.leb_spec (Z.abs (last * 86400000 + 86399999)) 8640000000000000) as [L|L]; [|lia].
  unfold num_ge, num_le.
  assert (Et : t = 86400000 * Day t + t mod 86400000) by (unfold Day, msPerDay; zdiv).
  assert (0 <= t mod 86400000 < 86400000) by zdiv.
  apply andb_true_intro. split; apply Z.leb_le; lia.
Qed.

End AtUTC.
End BillingZoneFacts.

(** ** Billing cycles on sample dates *)

Module BillingExamples.
Import JS JSDate Billing BillingSpec.

(** February of a leap year, of a common year, and of the century years
    1900 (common) and 2000 (leap). *)
Example february_2024 :
  getBillingCycleForDate hostIST (ofString "2024-02-15") = cycleOf 2024 2 /\
  endDate (cycleOf 2024 2) = "2024-02-29".
Proof. split; reflexivity. Qed.

Example february_2023 :
  getBillingCycleForDate hostIST (ofString "2023-02-15") = cycleOf 2023 2 /\
  endDate (cycleOf 2023 2) = "2023-02-28".
Proof. split; reflexivity. Qed.

Example february_1900_2000 :
  endDate (getBillingCycleForDate hostUTC (ofString "1900-02-10")) = "1900-02-28" /\
  endDate (getBillingCycleForDate hostUTC (ofString "2000-02-10")) = "2000-02-29".
Proof. split; reflexivity. Qed.

(** The last instant of December, local time. *)
Example december_2024 :
  getBillingCycleForDate hostIST (ofDate (localTime hostIST 2024 11 31 23 59))
  = {| month := Some 12; year := Some 2024;
       startDate := "2024-12-01"; endDate := "2024-12-31" |}.
Proof. reflexivity. Qed.

(** An Invalid Date gives NaN fields and NaN texts. *)
Example invalid_date :
  getBillingCycleForDate hostIST (ofString "not a date")
  = {| month := None; year := None;
       startDate := "NaN-NaN-NaN"; endDate := "NaN-NaN-NaN" |}.
Proof. reflexivity. Qed.

(** At the two ends of the range of time values the first or the last
    day of the month is no Date any more. *)
Example ends_of_time :
  startDate (getBillingCycleForDate hostUTC (ofDate (Some (- maxTime)))) = "NaN-NaN-NaN" /\
  endDate (getBillingCycleForDate hostUTC (ofDate (Some maxTime))) = "NaN-NaN-NaN".
Proof. split; reflexivity. Qed.

Example cycle_ids :
  getBillingCycleId hostIST 1735000000000 None None = "2024-12" /\
  getBillingCycleId hostIST 1735000000000 (Some (Some 3)) (Some (Some 2024)) = "2024-03".
Proof. split; reflexivity. Qed.

End BillingExamples.

(** ** Billing cycles: the statements *)

Section BillingClaims.
Import JS JSDate Billing CalendarFacts NumeralFacts BillingFacts BillingZoneFacts.

(** C1, at a date of the first century.  The date string 0024-03-15 (a
    two-digit year typed into a date field) is a valid date of year 24.
    Its cycle carries month 3 and year 24, yet the start and end dates are
    those of March 1924: the date constructor reads a year from 0 to 99 as
    1900 + year.  Outside these years the function returns the first and
    last day of the month of the date ([getBillingCycleForDate_spec]). *)
Theorem C1_first_century_cycle :
  getFullYear hostIST (newDateOfString hostIST "0024-03-15") = Some 24 /\
  getMonth hostIST (newDateOfString hostIST "0024-03-15") = Some 2 /\
  getBillingCycleForDate hostIST (ofString "0024-03-15")
  = {| month := Some 3; year := Some 24;
       startDate := "1924-03-01"; endDate := "1924-03-31" |} /\
  getBillingCycleForDate hostIST (ofString "0024-03-15") <> cycleOf 24 3.
Proof.
  repeat split; try (vm_compute; reflexivity).
  vm_compute. discriminate.
Qed.

(** C5, on a host ahead of UTC and on a host behind it.  In India
    (UTC+05:30) local midnight of 1 March 2024 has the cycle 2024-03-01 to
    2024-03-31 and is reported outside it: the start string is read as
    midnight UTC, which is 05:30 local.  In Bogota (UTC-05:00) noon of
    31 March 2024 has the same cycle and is reported outside it: the end
    string is read as midnight UTC, which falls on 30 March local, and
    the end of that local day is taken.  On a host at UTC a date does lie
    inside its own cycle ([own_cycle_at_UTC]). *)
Theorem C5_own_cycle_excludes_date :
  (let d := localTime hostIST 2024 2 1 0 0 in
   let c := getBillingCycleForDate hostIST (ofDate d) in
   c = cycleOf 2024 3 /\
   startDate c = "2024-03-01" /\ endDate c = "2024-03-31" /\
   isDateInBillingCycle hostIST (ofDate d) (startDate c) (endDate c) = false) /\
  (let d := localTime hostBogota 2024 2 31 12 0 in
   let c := getBillingCycleForDate hostBogota (ofDate d) in
   c = cycleOf 2024 3 /\
   startDate c = "2024-03-01" /\ endDate c = "2024-03-31" /\
   isDateInBillingCycle hostBogota (ofDate d) (startDate c) (endDate c) = false).
Proof. vm_compute. repeat split. Qed.




End BillingClaims.

(** ** Double-precision rounding: the error of one operation *)

Module FloatFacts.
Import Float.
Export FloatSpec.
Local Open Scope Z_scope.

Lemma div_half_even_spec a b :
  0 < b -> Z.abs (2 * (div_half_even a b * b - a)) <= b.
Proof.
  intros Hb. unfold div_half_even.
  pose proof (Z.div_mod a b ltac:(lia)) as E.
  pose proof (Z.mod_pos_bound a b Hb) as R.
  set (q := a / b) in *. set (r := a mod b) in *.
  destruct (Z.ltb_spec (2 * r) b); [lia|].
  destruct (Z.ltb_spec b (2 * r)); [lia|].
  destruct (Z.even q); lia.
Qed.

(** The integer form of the error bound: with [x = n * 2^s] and the
    result [m * u / 2^s], the error [m * u * d - x] is at most
    [x / 2^53] in absolute value. *)
Lemma round_pos_core n d :
  0 < n -> 0 < d ->
  let s := Z.max 0 (55 + Z.log2 d - Z.log2 n) in
  let x := n * 2 ^ s in
  let f := x / d in
  let u := 2 ^ (Z.log2 f - 52) in
  let m := div_half_even x (d * u) in
  0 < 2 ^ s /\ Z.abs (m * u * d - x) * 2 ^ 53 <= x.
Proof.
  intros Hn Hd s x f u m.
  assert (Hs : 0 <= s) by (subst s; lia).
  assert (HS : 0 < 2 ^ s) by (apply Z.pow_pos_nonneg; lia).
  split; [exact HS|].
  pose proof (Z.log2_spec n Hn) as Ln. pose proof (Z.log2_spec d Hd) as Ld.
  pose proof (Z.log2_nonneg n) as Nn. pose proof (Z.log2_nonneg d) as Nd.
  (* the scaled quotient has at least 55 bits *)
  assert (Hx : 2 ^ 54 * d <= x).
  { subst x.
    assert (E : 2 ^ (Z.log2 d + 55) <= 2 ^ (Z.log2 n + s)).
    { apply Z.pow_le_mono_r; subst s; lia. }
    rewrite !Z.pow_add_r in E by lia.
    rewrite Z.pow_succ_r in Ld by lia.
    change (2 ^ 55) with (2 * 2 ^ 54) in E.
    nia. }
  assert (Hf : 2 ^ 54 <= f).
  { subst f. apply Z.div_le_lower_bound; lia. }
  assert (Hfpos : 0 < f) by (change (2 ^ 54) with 18014398509481984 in Hf; lia).
  pose proof (Z.log2_spec f Hfpos) as Lf.
  assert (HL : 54 <= Z.log2 f).
  { apply Z.log2_le_pow2; [lia | exact Hf]. }
  assert (Hu : 0 < u) by (subst u; apply Z.pow_pos_nonneg; lia).
  assert (Eu : u * 2 ^ 52 = 2 ^ Z.log2 f).
  { subst u. rewrite <- Z.pow_add_r by lia. f_equal. lia. }
  assert (Hdf : d * f <= x).
  { subst f. apply Z.mul_div_le. exact Hd. }
  pose proof (div_half_even_spec x (d * u) ltac:(nia)) as Hm. fold m in Hm.
  change (2 ^ 53) with (2 * 2 ^ 52).
  assert (d * u * 2 ^ 52 <= x) by nia.
  replace (m * u * d - x) with (m * (d * u) - x) by ring.
  nia.
Qed.

Local Open Scope Q_scope.

Lemma round_pos_bounds (n d : positive) :
  (Zpos n # d) * (1 - eps) <= round_pos (Zpos n) (Zpos d) /\
  round_pos (Zpos n) (Zpos d) <= (Zpos n # d) * (1 + eps).
Proof.
  destruct (round_pos_core (Zpos n) (Zpos d) ltac:(lia) ltac:(lia)) as [HS H].
  unfold round_pos.
  set (s := Z.max 0 (55 + Z.log2 (Zpos d) - Z.log2 (Zpos n))) in *.
  set (x := (Zpos n * 2 ^ s)%Z) in *.
  set (u := (2 ^ (Z.log2 (x / Zpos d) - 52))%Z) in *.
  set (m := div_half_even x (Zpos d * u)) in *.
  cbv zeta in H.
  change (2 ^ 53)%Z with 9007199254740992%Z in H.
  unfold Qle, Qmult, Qminus, Qplus, Qopp, eps. cbn [Qnum Qden].
  rewrite !Pos2Z.inj_mul, Z2Pos.id by exact HS.
  subst x. split; nia.
Qed.

Lemma rnd_bounds q :
  0 < q -> q * (1 - eps) <= rnd q /\ rnd q <= q * (1 + eps).
Proof.
  destruct q as [a b]. unfold Qlt. cbn [Qnum Qden]. intros H.
  destruct a as [|p|p]; try lia.
  unfold rnd. cbn [Qnum Qden]. apply round_pos_bounds.
Qed.

Lemma rnd_zero q : q == 0 -> rnd q = 0.
Proof.
  destruct q as [a b]. unfold Qeq. cbn [Qnum Qden]. intros H.
  assert (a = 0%Z) by lia. subst a. reflexivity.
Qed.

Lemma rate_value c n :
  (0 <= c <= n)%Z -> (0 < n)%Z ->
  let x := 100 * (inject_Z c / inject_Z n) in
  let y := fmul (fdiv (of_int c) (of_int n)) (of_int 100) in
  0 <= x <= 100 /\ x * (1 - eps) * (1 - eps) <= y <= x * (1 + eps) * (1 + eps).
Proof.
  intros Hc Hn x y.
  assert (Hq : 0 <= inject_Z c / inject_Z n <= 1).
  { assert (0 < inject_Z n) by (unfold Qlt; cbn; lia).
    assert (0 <= inject_Z c) by (unfold Qle; cbn; lia).
    assert (inject_Z c <= inject_Z n) by (rewrite <- Zle_Qle; lia).
    split.
    - apply Qle_shift_div_l; [assumption|]. lra.
    - apply Qle_shift_div_r; [assumption|]. lra. }
  split; [subst x; lra|].
  subst x y. unfold fmul, fdiv, of_int.
  set (q := inject_Z c / inject_Z n) in *.
  destruct (Qlt_le_dec 0 q) as [Hpos|Hle].
  - destruct (rnd_bounds q Hpos) as [L1 U1].
    assert (Hpos2 : 0 < rnd q * inject_Z 100).
    { unfold eps in *. change (inject_Z 100) with 100. lra. }
    destruct (rnd_bounds _ Hpos2) as [L2 U2].
    change (inject_Z 100) with 100 in *. unfold eps in *. lra.
  - assert (E : q == 0) by lra.
    rewrite (rnd_zero q E).
    rewrite (rnd_zero (0 * inject_Z 100)) by reflexivity.
    unfold eps. lra.
Qed.

Lemma rate_range c n :
  (0 <= c <= n)%Z -> (0 < n)%Z -> (0 <= rate c n <= 100)%Z.
Proof.
  intros Hc Hn. destruct (rate_value c n Hc Hn) as [Hx Hy].
  unfold rate, Math_round.
  set (y := fmul (fdiv (of_int c) (of_int n)) (of_int 100)) in *.
  set (x := 100 * (inject_Z c / inject_Z n)) in *.
  pose proof (Qfloor_le (y + (1 # 2))) as F1.
  pose proof (Qlt_floor (y + (1 # 2))) as F2.
  set (r := Qfloor (y + (1 # 2))) in *.
  unfold eps in *.
  split.
  - assert (inject_Z 0 < inject_Z (r + 1)) by (change (inject_Z 0) with 0; nra).
    rewrite <- Zlt_Qlt in H. lia.
  - assert (inject_Z r < inject_Z 101) by (change (inject_Z 101) with 101; nra).
    rewrite <- Zlt_Qlt in H. lia.
Qed.

(** For a divisor below 2^32 the rate is a nearest integer to the exact
    percentage [100 * c / n]. *)
Lemma rate_nearest c n :
  (0 <= c <= n)%Z -> (0 < n < 2 ^ 32)%Z ->
  (Z.abs (2 * n * rate c n - 200 * c) <= n)%Z.
Proof.
  intros Hc Hn. destruct (rate_value c n Hc ltac:(lia)) as [Hx Hy].
  unfold rate, Math_round.
  set (y := fmul (fdiv (of_int c) (of_int n)) (of_int 100)) in *.
  pose proof (Qfloor_le (y + (1 # 2))) as F1.
  pose proof (Qlt_floor (y + (1 # 2))) as F2.
  set (r := Qfloor (y + (1 # 2))) in *.
  rewrite inject_Z_plus in F2. change (inject_Z 1) with 1 in F2.
  assert (Np : 0 < inject_Z n) by (unfold Qlt; cbn; lia).
  assert (Nu : inject_Z n < 4294967296).
  { change 4294967296 with (inject_Z 4294967296). rewrite <- Zlt_Qlt.
    change (2 ^ 32)%Z with 4294967296%Z in Hn. lia. }
  assert (E : (inject_Z c / inject_Z n) * inject_Z n == inject_Z c).
  { field. lra. }
  set (q := inject_Z c / inject_Z n) in *.
  set (nQ := inject_Z n) in *. set (cQ := inject_Z c) in *. set (rQ := inject_Z r) in *.
  unfold eps in *.
  assert (U : rQ * nQ <= (100 * q + (1 # 1000000000000) + (1 # 2)) * nQ).
  { apply Qmult_le_compat_r; lra. }
  assert (L : (100 * q - (1 # 1000000000000) - (1 # 2)) * nQ <= rQ * nQ).
  { apply Qmult_le_compat_r; lra. }
  assert (U' : inject_Z (2 * n * r) < inject_Z (200 * c + n + 1)).
  { rewrite !inject_Z_plus, !inject_Z_mult. fold nQ cQ rQ.
    change (inject_Z 2) with 2. change (inject_Z 200) with 200. change (inject_Z 1) with 1.
    nra. }
  assert (L' : inject_Z (200 * c - n - 1) < inject_Z (2 * n * r)).
  { unfold Z.sub. rewrite !inject_Z_plus, !inject_Z_opp, !inject_Z_mult. fold nQ cQ rQ.
    change (inject_Z 2) with 2. change (inject_Z 200) with 200. change (inject_Z 1) with 1.
    nra. }
  rewrite <- Zlt_Qlt in U', L'. lia.
Qed.
End FloatFacts.

(** ** The rounding model against the reference operations

    The Standard Library defines the IEEE 754 operations on binary
    floats ([SFdiv], [SFmul]); at precision 53 and maximal exponent 1024
    they are the double operations.  On every count [c] out of [n] up to
    a hundred sessions they give the value the model above gives. *)

Module FloatReference.
Import Float FloatSpec.

Lemma model_agrees_with_reference :
  forallb (fun n => forallb (fun c => agree (Z.of_nat c) (Z.of_nat n)) (seq 0 (S n)))
          (seq 1 100) = true.
Proof. vm_compute. reflexivity. Qed.

End FloatReference.

(** ** Sorting with a comparison function *)

Module SortFacts.
Import JS JSArray.

Section Sort.
Context {A : Type}.
Variable comparefn : A -> A -> number.
(** The order the comparison function is meant to decide, on the
    elements satisfying [P]. *)
Variable le : A -> A -> Prop.
Variable P : A -> Prop.
Hypothesis before : forall x y, P x -> P y -> SortCompare comparefn x y <= 0 -> le x y.
Hypothesis after : forall x y, P x -> P y -> 0 < SortCompare comparefn x y -> le y x.
Hypothesis le_trans : forall x y z, le x y -> le y z -> le x z.

Lemma insert_perm x l : Permutation (insert comparefn x l) (x :: l).
Proof using Type.
  induction l as [|y rest IH]; cbn [insert].
  - apply Permutation_refl.
  - destruct (SortCompare comparefn x y <=? 0).
    + apply Permutation_refl.
    + eapply Permutation_trans; [apply perm_skip, IH | apply perm_swap].
Qed.

Lemma sort_perm l : Permutation (sort comparefn l) l.
Proof using Type.
  induction l as [|x rest IH]; cbn [sort].
  - apply perm_nil.
  - eapply Permutation_trans; [apply insert_perm | apply perm_skip, IH].
Qed.

Lemma insert_Forall (Q : A -> Prop) x l :
  Q x -> Forall Q l -> Forall Q (insert comparefn x l).
Proof using Type.
  intros Hx Hl.
  eapply Permutation_Forall; [apply Permutation_sym, insert_perm|].
  now constructor.
Qed.

Lemma insert_sorted x l :
  P x -> Forall P l -> StronglySorted le l ->
  StronglySorted le (insert comparefn x l).
Proof using before after le_trans.
  intros Px Pl Sl. induction Sl as [|y rest Srest IH Hy]; cbn [insert].
  - constructor; constructor.
  - inversion Pl as [|? ? Py Prest]; subst.
    destruct (Z.leb_spec (SortCompare comparefn x y) 0) as [Hc|Hc].
    + pose proof (before x y Px Py Hc) as Hxy.
      constructor; [constructor; assumption|].
      constructor; [exact Hxy|].
      eapply Forall_impl; [|exact Hy]. intros z Hz. eapply le_trans; eassumption.
    + pose proof (after x y Px Py Hc) as Hyx.
      constructor; [apply IH; assumption|].
      apply insert_Forall; assumption.
Qed.

Lemma sort_sorted l : Forall P l -> StronglySorted le (sort comparefn l).
Proof using before after le_trans.
  induction l as [|x rest IH]; intros Pl; cbn [sort].
  - constructor.
  - inversion Pl as [|? ? Px Prest]; subst.
    apply insert_sorted; [exact Px | | apply IH; exact Prest].
    eapply Permutation_Forall; [apply Permutation_sym, sort_perm | exact Prest].
Qed.

End Sort.

End SortFacts.

(** ** The analytics service *)

Module AnalyticsFacts.
Import JS JSDate JSArray SortFacts.
Export AnalyticsSpec.

Lemma time_le_trans {A : Type} (time : A -> number) x y z :
  time_le time x y -> time_le time y z -> time_le time x z.
Proof.
  unfold time_le. destruct (time x), (time y), (time z); try tauto. lia.
Qed.

Lemma slice_from_last {A : Type} (k : nat) (l : list A) :
  (0 < k)%nat -> slice_from (- Z.of_nat k) l = lastn (Nat.min (List.length l) k) l.
Proof.
  intros Hk. unfold slice_from, lastn.
  replace (- Z.of_nat k <? 0) with true by (symmetry; apply Z.ltb_lt; lia).
  f_equal. lia.
Qed.

Lemma lastn_length {A : Type} (k : nat) (l : list A) :
  (k <= List.length l)%nat -> List.length (lastn k l) = k.
Proof. intros H. unfold lastn. rewrite length_skipn. lia. Qed.

(** In a sorted list every element of a front part is below every
    element of the rest. *)
Lemma sorted_app_le {A : Type} (R : A -> A -> Prop) (l1 l2 : list A) :
  StronglySorted R (l1 ++ l2) ->
  forall a b, In a l1 -> In b l2 -> R a b.
Proof.
  induction l1 as [|x l1 IH]; intros Hs a b Ha Hb; [destruct Ha|].
  cbn [app] in Hs. inversion Hs as [|? ? Hrest Hall]; subst.
  destruct Ha as [->|Ha].
  - rewrite Forall_forall in Hall. apply Hall, in_or_app. now right.
  - now apply IH.
Qed.

Lemma lastn_suffix {A : Type} (k : nat) (l : list A) :
  exists front, l = front ++ lastn k l.
Proof.
  exists (firstn (List.length l - k) l). unfold lastn.
  symmetry. apply firstn_skipn.
Qed.

Import AnalyticsService.

Section Fetch.
Variable V : Type.
Variable host : Host.
Variable toISOString : Z -> string.
Variable w : World V.

Local Notation "'time'" := (createdTime V host) (only parsing).

Lemma isSortedAfter_sorted prev l :
  has_time time prev ->
  isSortedAfter V host prev l = true ->
  Forall (has_time time) l /\ Sorted (time_le time) (prev :: l).
Proof using Type.
  revert prev. induction l as [|x rest IH]; intros prev Hp H; cbn [isSortedAfter] in H.
  - split; constructor; constructor.
  - apply andb_prop in H. destruct H as [Hle Hrest].
    assert (Hx : has_time time x).
    { unfold num_le in Hle. destruct (time prev), (time x) as [tx|] eqn:E; try discriminate.
      now exists tx. }
    destruct (IH x Hx Hrest) as [Fr Sr].
    split; [constructor; assumption|].
    constructor; [exact Sr|]. constructor.
    unfold time_le. unfold num_le in Hle.
    destruct (time prev), (time x); try discriminate. now apply Z.leb_le.
Qed.

Lemma isSorted_chronological l :
  Forall (has_time time) l -> isSorted V host l = true -> chronological time l.
Proof using Type.
  intros Hl H. destruct l as [|x rest]; [constructor|].
  inversion Hl; subst. cbn [isSorted] in H.
  apply Sorted_StronglySorted.
  - intros a b c. apply time_le_trans.
  - apply (isSortedAfter_sorted x rest); assumption.
Qed.

Lemma compareReports_before x y :
  has_time time x -> has_time time y ->
  SortCompare (compareReports V host) x y <= 0 -> time_le time x y.
Proof using Type.
  intros [tx Hx] [ty Hy]. unfold SortCompare, compareReports, time_le.
  rewrite Hx, Hy. cbn [num_strict_eq num_sub].
  destruct (Z.eqb_spec tx ty); cbn [negb]; lia.
Qed.

Lemma compareReports_after x y :
  has_time time x -> has_time time y ->
  0 < SortCompare (compareReports V host) x y -> time_le time y x.
Proof using Type.
  intros [tx Hx] [ty Hy]. unfold SortCompare, compareReports, time_le.
  rewrite Hx, Hy. cbn [num_strict_eq num_sub].
  destruct (Z.eqb_spec tx ty); cbn [negb]; lia.
Qed.

(** Step 3 leaves the history in chronological order, with the same
    entries. *)
Lemma sortHistory_chronological l :
  Forall (has_time time) l ->
  chronological time (sortHistory V host l) /\ Permutation (sortHistory V host l) l.
Proof using Type.
  intros Hl. unfold sortHistory.
  destruct (0 <? Z.of_nat (List.length l)) eqn:E.
  - destruct (isSorted V host l) eqn:S; cbn [negb].
    + split; [now apply isSorted_chronological | apply Permutation_refl].
    + split; [|apply sort_perm].
      apply (sort_sorted (compareReports V host) (time_le time) (has_time time)).
      * apply compareReports_before.
      * apply compareReports_after.
      * intros a b c. apply time_le_trans.
      * exact Hl.
  - split; [|apply Permutation_refl].
    destruct l; [constructor|]. cbn in E. discriminate.
Qed.

(** *** What is sent *)

Lemma queryVersions_no_fetch :
  filter (isFetch V) (snd (queryVersions V w)) = [].
Proof using Type.
  unfold queryVersions.
  destruct (getDocs V w OrderByCreatedAt) as [docs|e]; [reflexivity|].
  destruct (failed_precondition e); [|reflexivity].
  destruct (getDocs V w OrderByVersion) as [docs|e2]; [reflexivity|].
  destruct (failed_precondition e2); [|reflexivity].
  destruct (getDocs V w Unordered); reflexivity.
Qed.

End Fetch.

End AnalyticsFacts.

(** ** The progress component: order of the versions *)

Module ProgressFacts.
Import JS JSDate JSArray SortFacts AnalyticsFacts ProgressAnalytics.

Section Load.
Variable host : Host.

Lemma version_then_time_trans x y z :
  version_then_time host x y -> version_then_time host y z -> version_then_time host x z.
Proof using Type.
  intros (Hx & Hy & Hxy) (_ & Hz & Hyz). repeat split; try assumption.
  destruct Hxy as [L|[E T]], Hyz as [L'|[E' T']]; try (left; lia).
  right. split; [lia|]. eapply time_le_trans; eassumption.
Qed.

Lemma compareVersions_before x y :
  has_time (createdTime host) x -> has_time (createdTime host) y ->
  SortCompare (compareVersions host) x y <= 0 -> version_then_time host x y.
Proof using Type.
  intros Hx Hy. repeat split; try assumption.
  destruct Hx as [tx Hx], Hy as [ty Hy].
  revert H. unfold SortCompare, compareVersions, time_le. rewrite Hx, Hy.
  destruct (Z.eqb_spec (version x) (version y)); cbn [negb num_sub]; intros; lia.
Qed.

Lemma compareVersions_after x y :
  has_time (createdTime host) x -> has_time (createdTime host) y ->
  0 < SortCompare (compareVersions host) x y -> version_then_time host y x.
Proof using Type.
  intros Hx Hy. repeat split; try assumption.
  destruct Hx as [tx Hx], Hy as [ty Hy].
  revert H. unfold SortCompare, compareVersions, time_le. rewrite Hx, Hy.
  destruct (Z.eqb_spec (version x) (version y)); cbn [negb num_sub]; intros; lia.
Qed.

Lemma sortVersions_sorted versions :
  Forall (has_time (createdTime host)) versions ->
  StronglySorted (version_then_time host) (sortVersions host versions) /\
  Permutation (sortVersions host versions) versions.
Proof using Type.
  intros Hv. split; [|apply sort_perm].
  apply (sort_sorted (compareVersions host) (version_then_time host)
           (has_time (createdTime host))).
  - apply compareVersions_before.
  - apply compareVersions_after.
  - apply version_then_time_trans.
  - exact Hv.
Qed.

End Load.

End ProgressFacts.

(** ** Report order and request size: the statements *)

Section AnalyticsClaims.
Import JS JSDate JSArray Billing SortFacts AnalyticsFacts ProgressFacts.

(** C2 as stated fails for the component: it orders the versions by
    version number first.  Of the two versions above, both with a valid
    creation time, the one created in February comes out before the one
    created in January. *)
Lemma C2_component_not_chronological :
  Forall (has_time (ProgressAnalytics.createdTime hostIST)) [versionJan; versionFeb] /\
  ProgressAnalytics.sortVersions hostIST [versionJan; versionFeb] = [versionFeb; versionJan] /\
  ~ chronological (ProgressAnalytics.createdTime hostIST)
      (ProgressAnalytics.sortVersions hostIST [versionJan; versionFeb]).
Proof.
  split; [|split].
  - repeat constructor; eexists; vm_compute; reflexivity.
  - vm_compute. reflexivity.
  - intros H. change (ProgressAnalytics.sortVersions hostIST [versionJan; versionFeb])
      with [versionFeb; versionJan] in H.
    inversion H as [|? ? _ F]; subst. inversion F as [|? ? T _]; subst.
    vm_compute in T. apply T. reflexivity.
Qed.

(** C2, amended.  When every creation time is a valid date: the report
    list of [fetchPatientAnalytics] holds the fetched entries in
    nondecreasing order of creation time; the version list of the
    component holds the fetched versions in nondecreasing order of
    version number, and of creation time among equal version numbers. *)
Theorem C2_report_order (V : Type) (host : Host) (toISOString : Z -> string)
  (w : AnalyticsService.World V)
  (docs : list (AnalyticsService.ReportVersionData V))
  (versions : list ProgressAnalytics.ReportVersion) :
  Forall (has_time (AnalyticsService.createdTime V host))
         (mapi (AnalyticsService.toReport V toISOString w) docs) ->
  Forall (has_time (ProgressAnalytics.createdTime host)) versions ->
  (chronological (AnalyticsService.createdTime V host)
     (AnalyticsService.reportHistoryOf V host toISOString w docs) /\
   Permutation (AnalyticsService.reportHistoryOf V host toISOString w docs)
     (mapi (AnalyticsService.toReport V toISOString w) docs)) /\
  (StronglySorted (version_then_time host) (ProgressAnalytics.sortVersions host versions) /\
   Permutation (ProgressAnalytics.sortVersions host versions) versions).
Proof.
  intros Hd Hv. split.
  - apply sortHistory_chronological. exact Hd.
  - apply sortVersions_sorted. exact Hv.
Qed.

(** C2 on two stored documents and the two versions above. *)
Lemma C2_report_order_witness :
  let w := {| AnalyticsService.getDocs := fun _ => AnalyticsService.Returns [];
              AnalyticsService.clock := fun _ => 0;
              AnalyticsService.fetch := fun _ => AnalyticsService.Throws (Error "offline") |} in
  let doc (v : Z) (s : string) :=
    {| AnalyticsService.doc_version := Some v;
       AnalyticsService.doc_createdAt := AnalyticsService.CreatedString s;
       AnalyticsService.doc_reportData := None;
       AnalyticsService.doc_data := @None (AnalyticsService.ReportData string) |} in
  let docs := [doc 2 "2024-02-01T00:00:00.000Z"; doc 1 "2024-01-01T00:00:00.000Z"] in
  (chronological (AnalyticsService.createdTime string hostIST)
     (AnalyticsService.reportHistoryOf string hostIST (fun _ => "") w docs) /\
   Permutation (AnalyticsService.reportHistoryOf string hostIST (fun _ => "") w docs)
     (mapi (AnalyticsService.toReport string (fun _ => "") w) docs)) /\
  (StronglySorted (version_then_time hostIST)
     (ProgressAnalytics.sortVersions hostIST [versionJan; versionFeb]) /\
   Permutation (ProgressAnalytics.sortVersions hostIST [versionJan; versionFeb])
     [versionJan; versionFeb]).
Proof.
  intros w doc docs.
  apply (C2_report_order string hostIST (fun _ => "") w docs [versionJan; versionFeb]).
  - repeat constructor; eexists; vm_compute; reflexivity.
  - repeat constructor; eexists; vm_compute; reflexivity.
Defined.

(** C9.  When the query succeeds for a patient, with [n] the length of
    the sorted report history: for [n = 0] the function throws and sends
    no request; otherwise it sends exactly one request, whose
    [reportHistory] is the last [min n 5] entries of the history, and
    these are the latest ones: when the creation times are valid dates,
    no entry left out is later than an entry sent. *)
Theorem C9_latest_five (V : Type) (host : Host) (toISOString : Z -> string)
  (w : AnalyticsService.World V) (patientId : string)
  (docs : list (AnalyticsService.ReportVersionData V))
  (fx : list (AnalyticsService.Effect V)) :
  patientId <> "" ->
  AnalyticsService.queryVersions V w = (AnalyticsService.Returns docs, fx) ->
  let history := AnalyticsService.reportHistoryOf V host toISOString w docs in
  let n := List.length history in
  let result := AnalyticsService.fetchPatientAnalytics V host toISOString w patientId in
  (n = 0%nat ->
     fst result = AnalyticsService.Throws (Error "No report versions found for this patient") /\
     filter (isFetch V) (snd result) = []) /\
  ((0 < n)%nat ->
     filter (isFetch V) (snd result)
     = [AnalyticsService.Fetch V "/api/analyze-patient" (lastn (Nat.min n 5) history)] /\
     AnalyticsService.requestBody V (snd result) = Some (lastn (Nat.min n 5) history) /\
     List.length (lastn (Nat.min n 5) history) = Nat.min n 5 /\
     exists earlier,
       history = earlier ++ lastn (Nat.min n 5) history /\
       (Forall (has_time (AnalyticsService.createdTime V host))
          (mapi (AnalyticsService.toReport V toISOString w) docs) ->
        forall a b, In a earlier -> In b (lastn (Nat.min n 5) history) ->
                    time_le (AnalyticsService.createdTime V host) a b)).
Proof.
  intros Hid Hq history n result.
  pose proof (queryVersions_no_fetch V w) as Hfx. rewrite Hq in Hfx. cbn [snd] in Hfx.
  assert (Hno : String.eqb patientId "" = false) by (now apply String.eqb_neq).
  subst result. unfold AnalyticsService.fetchPatientAnalytics.
  rewrite Hno, Hq.
  change (AnalyticsService.sortHistory V host
            (mapi (AnalyticsService.toReport V toISOString w) docs)) with history.
  change (List.length history) with n.
  split.
  - intros Hn. rewrite Hn. cbn [Nat.eqb fst snd]. split; [reflexivity | exact Hfx].
  - intros Hn. replace (Nat.eqb n 0) with false by (symmetry; apply Nat.eqb_neq; lia).
    change (-5) with (- Z.of_nat 5).
    rewrite (slice_from_last 5 history) by lia.
    change (List.length history) with n.
    set (latest := lastn (Nat.min n 5) history).
    assert (Hf : filter (isFetch V)
                   (snd (match AnalyticsService.fetch V w latest with
                         | AnalyticsService.Throws e =>
                             (AnalyticsService.Throws e,
                              (if Nat.ltb 5 n
                               then fx ++ [AnalyticsService.ConsoleLog V
                                             (AnalyticsService.limitMessage
                                                (List.length latest) n)]
                               else fx)
                              ++ [AnalyticsService.Fetch V "/api/analyze-patient" latest])
                         | AnalyticsService.Returns response =>
                             (AnalyticsService.readResponse response,
                              (if Nat.ltb 5 n
                               then fx ++ [AnalyticsService.ConsoleLog V
                                             (AnalyticsService.limitMessage
                                                (List.length latest) n)]
                               else fx)
                              ++ [AnalyticsService.Fetch V "/api/analyze-patient" latest])
                         end))
                 = [AnalyticsService.Fetch V "/api/analyze-patient" latest]).
    { destruct (AnalyticsService.fetch V w latest); cbn [snd];
        destruct (Nat.ltb 5 n); rewrite ?filter_app, Hfx; reflexivity. }
    split; [exact Hf|]. split.
    + unfold AnalyticsService.requestBody. fold (isFetch V). rewrite Hf. reflexivity.
    + split; [apply lastn_length; lia|].
      destruct (lastn_suffix (Nat.min n 5) history) as [earlier He].
      exists earlier. split; [exact He|].
      intros Hv a b Ha Hb.
      destruct (sortHistory_chronological V host _ Hv) as [Hs _].
      change (AnalyticsService.sortHistory V host
                (mapi (AnalyticsService.toReport V toISOString w) docs))
        with history in Hs.
      fold latest in He, Hb. unfold chronological in Hs. rewrite He in Hs.
      exact (sorted_app_le _ _ _ Hs a b Ha Hb).
Qed.

(** C9 on a patient with seven stored reports, numbered 1 to 7: the
    request carries reports 3 to 7. *)
Lemma C9_latest_five_witness :
  let doc (v : Z) (s : string) :=
    {| AnalyticsService.doc_version := Some v;
       AnalyticsService.doc_createdAt := AnalyticsService.CreatedString s;
       AnalyticsService.doc_reportData := None;
       AnalyticsService.doc_data := @None (AnalyticsService.ReportData string) |} in
  let docs := [doc 1 "2024-01-01"; doc 2 "2024-01-02"; doc 3 "2024-01-03";
               doc 4 "2024-01-04"; doc 5 "2024-01-05"; doc 6 "2024-01-06";
               doc 7 "2024-01-07"] in
  let w := {| AnalyticsService.getDocs := fun _ => AnalyticsService.Returns docs;
              AnalyticsService.clock := fun _ => 0;
              AnalyticsService.fetch := fun _ => AnalyticsService.Throws (Error "offline") |} in
  map (AnalyticsService.version string)
    (match AnalyticsService.requestBody string
             (snd (AnalyticsService.fetchPatientAnalytics string hostIST (fun _ => "") w "P-1"))
     with Some body => body | None => [] end)
  = [3; 4; 5; 6; 7].
Proof.
  intros doc docs w.
  pose proof (C9_latest_five string hostIST (fun _ => "") w "P-1" docs
                [AnalyticsService.GetDocs string AnalyticsService.OrderByCreatedAt]) as H.
  assert (Hid : "P-1" <> "") by discriminate.
  assert (Hq : AnalyticsService.queryVersions string w
               = (AnalyticsService.Returns docs,
                  [AnalyticsService.GetDocs string AnalyticsService.OrderByCreatedAt]))
    by reflexivity.
  specialize (H Hid Hq). cbv zeta in H. destruct H as [_ H].
  assert (Hn : (0 < List.length
                       (AnalyticsService.reportHistoryOf string hostIST (fun _ => "") w docs))%nat)
    by (vm_compute; lia).
  destruct (H Hn) as (_ & Hb & _).
  rewrite Hb. vm_compute. reflexivity.
Defined.

End AnalyticsClaims.

(** ** Session metrics: the statements *)

Module MetricsFacts.
Import JS JSArray Float FloatFacts ProgressAnalytics.

Lemma nth_error_mapi_from {A B : Type} (f : A -> nat -> B) start l i :
  nth_error (mapi_from f start l) i
  = option_map (fun x => f x (start + i)%nat) (nth_error l i).
Proof.
  revert start i. induction l as [|x rest IH]; intros start [|i]; cbn; try reflexivity.
  - now rewrite Nat.add_0_r.
  - rewrite IH. now rewrite Nat.add_succ_r.
Qed.

Lemma nth_error_mapi {A B : Type} (f : A -> nat -> B) l i :
  nth_error (mapi f l) i = option_map (fun x => f x i) (nth_error l i).
Proof. unfold mapi. now rewrite nth_error_mapi_from. Qed.

(** The count is taken over the first [index + 1] versions. *)
Lemma sessionsWithImprovement_count versions index :
  (index < List.length versions)%nat ->
  sessionsWithImprovement versions index
  = Z.of_nat (List.length (filter isImproved (firstn (S index) versions))).
Proof.
  intros H. unfold sessionsWithImprovement, slice_to. do 4 f_equal. lia.
Qed.

Lemma sessionsWithImprovement_range versions index :
  (index < List.length versions)%nat ->
  0 <= sessionsWithImprovement versions index <= rateDivisor index.
Proof.
  intros H. rewrite sessionsWithImprovement_count by exact H. unfold rateDivisor.
  pose proof (filter_length_le isImproved (firstn (S index) versions)) as L.
  rewrite length_firstn in L. lia.
Qed.

Lemma improvementRate_rate versions index :
  improvementRate versions index
  = rate (sessionsWithImprovement versions index) (rateDivisor index).
Proof. reflexivity. Qed.

End MetricsFacts.

Section MetricsClaims.
Import JS JSArray Float FloatFacts ProgressAnalytics MetricsFacts.

(** C10.  For a list of report versions (an array, so shorter than 2^32)
    and a session index [i] within it: the entry of [sessionMetrics] at
    [i] carries the rate computed from the number [c] of versions marked
    Improved among the first [i + 1], divided by [i + 1], which is not
    zero, times 100, rounded; the rate lies between 0 and 100 and is a
    nearest integer to [100 * c / (i + 1)]. *)
Theorem C10_improvement_rate (versions : list ReportVersion) (i : nat) :
  (i < List.length versions)%nat ->
  Z.of_nat (List.length versions) < 2 ^ 32 ->
  let c := Z.of_nat (List.length (filter isImproved (firstn (S i) versions))) in
  let n := Z.of_nat i + 1 in
  exists metrics,
    nth_error (sessionMetrics versions) i = Some metrics /\
    sessionsWithImprovement versions i = c /\
    rateDivisor i = n /\ n <> 0 /\
    cumulativeImprovementRate metrics
    = Math_round (fmul (fdiv (of_int c) (of_int n)) (of_int 100)) /\
    0 <= cumulativeImprovementRate metrics <= 100 /\
    Z.abs (2 * n * cumulativeImprovementRate metrics - 200 * c) <= n.
Proof.
  intros Hi Hlen c n.
  pose proof (sessionsWithImprovement_count versions i Hi) as Ec. fold c in Ec.
  pose proof (sessionsWithImprovement_range versions i Hi) as Rc.
  rewrite Ec in Rc. unfold rateDivisor in Rc. fold n in Rc.
  destruct (nth_error versions i) as [v|] eqn:Ev.
  2:{ apply nth_error_None in Ev. lia. }
  unfold sessionMetrics.
  replace (Nat.eqb (List.length versions) 0) with false
    by (symmetry; apply Nat.eqb_neq; lia).
  rewrite nth_error_mapi, Ev. cbn [option_map].
  eexists. split; [reflexivity|]. cbn [cumulativeImprovementRate].
  rewrite improvementRate_rate, Ec. unfold rateDivisor. fold n.
  repeat split; try lia.
  - apply rate_range; lia.
  - apply rate_range; lia.
  - apply rate_nearest; lia.
Qed.

(** C10 on forty sessions of which the first twenty-three are marked
    Improved: the last rate is 57, where 100 * 23 / 40 = 57.5 (the
    double product 0.575 * 100 lies just below 57.5). *)
Lemma C10_improvement_rate_witness :
  let session (s : string) :=
    {| id := "r"; version := 0; createdAt := "2024-01-01T00:00:00.000Z";
       createdBy := "Unknown"; currentPainStatus := Some s |} in
  let versions := repeat (session "Improved") 23 ++ repeat (session "Same") 17 in
  exists metrics,
    nth_error (sessionMetrics versions) 39 = Some metrics /\
    cumulativeImprovementRate metrics = 57.
Proof.
  intros session versions.
  assert (Hi : (39 < List.length versions)%nat) by (vm_compute; lia).
  assert (Hlen : Z.of_nat (List.length versions) < 2 ^ 32) by (vm_compute; reflexivity).
  destruct (C10_improvement_rate versions 39 Hi Hlen) as (metrics & Hm & _ & _ & _ & Hr & _).
  exists metrics. split; [exact Hm|].
  rewrite Hr. vm_compute. reflexivity.
Defined.

End MetricsClaims.

(** ** The CSV exports *)

Module CsvFacts.
Import JS Users.
Export CsvSpec.
Local Open Scope string_scope.

Lemma append_assoc (a b c : string) : (a ++ b) ++ c = a ++ (b ++ c).
Proof. induction a as [|x a IH]; cbn; [reflexivity | now rewrite IH]. Qed.

Lemma append_nil_r (a : string) : a ++ "" = a.
Proof. induction a as [|x a IH]; cbn; [reflexivity | now rewrite IH]. Qed.

Lemma snoc_append cur c rest : snoc cur c ++ rest = cur ++ String c rest.
Proof. unfold snoc. now rewrite append_assoc. Qed.

Lemma cellValue_id cell : cellValue cell = cell.
Proof. unfold cellValue. destruct (String.eqb_spec cell ""); congruence. Qed.

Lemma escapeCell_plain cell : plain cell = true -> escapeCell cell = cell.
Proof.
  unfold plain, escapeCell. rewrite cellValue_id. intros H.
  apply negb_true_iff in H. now rewrite H.
Qed.

Lemma escapeCell_quoted cell :
  plain cell = false ->
  escapeCell cell = String dquote (doubleQuotes cell ++ String dquote "").
Proof.
  unfold plain, escapeCell. rewrite cellValue_id. intros H.
  apply negb_false_iff in H. now rewrite H.
Qed.

Lemma plain_cons c s :
  plain (String c s) = true ->
  Ascii.eqb c comma = false /\ Ascii.eqb c dquote = false /\
  Ascii.eqb c newline = false /\ plain s = true.
Proof.
  unfold plain. cbn [includes_char]. intros H. apply negb_true_iff in H.
  apply orb_false_iff in H. destruct H as [H Hn].
  apply orb_false_iff in H. destruct H as [Hc Hq].
  apply orb_false_iff in Hc, Hq, Hn.
  destruct Hc as [Hc Hc'], Hq as [Hq Hq'], Hn as [Hn Hn'].
  rewrite Hc', Hq', Hn'. auto.
Qed.

Lemma no_creturn_cons c s :
  includes_char (String c s) creturn = false ->
  Ascii.eqb c creturn = false /\ includes_char s creturn = false.
Proof. cbn [includes_char]. intros H. now apply orb_false_iff in H. Qed.

(** A readable cell that is written bare holds no carriage return. *)
Lemma readable_plain cell :
  readable cell = true -> plain cell = true -> includes_char cell creturn = false.
Proof.
  unfold readable. intros R P. rewrite P in R. cbn in R.
  now apply negb_true_iff in R.
Qed.

Section Reader.
Variables (row : list string) (rows : list (list string)).

Lemma read_bare cell : forall cur tail,
  plain cell = true -> includes_char cell creturn = false ->
  readCsv Bare cur row rows (cell ++ tail) = readCsv Bare (cur ++ cell) row rows tail.
Proof using Type.
  induction cell as [|c cell IH]; intros cur tail H R.
  - now rewrite append_nil_r.
  - apply plain_cons in H. destruct H as (Hc & Hq & Hn & Hp).
    apply no_creturn_cons in R. destruct R as (Hr & R).
    cbn [append readCsv]. rewrite Hc, Hq, Hn, Hr.
    rewrite IH by assumption. now rewrite snoc_append.
Qed.

Lemma read_quoted cell : forall cur tail,
  readCsv Quoted cur row rows (doubleQuotes cell ++ String dquote tail)
  = readCsv QuoteSeen (cur ++ cell) row rows tail.
Proof using Type.
  induction cell as [|c cell IH]; intros cur tail.
  - cbn. now rewrite append_nil_r.
  - cbn [doubleQuotes]. destruct (Ascii.eqb c dquote) eqn:E.
    + apply Ascii.eqb_eq in E. subst c.
      cbn [append readCsv]. change (Ascii.eqb dquote dquote) with true. cbn iota.
      rewrite IH. now rewrite snoc_append.
    + cbn [append readCsv]. rewrite E. rewrite IH. now rewrite snoc_append.
Qed.

Lemma start_at_boundary cur tail :
  boundary tail ->
  readCsv FieldStart cur row rows tail = readCsv Bare cur row rows tail.
Proof using Type.
  intros [->|[[t ->]|[t ->]]]; reflexivity.
Qed.

Lemma seen_at_boundary cur tail :
  boundary tail ->
  readCsv QuoteSeen cur row rows tail = readCsv Bare cur row rows tail.
Proof using Type.
  intros [->|[[t ->]|[t ->]]]; reflexivity.
Qed.

(** Reading one written cell gives the cell back. *)
Lemma read_cell cell tail :
  readable cell = true ->
  boundary tail ->
  readCsv FieldStart "" row rows (escapeCell cell ++ tail)
  = readCsv Bare cell row rows tail.
Proof using Type.
  intros R B. destruct (plain cell) eqn:P.
  - pose proof (readable_plain cell R P) as Hr.
    rewrite escapeCell_plain by exact P.
    destruct cell as [|c cell].
    + cbn [append]. now apply start_at_boundary.
    + pose proof (plain_cons c cell P) as (Hc & Hq & Hn & Hp).
      apply no_creturn_cons in Hr. destruct Hr as (Hr & Hr').
      cbn [append readCsv]. rewrite Hc, Hq, Hn, Hr.
      now rewrite read_bare by assumption.
  - rewrite escapeCell_quoted by exact P.
    cbn [append readCsv]. change (Ascii.eqb dquote dquote) with true. cbn iota.
    rewrite append_assoc. cbn [append].
    rewrite read_quoted. cbn [append]. now apply seen_at_boundary.
Qed.

End Reader.

Lemma row_boundary_boundary tail : row_boundary tail -> boundary tail.
Proof. unfold boundary. intros [H|H]; auto. Qed.

(** Reading a written record: all its cells but the last are stored, the
    last is the field being read when the record ends. *)
Lemma read_row cells : forall row rows tail,
  cells <> [] ->
  forallb readable cells = true ->
  row_boundary tail ->
  readCsv FieldStart "" row rows (join (String comma "") (map escapeCell cells) ++ tail)
  = readCsv Bare (last cells "") (rev (removelast cells) ++ row)%list rows tail.
Proof.
  induction cells as [|c cells IH]; intros row rows tail Hne R B; [congruence|].
  cbn [forallb] in R. apply andb_true_iff in R. destruct R as [Rc R].
  destruct cells as [|c2 cells].
  - cbn [map join last removelast rev app].
    apply read_cell; [exact Rc | apply row_boundary_boundary, B].
  - change (join (String comma "") (map escapeCell (c :: c2 :: cells)))
      with (escapeCell c ++ String comma "" ++ join (String comma "") (map escapeCell (c2 :: cells))).
    rewrite !append_assoc. rewrite read_cell.
    2: exact Rc.
    2:{ right; left. eexists. reflexivity. }
    cbn [append readCsv].
    change (Ascii.eqb comma dquote) with false. change (Ascii.eqb comma comma) with true.
    cbn iota.
    rewrite IH by (congruence || assumption).
    change (last (c :: c2 :: cells) "") with (last (c2 :: cells) "").
    change (removelast (c :: c2 :: cells)) with (c :: removelast (c2 :: cells)).
    cbn [rev]. now rewrite <- !app_assoc.
Qed.

(** At the start of a record the reader is where it is after a comma,
    unless the text ends there. *)
Lemma record_start rows s :
  s <> "" -> readCsv RecordStart "" [] rows s = readCsv FieldStart "" [] rows s.
Proof. destruct s; [congruence | reflexivity]. Qed.

(** The line of a record of two cells or more is not empty. *)
Lemma line_not_empty cells tail :
  (2 <= List.length cells)%nat ->
  join (String comma "") (map escapeCell cells) ++ tail <> "".
Proof.
  destruct cells as [|c [|c2 cells]]; cbn [List.length]; try lia. intros _.
  change (join (String comma "") (map escapeCell (c :: c2 :: cells)))
    with (escapeCell c ++ String comma "" ++ join (String comma "") (map escapeCell (c2 :: cells))).
  destruct (escapeCell c); cbn; discriminate.
Qed.

Lemma rev_removelast_last (cells : list string) :
  cells <> [] -> rev (last cells "" :: rev (removelast cells)) = cells.
Proof.
  intros H. cbn [rev]. rewrite rev_involutive.
  symmetry. now apply app_removelast_last.
Qed.

Lemma two_cells_not_nil (cells : list string) :
  (2 <= List.length cells)%nat -> cells <> [].
Proof. destruct cells; cbn [List.length]; [lia | discriminate]. Qed.

(** Reading written records gives the records back. *)
Lemma read_rows lines : forall rows,
  lines <> [] ->
  Forall (fun cells => (2 <= List.length cells)%nat /\ forallb readable cells = true) lines ->
  readCsv RecordStart "" [] rows
    (join (String newline "")
       (map (fun cells => join (String comma "") (map escapeCell cells)) lines))
  = Some (rev rows ++ lines)%list.
Proof.
  induction lines as [|l lines IH]; intros rows Hne Hall; [congruence|].
  inversion Hall as [|? ? [Hl Rl] Hrest]; subst.
  pose proof (two_cells_not_nil l Hl) as Hl'.
  destruct lines as [|l2 lines].
  - cbn [map join].
    rewrite <- (append_nil_r (join (String comma "") (map escapeCell l))).
    rewrite record_start by (apply line_not_empty; exact Hl).
    rewrite read_row by (assumption || (left; reflexivity)).
    rewrite app_nil_r. cbn [readCsv].
    rewrite rev_removelast_last by exact Hl'. reflexivity.
  - change (join (String newline "")
              (map (fun cells => join (String comma "") (map escapeCell cells))
                 (l :: l2 :: lines)))
      with (join (String comma "") (map escapeCell l) ++ String newline "" ++
            join (String newline "")
              (map (fun cells => join (String comma "") (map escapeCell cells))
                 (l2 :: lines))).
    rewrite record_start by (apply line_not_empty; exact Hl).
    rewrite read_row by (assumption || (right; eexists; reflexivity)).
    rewrite app_nil_r. cbn [append readCsv].
    change (Ascii.eqb newline dquote) with false.
    change (Ascii.eqb newline comma) with false.
    change (Ascii.eqb newline newline) with true. cbn iota.
    rewrite rev_removelast_last by exact Hl'.
    rewrite IH by (congruence || exact Hrest).
    cbn [rev]. now rewrite <- app_assoc.
Qed.

(** The file written for given headers and rows reads back as the headers
    followed by the rows, when no header needs quoting and every cell is
    readable. *)
Lemma parse_csvContent headers rows :
  (2 <= List.length headers)%nat ->
  forallb readable headers = true ->
  map escapeCell headers = headers ->
  Forall (fun cells => (2 <= List.length cells)%nat /\ forallb readable cells = true) rows ->
  parseCsv (csvContent headers rows) = Some (headers :: rows).
Proof.
  intros Hh Rh He Hr. unfold parseCsv, csvContent.
  rewrite <- He at 1.
  change (join (String comma "") (map escapeCell headers)
          :: map (fun row => join (String comma "") (map escapeCell row)) rows)
    with (map (fun row => join (String comma "") (map escapeCell row)) (headers :: rows)).
  rewrite read_rows; [reflexivity | congruence | now constructor].
Qed.

End CsvFacts.

Module CsvExamples.
Import JS Users CsvSpec.
Local Open Scope string_scope.

(** A date such as the en-US formatter prints holds a comma and is
    quoted; a name holding a double quote has it doubled. *)
Example escape_date :
  escapeCell "Jan 5, 2024" = String dquote ("Jan 5, 2024" ++ String dquote "").
Proof. reflexivity. Qed.

Example escape_quote :
  escapeCell (String dquote "Bo" ++ String dquote " Diaz")
  = String dquote (String dquote (String dquote "Bo" ++ String dquote (String dquote " Diaz"))
                   ++ String dquote "").
Proof. reflexivity. Qed.

Example escape_plain : escapeCell "Front Desk" = "Front Desk".
Proof. reflexivity. Qed.

(** A cell holding a carriage return and nothing that asks for quotes is
    written as it is. *)
Example escape_creturn :
  escapeCell ("12 Hill Road" ++ String creturn "Pune") = "12 Hill Road" ++ String creturn "Pune".
Proof. reflexivity. Qed.

(** A two-line file and what the reader makes of it. *)
Example read_back :
  parseCsv (csvContent ["Name"; "Created Date"] [["Asha"; "Jan 5, 2024"]; [""; ""]])
  = Some [["Name"; "Created Date"]; ["Asha"; "Jan 5, 2024"]; [""; ""]].
Proof. reflexivity. Qed.

(** The same records with CR LF line breaks and one after the last
    record; a carriage return inside quotes is data. *)
Example read_crlf :
  parseCsv ("Name,Note" ++ String creturn (String newline
            ("Asha," ++ String dquote ("a" ++ String creturn ("b" ++ String dquote
               (String creturn (String newline "")))))))
  = Some [["Name"; "Note"]; ["Asha"; "a" ++ String creturn "b"]].
Proof. reflexivity. Qed.

(** A bare field that ends in a carriage return, before a line feed,
    is read without it. *)
Example read_trailing_creturn :
  parseCsv (csvContent ["Name"; "Note"] [["Asha"; String "a" (String creturn "")]; ["Bo"; "b"]])
  = Some [["Name"; "Note"]; ["Asha"; "a"]; ["Bo"; "b"]].
Proof. reflexivity. Qed.

End CsvExamples.

Section CsvClaims.
Import JS Users CsvFacts.
Local Open Scope string_scope.

(** C4, on a cell with a carriage return.  An address typed on two
    lines that are separated by a carriage return holds no comma, double
    quote or line feed, so the details export writes it without quotes;
    the file is then no CSV text, and a reader does not give the cells
    back.  The same holds for a name in the short export. *)
Theorem C4_carriage_return_not_read_back :
  let addr := "12 Hill Road" ++ String creturn "Pune" in
  let e := sampleEmployee "Asha Rao" (Some addr) in
  let n := sampleEmployee ("Asha" ++ String creturn "Rao") None in
  plain addr = true /\
  In addr (detailsRow "-" format_jan5 e) /\
  parseCsv (handleExportEmployeeDetailsCSV "-" format_jan5 [e]) = None /\
  parseCsv (handleExportCSV "-" format_jan5 [n]) = None.
Proof.
  repeat split; try (vm_compute; reflexivity).
  cbn. tauto.
Qed.

(** C4.  A cell without comma, double quote or line feed is written as
    it is; any other cell is written between double quotes with every
    double quote of the cell doubled; the cells of a row are joined by
    commas and the rows by line feeds, under the header line.  When no
    cell that is written without quotes holds a carriage return, either
    export, read by the rules of RFC 4180, gives back the header and,
    for each employee in order, the original cell values. *)
Theorem C4_csv_round_trip (dash : string) (intlFormat : string -> option string)
  (employees : list Employee) :
  (forall cell, plain cell = true -> escapeCell cell = cell) /\
  (forall cell, plain cell = false ->
     escapeCell cell = String dquote (doubleQuotes cell ++ String dquote "")) /\
  handleExportCSV dash intlFormat employees
  = join (String newline "")
      (join (String comma "") exportHeaders
       :: map (fun e => join (String comma "")
                          (map escapeCell (exportRow dash intlFormat e))) employees) /\
  handleExportEmployeeDetailsCSV dash intlFormat employees
  = join (String newline "")
      (join (String comma "") detailsHeaders
       :: map (fun e => join (String comma "")
                          (map escapeCell (detailsRow dash intlFormat e))) employees) /\
  (forallb (fun e => forallb readable (exportRow dash intlFormat e)) employees = true ->
   parseCsv (handleExportCSV dash intlFormat employees)
   = Some (exportHeaders :: map (exportRow dash intlFormat) employees)) /\
  (forallb (fun e => forallb readable (detailsRow dash intlFormat e)) employees = true ->
   parseCsv (handleExportEmployeeDetailsCSV dash intlFormat employees)
   = Some (detailsHeaders :: map (detailsRow dash intlFormat) employees)).
Proof.
  split; [exact escapeCell_plain|].
  split; [exact escapeCell_quoted|].
  split; [unfold handleExportCSV, csvContent; now rewrite map_map|].
  split; [unfold handleExportEmployeeDetailsCSV, csvContent; now rewrite map_map|].
  split.
  - intros R. rewrite forallb_forall in R.
    apply parse_csvContent; [cbn; lia | reflexivity | reflexivity |].
    apply Forall_forall. intros cells H. apply in_map_iff in H.
    destruct H as (e & <- & He). split; [cbn; lia | exact (R e He)].
  - intros R. rewrite forallb_forall in R.
    apply parse_csvContent; [cbn; lia | reflexivity | reflexivity |].
    apply Forall_forall. intros cells H. apply in_map_iff in H.
    destruct H as (e & <- & He). split; [cbn; lia | exact (R e He)].
Qed.

(** C4 on two employees: a name with a double quote, a date with a
    comma, an address with a comma and a carriage return (quoted, so
    read back). *)
Lemma C4_csv_round_trip_witness :
  let a := sampleEmployee (String dquote "Bo" ++ String dquote " Diaz")
             (Some ("12 Hill Road," ++ String creturn "Pune")) in
  let b := sampleEmployee "Asha Rao" None in
  parseCsv (handleExportCSV "-" format_jan5 [a; b])
  = Some (exportHeaders :: map (exportRow "-" format_jan5) [a; b]) /\
  parseCsv (handleExportEmployeeDetailsCSV "-" format_jan5 [a; b])
  = Some (detailsHeaders :: map (detailsRow "-" format_jan5) [a; b]).
Proof.
  intros a b.
  destruct (C4_csv_round_trip "-" format_jan5 [a; b])
    as (_ & _ & _ & _ & S & D).
  split; [apply S | apply D]; reflexivity.
Defined.

End CsvClaims.

(** ** The route handlers: the statements *)

Section AnalyzePatientClaims.
Import JS Handler AnalyzePatient RouteSpec.

(** C7, on a request without any field.  When the body of the request
    is the JSON value null, or is not JSON (reading it throws), the
    request has no [reportHistory], yet the answer is status 500, not 400,
    and the error is written to the console: reading the field of null
    throws, and the outer handler catches both errors. *)
Theorem C7_no_body_500 :
  let w (r : JsError + Json) :=
    {| requestJson := r; OPENAI_API_KEY := Some "sk-test";
       createCompletion := fun _ => inr None; JSON_parse := fun _ => None |} in
  (status (snd (POST (w (inr JNull)))) = 500 /\
   success (snd (POST (w (inr JNull)))) = false /\
   fst (POST (w (inr JNull))) = [ConsoleError "Error analyzing patient data:"]) /\
  (status (snd (POST (w (inl (Error "Unexpected end of JSON input"))))) = 500 /\
   success (snd (POST (w (inl (Error "Unexpected end of JSON input"))))) = false /\
   fst (POST (w (inl (Error "Unexpected end of JSON input"))))
   = [ConsoleError "Error analyzing patient data:"]).
Proof. repeat split. Qed.

(** C7.  When the body of the request is a JSON value other than null
    whose [reportHistory] is missing, not an array or an empty array, the
    answer is status 400 with [success: false] and one of two fixed
    messages, and the handler does nothing else: no call to the
    completion service, no output.  When the body is null the answer is
    status 500, and when the body cannot be read the answer is not 400
    either; in both cases the error is written to the console and
    nothing else is done. *)
Theorem C7_bad_report_history (w : World) :
  (forall body,
     requestJson w = inr body ->
     body <> JNull ->
     no_reports (getProp body "reportHistory") ->
     exists msg,
       POST w = ([], {| status := 400; success := false;
                        message := Some msg; data := None |}) /\
       (msg = "Missing or invalid field: reportHistory (must be an array)" \/
        msg = "Report history is empty. At least one report is required for analysis.")) /\
  (requestJson w = inr JNull ->
     fst (POST w) = [ConsoleError "Error analyzing patient data:"] /\
     status (snd (POST w)) = 500 /\ success (snd (POST w)) = false) /\
  (forall e, requestJson w = inl e ->
     fst (POST w) = [ConsoleError "Error analyzing patient data:"] /\
     status (snd (POST w)) <> 400).
Proof.
  split; [|split].
  - intros body Hb Hn Hr. unfold POST, handle. rewrite Hb.
    assert (Hp : prop body "reportHistory" = ret (getProp body "reportHistory")).
    { destruct body; try reflexivity. congruence. }
    cbn [lift bind]. rewrite Hp. cbn [ret bind].
    destruct Hr as [Hr|Hr].
    + rewrite Hr. rewrite orb_true_r. cbn.
      eexists. split; [reflexivity | now left].
    + rewrite Hr. cbn.
      eexists. split; [reflexivity | now right].
  - intros Hb. unfold POST, handle. rewrite Hb. cbn. auto.
  - intros e Hb. unfold POST, handle. rewrite Hb.
    cbn [lift bind try_total recover app fst snd].
    split; [reflexivity|].
    destruct (isUnauthorized e); [discriminate|].
    destruct (isRateLimit e); discriminate.
Qed.

(** C7 on the body [{}] and on the body [{"reportHistory": []}]. *)
Lemma C7_bad_report_history_witness :
  let w (body : Json) :=
    {| requestJson := inr body; OPENAI_API_KEY := Some "sk-test";
       createCompletion := fun _ => inr None; JSON_parse := fun _ => None |} in
  (exists msg, POST (w (JObj [])) = ([], {| status := 400; success := false;
                                          message := Some msg; data := None |})) /\
  (exists msg, POST (w (JObj [("reportHistory", JArr [])]))
               = ([], {| status := 400; success := false;
                         message := Some msg; data := None |})).
Proof.
  intros w. split.
  - destruct (C7_bad_report_history (w (JObj []))) as (A & _).
    destruct (A (JObj [])) as (msg & H & _).
    + reflexivity.
    + discriminate.
    + left. reflexivity.
    + exists msg. exact H.
  - destruct (C7_bad_report_history (w (JObj [("reportHistory", JArr [])]))) as (A & _).
    destruct (A (JObj [("reportHistory", JArr [])])) as (msg & H & _).
    + reflexivity.
    + discriminate.
    + right. reflexivity.
    + exists msg. exact H.
Defined.

(** C3.  When the request is well formed, the key is configured and the
    completion call throws [e]: if [e] has status 429 or code
    rate_limit_exceeded, the answer is status 200 with [success: true]
    and the canned analysis, an object with the fields summary,
    trend_analysis, key_achievements (an array of one string) and
    recommendation; otherwise the answer has [success: false], a message
    and status 401 or 500. *)
Theorem C3_rate_limit_fallback (w : World) (body : Json) (items : list Json) (e : JsError) :
  requestJson w = inr body ->
  getProp body "reportHistory" = Some (JArr items) ->
  items <> [] ->
  keyMissing (OPENAI_API_KEY w) = false ->
  createCompletion w items = inl e ->
  (isRateLimit e = true <->
     err_status e = Some 429 \/ err_code e = Some "rate_limit_exceeded") /\
  (isRateLimit e = true ->
     snd (POST w) = {| status := 200; success := true; message := None;
                       data := Some fallbackAnalysis |} /\
     exists s t k r,
       fallbackAnalysis = JObj [("summary", JStr s); ("trend_analysis", JStr t);
                                ("key_achievements", JArr [JStr k]);
                                ("recommendation", JStr r)]) /\
  (isRateLimit e = false ->
     success (snd (POST w)) = false /\
     data (snd (POST w)) = None /\
     (exists msg, message (snd (POST w)) = Some msg) /\
     (status (snd (POST w)) = 401 \/ status (snd (POST w)) = 500)).
Proof.
  intros Hb Hr Hi Hk He.
  assert (Hn : body <> JNull) by (intros ->; discriminate).
  assert (Hp : prop body "reportHistory" = ret (Some (JArr items))).
  { rewrite <- Hr. destruct body; try reflexivity. congruence. }
  assert (Hl : Nat.eqb (List.length items) 0 = false).
  { destruct items; [congruence | reflexivity]. }
  split; [|split].
  - unfold isRateLimit. rewrite orb_true_iff.
    destruct (err_status e) as [s|], (err_code e) as [c|]; split;
      intros [H|H]; try discriminate;
      try (apply Z.eqb_eq in H; subst; now left);
      try (apply String.eqb_eq in H; subst; now right);
      try (injection H as ->; now left);
      try (injection H as ->; right; apply String.eqb_refl).
  - intros Hrl. split.
    + unfold POST, handle. rewrite Hb. cbn [lift bind]. rewrite Hp. cbn [ret bind].
      cbn [falsy truthy isArray negb orb elements]. rewrite Hl, Hk.
      cbn [emit bind try_catch lift]. rewrite He. cbn [bind try_catch].
      rewrite Hrl. reflexivity.
    + do 4 eexists. reflexivity.
  - intros Hrl.
    assert (E : snd (POST w) = snd (recover e)).
    { unfold POST, handle. rewrite Hb. cbn [lift bind]. rewrite Hp. cbn [ret bind].
      cbn [falsy truthy isArray negb orb elements]. rewrite Hl, Hk.
      cbn [emit bind try_catch lift]. rewrite He. cbn [bind try_catch].
      rewrite Hrl. reflexivity. }
    rewrite E. unfold recover. cbn [snd]. rewrite Hrl.
    destruct (isUnauthorized e); cbn.
    + repeat split; eauto.
    + repeat split; eauto.
Qed.

(** C3 on a one-report request when the service answers 429, and when it
    answers 503. *)
Lemma C3_rate_limit_fallback_witness :
  let body := JObj [("reportHistory", JArr [JObj [("version", JNum 1)]])] in
  let w (e : JsError) :=
    {| requestJson := inr body; OPENAI_API_KEY := Some "sk-test";
       createCompletion := fun _ => inl e; JSON_parse := fun _ => None |} in
  let busy := {| err_status := Some 429; err_code := None; err_message := Some "Too Many Requests" |} in
  let down := {| err_status := Some 503; err_code := None; err_message := Some "Service Unavailable" |} in
  status (snd (POST (w busy))) = 200 /\ success (snd (POST (w busy))) = true /\
  status (snd (POST (w down))) = 500 /\ success (snd (POST (w down))) = false.
Proof.
  intros body w busy down.
  assert (Hi : [JObj [("version", JNum 1)]] <> []) by discriminate.
  destruct (C3_rate_limit_fallback (w busy) body [JObj [("version", JNum 1)]] busy
              eq_refl eq_refl Hi eq_refl eq_refl) as (_ & Hb & _).
  destruct (C3_rate_limit_fallback (w down) body [JObj [("version", JNum 1)]] down
              eq_refl eq_refl Hi eq_refl eq_refl) as (_ & _ & Hd).
  destruct (Hb eq_refl) as [Eb _]. destruct (Hd eq_refl) as (Sd & _ & _ & _).
  split; [now rewrite Eb|]. split; [now rewrite Eb|].
  split; [reflexivity | exact Sd].
Defined.

End AnalyzePatientClaims.

Module ChangePasswordFacts.
Import JS Handler ChangePassword.
Export RouteSpec.



Section Post.
Variable w : World.









(** The request has one body and its token one reading. *)
Lemma accepted_unique b1 d1 b2 d2 :
  accepted w b1 d1 -> accepted w b2 d2 -> b1 = b2 /\ d1 = d2.
Proof using Type.
  intros (Hb1 & _ & _ & Hv1 & _) (Hb2 & _ & _ & Hv2 & _).
  assert (b1 = b2) by congruence. subst b2.
  split; [reflexivity | congruence].
Qed.

End Post.

End ChangePasswordFacts.

Section ChangePasswordClaims.
Import JS Handler ChangePassword ChangePasswordFacts.




End ChangePasswordClaims.

(** ** Doubles that are whole numbers *)

Module FloatExactFacts.
Import Float FloatFacts.
Local Open Scope Z_scope.

Lemma div_half_even_exact c b : 0 < b -> div_half_even (c * b) b = c.
Proof.
  intros Hb. unfold div_half_even.
  rewrite Z.div_mul by lia. rewrite Z.mod_mul by lia.
  destruct (Z.ltb_spec (2 * 0) b); [reflexivity | lia].
Qed.

(** Rounding leaves a positive integer below 2^53 as it is, whatever the
    fraction that denotes it. *)
Lemma round_pos_int n d k :
  0 < d -> 0 < k < 2 ^ 53 -> n = k * d ->
  (round_pos n d == inject_Z k)%Q.
Proof.
  intros Hd Hk ->. unfold round_pos.
  set (s := Z.max 0 (55 + Z.log2 d - Z.log2 (k * d))).
  assert (Hs : 0 <= s) by (subst s; lia).
  assert (HS : 0 < 2 ^ s) by (apply Z.pow_pos_nonneg; lia).
  replace (k * d * 2 ^ s / d) with (k * 2 ^ s)
    by (symmetry; replace (k * d * 2 ^ s) with (k * 2 ^ s * d) by ring; apply Z.div_mul; lia).
  assert (Lk : 0 <= Z.log2 k <= 52).
  { split; [apply Z.log2_nonneg|].
    assert (Z.log2 k < 53) by (apply Z.log2_lt_pow2; lia). lia. }
  assert (EL : Z.log2 (k * 2 ^ s) = Z.log2 k + s).
  { rewrite <- Z.shiftl_mul_pow2 by lia. apply Z.log2_shiftl; lia. }
  rewrite EL.
  (* the scaled integer has at least 55 bits, as for every quotient *)
  assert (Hbits : 52 <= Z.log2 k + s).
  { pose proof (Z.log2_spec (k * d) ltac:(nia)) as Ln.
    pose proof (Z.log2_spec d Hd) as Ld.
    pose proof (Z.log2_spec k ltac:(lia)) as Lkk.
    pose proof (Z.log2_nonneg d). pose proof (Z.log2_nonneg (k * d)).
    assert (Z.log2 (k * d) <= Z.log2 k + Z.log2 d + 1).
    { apply Z.log2_mul_above; lia. }
    subst s. lia. }
  set (u := 2 ^ (Z.log2 k + s - 52)).
  assert (Hu : 0 < u) by (subst u; apply Z.pow_pos_nonneg; lia).
  set (c := k * 2 ^ (52 - Z.log2 k)).
  assert (Ec : k * d * 2 ^ s = c * (d * u)).
  { subst c u.
    replace (2 ^ s) with (2 ^ (52 - Z.log2 k) * 2 ^ (Z.log2 k + s - 52)).
    - ring.
    - rewrite <- Z.pow_add_r by lia. f_equal. lia. }
  rewrite Ec, div_half_even_exact by nia.
  unfold Qeq. cbn [Qnum Qden inject_Z]. rewrite Z2Pos.id by exact HS.
  subst c u.
  assert (E2 : 2 ^ (52 - Z.log2 k) * 2 ^ (Z.log2 k + s - 52) = 2 ^ s).
  { rewrite <- Z.pow_add_r by lia. f_equal. lia. }
  nia.
Qed.

Local Open Scope Q_scope.

Lemma rnd_int q k :
  q == inject_Z k -> (Z.abs k < 2 ^ 53)%Z -> rnd q == inject_Z k.
Proof.
  destruct q as [a b]. unfold Qeq at 1. cbn [Qnum Qden inject_Z]. intros E Hk.
  unfold rnd. cbn [Qnum Qden].
  destruct a as [|p|p].
  - assert (k = 0%Z) by lia. subst k. reflexivity.
  - apply round_pos_int; lia.
  - assert (Hr : round_pos (Z.pos p) (Z.pos b) == inject_Z (- k)).
    { apply round_pos_int; lia. }
    rewrite Hr. rewrite inject_Z_opp. ring.
Qed.

End FloatExactFacts.

(** ** Billing cycles in the database, properties *)

Module BillingStoreFacts.
Import JS JSDate Billing Float Money Handler BillingStore.
Import BillingSpec BillingStoreSpec BillingFacts FloatExactFacts.

(** *** Month names *)

Lemma getMonthName_named m : 1 <= m <= 12 -> getMonthName (Some m) <> "".
Proof.
  intros Hm.
  assert (C : m = 1 \/ m = 2 \/ m = 3 \/ m = 4 \/ m = 5 \/ m = 6 \/ m = 7 \/
              m = 8 \/ m = 9 \/ m = 10 \/ m = 11 \/ m = 12) by lia.
  repeat (destruct C as [-> | C]; [discriminate|]). subst m. discriminate.
Qed.

Lemma getMonthName_unnamed m : ~ (1 <= m <= 12) -> getMonthName (Some m) = "".
Proof.
  intros Hm. unfold getMonthName.
  destruct (Z.ltb_spec (m - 1) 0) as [L|L]; [reflexivity|].
  apply nth_overflow. change (List.length monthNames) with 12%nat. lia.
Qed.

(** *** Whole amounts are summed exactly *)

Lemma bounded_whole r k :
  (r == inject_Z k)%Q -> Z.abs k < 2 ^ 53 -> bounded r = Finite r.
Proof.
  intros E Hk. unfold bounded.
  destruct (Qle_bool (inject_Z (2 ^ 1024)) (Qabs r)) eqn:B; [|reflexivity].
  exfalso. apply Qle_bool_iff in B. rewrite E in B.
  assert (A : (Qabs (inject_Z k) == inject_Z (Z.abs k))%Q) by reflexivity.
  rewrite A in B. rewrite <- Zle_Qle in B.
  assert (P : 2 ^ 53 < 2 ^ 1024) by (apply Z.pow_lt_mono_r; lia).
  lia.
Qed.

Section Sum.
Variable StringToNumber : string -> Double.
Variable f : BillingData -> Z.

#[local] Notation "'value'" := (amountValue StringToNumber) (only parsing).

Lemma sum_from docs : forall (acc : Double) (a : Z),
  isWhole acc a ->
  (forall data, In data docs -> counted data = true ->
     isWhole (value (amount data)) (f data)) ->
  Z.abs a + wholeAbsSum counted f docs < 2 ^ 53 ->
  isWhole (fold_left (fun totalAmount data =>
                        if counted data then fadd totalAmount (value (amount data))
                        else totalAmount) docs acc)
          (a + wholeSum counted f docs).
Proof.
  induction docs as [|data rest IH]; intros acc a Ha Hw Hb; cbn [fold_left wholeSum wholeAbsSum] in *.
  - now rewrite Z.add_0_r.
  - assert (Hrest : forall d, In d rest -> counted d = true ->
                      isWhole (value (amount d)) (f d))
      by (intros d Hd; apply Hw; now right).
    assert (N : 0 <= wholeAbsSum counted f rest).
    { clear. induction rest as [|d r IHr]; cbn [wholeAbsSum]; [lia|].
      destruct (counted d); lia. }
    destruct (counted data) eqn:Ec.
    + rewrite Z.add_assoc. apply IH; [|exact Hrest|lia].
      pose proof (Hw data (or_introl eq_refl) Ec) as Hv.
      destruct acc as [qa| |]; try contradiction.
      destruct (amountValue StringToNumber (amount data)) as [qv| |]; try contradiction.
      cbn [isWhole] in Ha, Hv. cbn [fadd].
      assert (R : (rnd (qa + qv) == inject_Z (a + f data))%Q).
      { apply rnd_int; [|lia]. rewrite Ha, Hv, inject_Z_plus. reflexivity. }
      rewrite (bounded_whole _ _ R) by lia. exact R.
    + rewrite Z.add_0_l. apply IH; [exact Ha|exact Hrest|lia].
Qed.

Lemma sumCompleted_whole docs :
  (forall data, In data docs -> counted data = true ->
     isWhole (value (amount data)) (f data)) ->
  wholeAbsSum counted f docs < 2 ^ 53 ->
  isWhole (sumCompleted StringToNumber docs) (wholeSum counted f docs).
Proof.
  intros Hw Hb. unfold sumCompleted.
  apply (sum_from docs (Finite 0) 0); [reflexivity|exact Hw|cbn [Z.abs]; lia].
Qed.

Lemma wholeSum_abs docs : Z.abs (wholeSum counted f docs) <= wholeAbsSum counted f docs.
Proof.
  induction docs as [|d r IH]; cbn [wholeSum wholeAbsSum]; [lia|].
  destruct (counted d); lia.
Qed.

End Sum.

Lemma Qfloor_half k : Qfloor (inject_Z k + (1 # 2)) = k.
Proof.
  pose proof (Qfloor_le (inject_Z k + (1 # 2))) as L.
  pose proof (Qlt_floor (inject_Z k + (1 # 2))) as U.
  set (z := Qfloor (inject_Z k + (1 # 2))) in *.
  clearbody z. unfold Qle, Qlt in *. cbn [Qnum Qden inject_Z Qplus] in L, U.
  change (Z.pos (1 * 2)) with 2 in *. lia.
Qed.

Lemma toFixed2_nonneg k :
  0 <= k < 2 ^ 53 -> forall x, (x == inject_Z k)%Q ->
  (rnd (Qfloor (x * 100 + (1 # 2)) # 100) == inject_Z k)%Q.
Proof.
  intros Hk x Hx.
  assert (E : (x * 100 + (1 # 2) == inject_Z (k * 100) + (1 # 2))%Q).
  { rewrite Hx, inject_Z_mult. reflexivity. }
  rewrite (Qfloor_comp _ _ E), Qfloor_half.
  apply rnd_int; [|lia].
  unfold Qeq. cbn [Qnum Qden inject_Z]. lia.
Qed.

Lemma toFixed2_whole x k :
  isWhole x k -> Z.abs k < 2 ^ 53 -> isWhole (toFixed2 x) k.
Proof.
  intros Hx Hk. destruct x as [x| |]; try contradiction. cbn [isWhole] in Hx.
  unfold toFixed2.
  destruct (Qle_bool (inject_Z (10 ^ 21)) (Qabs x)) eqn:B; [exact Hx|].
  destruct (Qle_bool 0 x) eqn:E; cbn [isWhole].
  - apply Qle_bool_iff in E. rewrite Hx in E.
    assert (0 <= k) by (unfold Qle in E; cbn in E; lia).
    apply toFixed2_nonneg; [lia|exact Hx].
  - assert (L : ~ (0 <= x)%Q) by (rewrite <- Qle_bool_iff; congruence).
    rewrite Hx in L.
    assert (k < 0) by (unfold Qle in L; cbn in L; lia).
    assert (R : (rnd (Qfloor (- x * 100 + (1 # 2)) # 100) == inject_Z (- k))%Q).
    { apply toFixed2_nonneg; [lia|]. rewrite Hx, inject_Z_opp. reflexivity. }
    rewrite R, inject_Z_opp. ring.
Qed.

(** *** What the two updates do *)

(** Runs a handler on known answers. *)
Ltac run :=
  cbv zeta;
  cbn [bind lift emit try_catch ret app fst snd In nc_id nc_month nc_year
       nc_startDate nc_endDate nc_status nc_totalAmount].

Section Updates.
Variable host : Host.
Variable toISOString : Z -> string.
Variable StringToNumber : string -> Double.
Variable w : World.

#[local] Notation "'updateTotal'" :=
  (updateCycleTotalAmount toISOString StringToNumber w) (only parsing).

(** The cases of [updateCycleTotalAmount]: it returns, and either writes
    nothing or writes the rounded sum of the records it has read to the
    cycle it was given. *)
Lemma updateCycleTotalAmount_cases cycleId s e :
  snd (updateTotal cycleId s e) = inr tt /\
  filter isAddCycle (fst (updateTotal cycleId s e)) = [] /\
  (filter isUpdateCycle (fst (updateTotal cycleId s e)) = [] \/
   exists docs,
     importFirestore w = inr tt /\
     queryBilling w s e = inr docs /\
     filter isUpdateCycle (fst (updateTotal cycleId s e))
     = [UpdateCycle cycleId (toFixed2 (sumCompleted StringToNumber docs))
          (toISOString (clock w))]).
Proof.
  unfold updateCycleTotalAmount.
  destruct (importFirestore w) as [err|[]] eqn:Ei; cbn.
  - auto.
  - destruct (queryBilling w s e) as [err|docs] eqn:Eq; cbn.
    + auto.
    + destruct (updateDoc w cycleId _ _) as [err|[]]; cbn;
        (split; [reflexivity|split; [reflexivity|right; exists docs; auto]]).
Qed.

(** The reads and the write of [updateCycleTotalAmount], by what the
    database answers. *)
Lemma updateCycleTotalAmount_effects cycleId s e :
  filter isQueryBilling (fst (updateTotal cycleId s e))
  = match importFirestore w with
    | inr _ => [QueryBilling s e]
    | inl _ => []
    end /\
  filter isUpdateCycle (fst (updateTotal cycleId s e))
  = match importFirestore w, queryBilling w s e with
    | inr _, inr docs =>
        [UpdateCycle cycleId (toFixed2 (sumCompleted StringToNumber docs))
           (toISOString (clock w))]
    | _, _ => []
    end.
Proof.
  unfold updateCycleTotalAmount.
  destruct (importFirestore w) as [err|[]]; [split; reflexivity|].
  destruct (queryBilling w s e) as [err|docs]; [split; reflexivity|].
  run.
  match goal with
  | |- context [updateDoc w ?a ?b ?c] => destruct (updateDoc w a b c) as [err|[]]
  end; split; reflexivity.
Qed.

(** The cases of [updateCycleTotalForDate]. *)
Lemma updateCycleTotalForDate_cases billingDate :
  let cycle := getBillingCycleForDate host (ofString billingDate) in
  let c := {| nc_id := getBillingCycleId host (clock w) (Some (month cycle)) (Some (year cycle));
              nc_startDate := startDate cycle;
              nc_endDate := endDate cycle;
              nc_month := month cycle;
              nc_year := year cycle;
              nc_status := "active";
              nc_totalAmount := 0 |} in
  let run := updateCycleTotalForDate host toISOString StringToNumber w billingDate in
  snd run = inr tt /\
  ((filter isAddCycle (fst run) = [] /\ filter isUpdateCycle (fst run) = []) \/
   (exists id rest total,
      queryCycles w (month cycle) (year cycle) = inr (id :: rest) /\
      filter isAddCycle (fst run) = [] /\
      filter isUpdateCycle (fst run) = [UpdateCycle id total (toISOString (clock w))]) \/
   (queryCycles w (month cycle) (year cycle) = inr [] /\
    filter isAddCycle (fst run) = [AddCycle c] /\
    (filter isUpdateCycle (fst run) = [] \/
     exists id total,
       addDoc w c = inr id /\
       filter isUpdateCycle (fst run) = [UpdateCycle id total (toISOString (clock w))]))).
Proof.
  intros cycle c run. subst run. unfold updateCycleTotalForDate. fold cycle. fold c.
  pose proof (updateCycleTotalAmount_cases) as C.
  set (sub := updateCycleTotalAmount toISOString StringToNumber w) in *.
  clearbody sub c cycle.
  destruct (importFirestore w) as [err|[]]; cbn;
    [split; [reflexivity|left; split; reflexivity]|].
  destruct (queryCycles w (month cycle) (year cycle)) as [err|[|id rest]]; cbn;
    [split; [reflexivity|left; split; reflexivity]| |].
  - destruct (addDoc w c) as [err|id]; cbn.
    + split; [reflexivity|]. right. right. auto.
    + specialize (C id (startDate cycle) (endDate cycle)).
      destruct (sub id (startDate cycle) (endDate cycle)) as [fx r]. cbn in *.
      destruct C as (-> & A & U). cbn. split; [reflexivity|].
      right. right. split; [reflexivity|]. rewrite A. split; [reflexivity|].
      destruct U as [U|(docs & _ & _ & U)]; [left; exact U|].
      right. eauto.
  - specialize (C id (startDate cycle) (endDate cycle)).
    destruct (sub id (startDate cycle) (endDate cycle)) as [fx r]. cbn in *.
    destruct C as (-> & A & U). cbn. split; [reflexivity|].
    destruct U as [U|(docs & _ & _ & U)]; [left; auto|].
    right. left. exists id, rest. eauto.
Qed.

End Updates.

End BillingStoreFacts.

Section BillingStoreProperties.
Import JS JSDate Billing Float Money Handler BillingStore.
Import BillingSpec BillingStoreSpec BillingFacts BillingStoreFacts CalendarFacts.

Variable host : Host.
Variable toISOString : Z -> string.
Variable StringToNumber : string -> Double.

(** X1. [getMonthName] gives a name exactly for the months 1 to 12 and the
    empty text for every other number and for NaN; the month of the
    billing cycle of any valid date has a name. *)
Theorem getMonthName_names_cycle_months :
  (forall m, getMonthName (Some m) = "" <-> ~ (1 <= m <= 12)) /\
  getMonthName None = "" /\
  (forall t, getMonthName (month (getBillingCycleForDate host (ofDate (Some t)))) <> "").
Proof.
  split; [|split].
  - intros m. split.
    + intros E Hm. exact (getMonthName_named m Hm E).
    + apply getMonthName_unnamed.
  - reflexivity.
  - intros t. pose proof (MonthFromTime_range (LocalTime host t)) as R.
    cbn [getBillingCycleForDate month getMonth option_map num_add].
    apply getMonthName_named. lia.
Qed.

(** X2. [updateCycleTotalAmount] never throws, whatever the database
    answers, and never adds a cycle.  It asks for the billing records of
    the range it was given exactly when the import of the database module
    succeeds, and writes a total exactly when that query succeeds too:
    once, to the cycle it was given, stamped with the time of the clock. *)
Theorem updateCycleTotalAmount_never_throws (w : World) (cycleId s e : string) :
  let run := updateCycleTotalAmount toISOString StringToNumber w cycleId s e in
  snd run = inr tt /\
  (forall c, ~ In (AddCycle c) (fst run)) /\
  filter isQueryBilling (fst run)
  = match importFirestore w with
    | inr _ => [QueryBilling s e]
    | inl _ => []
    end /\
  (List.length (filter isUpdateCycle (fst run)) <= 1)%nat /\
  (forall id total at_, In (UpdateCycle id total at_) (fst run) ->
     id = cycleId /\ at_ = toISOString (clock w)) /\
  (existsb isUpdateCycle (fst run) = true <->
   importFirestore w = inr tt /\ exists docs, queryBilling w s e = inr docs).
Proof.
  intros run.
  destruct (updateCycleTotalAmount_cases toISOString StringToNumber w cycleId s e)
    as (R & A & _).
  destruct (updateCycleTotalAmount_effects toISOString StringToNumber w cycleId s e)
    as (B & U).
  fold run in R, A, B, U.
  split; [exact R|]. split; [|split; [exact B|split; [|split]]].
  - intros c Hc.
    assert (Hf : In (AddCycle c) (filter isAddCycle (fst run)))
      by (apply filter_In; split; [exact Hc|reflexivity]).
    rewrite A in Hf. exact Hf.
  - rewrite U. destruct (importFirestore w); [cbn; lia|].
    destruct (queryBilling w s e); cbn; lia.
  - intros id total at_ Hin.
    assert (Hf : In (UpdateCycle id total at_) (filter isUpdateCycle (fst run)))
      by (apply filter_In; split; [exact Hin|reflexivity]).
    rewrite U in Hf.
    destruct (importFirestore w); [destruct Hf|].
    destruct (queryBilling w s e); [destruct Hf|].
    destruct Hf as [Hf|[]]. inversion Hf; subst. split; reflexivity.
  - assert (E : existsb isUpdateCycle (fst run)
                = negb (Nat.eqb (List.length (filter isUpdateCycle (fst run))) 0)).
    { clear. induction (fst run) as [|x l IH]; [reflexivity|].
      cbn [existsb filter]. destruct (isUpdateCycle x); [reflexivity | exact IH]. }
    rewrite E, U.
    destruct (importFirestore w) as [err|[]].
    { cbn. split; [discriminate | intros [H _]; discriminate H]. }
    destruct (queryBilling w s e) as [err|docs].
    { cbn. split; [discriminate | intros [_ [docs H]]; discriminate H]. }
    cbn. split; [intros _; split; [reflexivity | exists docs; reflexivity] | reflexivity].
Qed.

(** X3. When the import and the billing query succeed and every record
    that counts (status Completed, truthy amount) has a whole amount, the
    absolute amounts adding up to less than 2^53, then
    [updateCycleTotalAmount] writes exactly the sum of the amounts of the
    Completed records: no rounding error, and no other record counts. *)
Theorem updateCycleTotalAmount_whole_sum (w : World) (cycleId s e : string)
  (docs : list BillingData) (f : BillingData -> Z) :
  importFirestore w = inr tt ->
  queryBilling w s e = inr docs ->
  (forall data, In data docs -> counted data = true ->
     isWhole (amountValue StringToNumber (amount data)) (f data)) ->
  wholeAbsSum counted f docs < 2 ^ 53 ->
  exists total,
    filter isUpdateCycle
      (fst (updateCycleTotalAmount toISOString StringToNumber w cycleId s e))
    = [UpdateCycle cycleId total (toISOString (clock w))] /\
    isWhole total (wholeSum counted f docs).
Proof.
  intros I Q Hw Hb.
  exists (toFixed2 (sumCompleted StringToNumber docs)). split.
  - unfold updateCycleTotalAmount. rewrite I, Q. cbn.
    destruct (updateDoc w cycleId _ _) as [err|[]]; reflexivity.
  - apply toFixed2_whole.
    + apply sumCompleted_whole; assumption.
    + pose proof (wholeSum_abs f docs). lia.
Qed.

(** X4. [updateCycleTotalForDate] never throws.  It adds a cycle only
    when the query for the month and year of the date returns no document,
    and then exactly one, active and with total 0; it writes at most one
    total, to the first document the query returned or to the cycle it
    has just added. *)
Theorem updateCycleTotalForDate_adds_missing_cycle_only (w : World) (billingDate : string) :
  let cycle := getBillingCycleForDate host (ofString billingDate) in
  let run := updateCycleTotalForDate host toISOString StringToNumber w billingDate in
  snd run = inr tt /\
  (List.length (filter isAddCycle (fst run)) <= 1)%nat /\
  (List.length (filter isUpdateCycle (fst run)) <= 1)%nat /\
  (forall c, In (AddCycle c) (fst run) ->
     queryCycles w (month cycle) (year cycle) = inr [] /\
     nc_status c = "active" /\ nc_totalAmount c = 0 /\
     nc_month c = month cycle /\ nc_year c = year cycle /\
     nc_startDate c = startDate cycle /\ nc_endDate c = endDate cycle) /\
  (forall id total at_, In (UpdateCycle id total at_) (fst run) ->
     (exists rest, queryCycles w (month cycle) (year cycle) = inr (id :: rest)) \/
     (exists c, In (AddCycle c) (fst run) /\ addDoc w c = inr id)).
Proof.
  intros cycle run.
  destruct (updateCycleTotalForDate_cases host toISOString StringToNumber w billingDate)
    as (R & C).
  fold cycle in C. fold run in R, C.
  assert (InA : forall c, In (AddCycle c) (fst run) <-> In (AddCycle c) (filter isAddCycle (fst run))).
  { intros c. rewrite filter_In. intuition. }
  assert (InU : forall id total at_, In (UpdateCycle id total at_) (fst run)
                  <-> In (UpdateCycle id total at_) (filter isUpdateCycle (fst run))).
  { intros id total at_. rewrite filter_In. intuition. }
  split; [exact R|].
  destruct C as [(A & U)|[(id & rest & total & Q & A & U)|(Q & A & U)]].
  - rewrite A, U. repeat split; try (cbn; lia).
    + apply InA in H. rewrite A in H. destruct H.
    + apply InA in H. rewrite A in H. destruct H.
    + apply InA in H. rewrite A in H. destruct H.
    + apply InA in H. rewrite A in H. destruct H.
    + apply InA in H. rewrite A in H. destruct H.
    + apply InA in H. rewrite A in H. destruct H.
    + apply InA in H. rewrite A in H. destruct H.
    + intros id total at_ H. apply InU in H. rewrite U in H. destruct H.
  - rewrite A, U. split; [cbn; lia|]. split; [cbn; lia|]. split.
    + intros c H. apply InA in H. rewrite A in H. destruct H.
    + intros id' total' at_ H. apply InU in H. rewrite U in H.
      destruct H as [H|[]]. inversion H; subst. left. eauto.
  - rewrite A. split; [cbn; lia|]. split.
    { destruct U as [U|(id & total & _ & U)]; rewrite U; cbn; lia. }
    split.
    + intros c H. apply InA in H. rewrite A in H.
      destruct H as [H|[]]. inversion H; subst. cbn. auto 10.
    + intros id' total' at_ H. apply InU in H.
      destruct U as [U|(id & total & D & U)]; rewrite U in H; [destruct H|].
      destruct H as [H|[]]. inversion H; subst. right.
      eexists. split; [|exact D]. apply InA. rewrite A. left. reflexivity.
Qed.

(** X5. For a billing date the host parses, in a zone within a day of
    UTC and with a local year [y] of four digits and local month [m].
    Once the database module is imported the cycles of month [m] of year
    [y] are asked for, once.  When the answer is empty one cycle is
    added: its id reads YYYY-MM, it carries month [m] and year [y] and
    runs from the first to the last day of the month.  When the answer
    holds a document, or the cycle has been added, the billing records
    are asked for once, for exactly that range of dates.  Nothing else is
    asked for or added. *)
Theorem updateCycleTotalForDate_cycle_of_date (w : World) (billingDate : string) (t : Z) :
  let y := YearFromTime (LocalTime host t) in
  let m := MonthFromTime (LocalTime host t) + 1 in
  let run := updateCycleTotalForDate host toISOString StringToNumber w billingDate in
  let c := newCycle (getBillingCycleId host (clock w) (Some (Some m)) (Some (Some y)))
             (cycleOf y m) in
  let records := QueryBilling (isoDate y m 1) (isoDate y m (DaysInMonth y (m - 1))) in
  Z.abs (LocalTZA host) <= msPerDay ->
  newDateOfString host billingDate = Some t ->
  1000 <= y <= 9999 ->
  (is_YYYY_MM (nc_id c) y m /\
   nc_month c = Some m /\ nc_year c = Some y /\
   is_YYYY_MM_DD (nc_startDate c) y m 1 /\
   is_YYYY_MM_DD (nc_endDate c) y m (DaysInMonth y (m - 1))) /\
  filter isQueryCycles (fst run)
  = match importFirestore w with
    | inr _ => [QueryCycles (Some m) (Some y)]
    | inl _ => []
    end /\
  filter isAddCycle (fst run)
  = match importFirestore w, queryCycles w (Some m) (Some y) with
    | inr _, inr [] => [AddCycle c]
    | _, _ => []
    end /\
  filter isQueryBilling (fst run)
  = match importFirestore w, queryCycles w (Some m) (Some y) with
    | inr _, inr (_ :: _) => [records]
    | inr _, inr [] =>
        match addDoc w c with
        | inr _ => [records]
        | inl _ => []
        end
    | _, _ => []
    end.
Proof.
  intros y m run c records Hz Hp Hy.
  pose proof (MonthFromTime_range (LocalTime host t)) as Hm.
  pose proof (DaysInMonth_range y (m - 1) ltac:(subst m; lia)) as Hd.
  assert (Ec : getBillingCycleForDate host (ofString billingDate) = cycleOf y m).
  { rewrite getBillingCycleForDate_string, Hp.
    apply getBillingCycleForDate_spec; fold y; fold m; [lia| |];
      apply representable_years; try assumption; subst m; lia. }
  assert (Sid : is_YYYY_MM (getBillingCycleId host (clock w) (Some (Some m)) (Some (Some y))) y m).
  { apply getBillingCycleId_shape; subst m; lia. }
  assert (S1 : is_YYYY_MM_DD (isoDate y m 1) y m 1)
    by (apply isoDate_shape; subst m; lia).
  assert (S2 : is_YYYY_MM_DD (isoDate y m (DaysInMonth y (m - 1))) y m (DaysInMonth y (m - 1)))
    by (apply isoDate_shape; subst m; lia).
  split; [subst c; cbn [newCycle cycleOf nc_id nc_month nc_year nc_startDate nc_endDate
                          month year startDate endDate]; auto|].
  subst run c records. unfold updateCycleTotalForDate, newCycle. rewrite Ec.
  cbn [cycleOf month year startDate endDate].
  unfold updateCycleTotalAmount.
  set (id := getBillingCycleId _ _ _ _) in *.
  clearbody id.
  destruct (importFirestore w) as [err|[]]; [repeat split|].
  destruct (queryCycles w (Some m) (Some y)) as [err|[|doc rest]]; [repeat split| |].
  - destruct (addDoc w _) as [err|newId]; [repeat split|].
    destruct (queryBilling w _ _) as [err|docs]; [repeat split|].
    run.
    match goal with
    | |- context [updateDoc w ?a ?b ?c] => destruct (updateDoc w a b c) as [err|[]]
    end; repeat split.
  - destruct (queryBilling w _ _) as [err|docs]; [repeat split|].
    run.
    match goal with
    | |- context [updateDoc w ?a ?b ?c] => destruct (updateDoc w a b c) as [err|[]]
    end; repeat split.
Qed.

End BillingStoreProperties.

Section BillingStoreExamples.
Import JS JSDate Billing Float Money Handler BillingStore.
Import BillingSpec BillingStoreSpec.

(** X3 on five records: two Completed ones with amounts 1500 and the text
    250, a Pending one, a Completed one without amount and one without
    status.  The total written is 1750. *)
Lemma updateCycleTotalAmount_whole_sum_witness :
  let record s a := {| status := s; amount := a |} in
  let docs := [record (Some "Completed") (AmountNumber (Finite (inject_Z 1500)));
               record (Some "Pending") (AmountNumber (Finite (inject_Z 700)));
               record (Some "Completed") (AmountText "250");
               record (Some "Completed") AmountAbsent;
               record None (AmountNumber (Finite (inject_Z 40)))] in
  let toNumber (s : string) :=
    if String.eqb s "250" then Finite (inject_Z 250) else NotANumber in
  let w := {| importFirestore := inr tt;
              queryBilling := fun _ _ => inr docs;
              updateDoc := fun _ _ _ => inr tt;
              queryCycles := fun _ _ => inr [];
              addDoc := fun _ => inr "c1";
              clock := 0 |} in
  exists total,
    filter isUpdateCycle
      (fst (updateCycleTotalAmount (fun _ => "now") toNumber w
              "2024-03" "2024-03-01" "2024-03-31"))
    = [UpdateCycle "2024-03" total "now"] /\
    isWhole total 1750.
Proof.
  intros record docs toNumber w.
  apply (updateCycleTotalAmount_whole_sum (fun _ => "now") toNumber w
           "2024-03" "2024-03-01" "2024-03-31" docs
           (fun data => match amountValue toNumber (amount data) with
                        | Finite q => Qfloor q
                        | _ => 0
                        end)).
  - reflexivity.
  - reflexivity.
  - intros data [<-|[<-|[<-|[<-|[<-|[]]]]]] Hc;
      first [discriminate Hc | reflexivity].
  - reflexivity.
Defined.

(** X5 on the date 2024-03-15 on a host on India Standard Time, with no
    cycle stored yet: the cycles of March 2024 are asked for, the cycle
    2024-03 is added, from 2024-03-01 to 2024-03-31, and the billing
    records of that range are asked for. *)
Lemma updateCycleTotalForDate_cycle_of_date_witness :
  let w := {| importFirestore := inr tt;
              queryBilling := fun _ _ => inr [];
              updateDoc := fun _ _ _ => inr tt;
              queryCycles := fun _ _ => inr [];
              addDoc := fun _ => inr "c1";
              clock := 0 |} in
  let run := updateCycleTotalForDate hostIST (fun _ => "now") (fun _ => NotANumber) w "2024-03-15" in
  filter isQueryCycles (fst run) = [QueryCycles (Some 3) (Some 2024)] /\
  filter isAddCycle (fst run)
  = [AddCycle {| nc_id := "2024-03"; nc_startDate := "2024-03-01";
                 nc_endDate := "2024-03-31"; nc_month := Some 3; nc_year := Some 2024;
                 nc_status := "active"; nc_totalAmount := 0 |}] /\
  filter isQueryBilling (fst run) = [QueryBilling "2024-03-01" "2024-03-31"].
Proof.
  intros w run.
  destruct (updateCycleTotalForDate_cycle_of_date hostIST (fun _ => "now")
              (fun _ => NotANumber) w "2024-03-15" 1710460800000)
    as (_ & Q & A & B).
  - vm_compute. discriminate.
  - vm_compute. reflexivity.
  - vm_compute. split; discriminate.
  - split; [exact Q | split; [exact A | exact B]].
Defined.

End BillingStoreExamples.

(** ** The analysis route, every request *)

Module AnalyzePatientFacts.
Import JS Handler AnalyzePatient AnalyzePatientSpec.

Ltac handler_run :=
  cbn [bind lift emit try_catch try_total ret throw app fst snd prop failure ok recover
       status success message data].

Section Post.
Variable w : World.

(** What the catch-all answers. *)
Lemma recover_answers (error : JsError) :
  let r := snd (recover error) in
  (success r = true <-> status r = 200) /\
  (status r = 200 \/ status r = 401 \/ status r = 500) /\
  (success r = true -> message r = None /\ data r = Some fallbackAnalysis) /\
  (success r = false -> data r = None /\ exists msg, message r = Some msg /\ msg <> "").
Proof.
  unfold recover. cbn [snd].
  destruct (isUnauthorized error).
  { cbn. repeat split; try discriminate; auto. eexists. split; [reflexivity|discriminate]. }
  destruct (isRateLimit error).
  { cbn. repeat split; try discriminate; auto. }
  cbn. repeat split; try discriminate; auto.
  destruct (err_message error) as [[|c m]|];
    (eexists; split; [reflexivity|discriminate]).
Qed.

Lemma fallbackAnalysis_shape : analysis_shape fallbackAnalysis.
Proof. repeat split. Qed.

Lemma POST_answer : answer (snd (POST w)).
Proof.
  unfold POST, handle.
  destruct (requestJson w) as [e|body]; handler_run; [apply answer_recover|].
  destruct body as [|b|n|s|items|fields]; handler_run; try apply answer_recover;
    cbn [getProp falsy truthy isArray negb orb]; handler_run;
    try (apply answer_failure; (discriminate || auto)).
  destruct (lookup "reportHistory" fields) as [[| | | |items|]|];
      cbn [getProp falsy truthy isArray negb orb elements]; rewrite ?orb_true_r;
      handler_run; try (apply answer_failure; (discriminate || auto)).
  destruct items as [|item items]; cbn [List.length Nat.eqb];
    [handler_run; apply answer_failure; (discriminate || auto)|].
  destruct (keyMissing (OPENAI_API_KEY w));
    [handler_run; apply answer_failure; (discriminate || auto)|].
  handler_run.
  destruct (createCompletion w (item :: items)) as [e|[content|]]; handler_run.
    + destruct (isRateLimit e); handler_run;
        [apply answer_ok, fallbackAnalysis_shape | apply answer_recover].
    + destruct content as [|c content]; handler_run;
        [apply answer_failure; (discriminate || auto)|].
      destruct (JSON_parse w (String c content)) as [analysisResult|]; handler_run;
        [|apply answer_failure; (discriminate || auto)].
      destruct analysisResult; handler_run; try apply answer_recover;
        cbn [getProp falsy isArray negb orb]; handler_run;
        try (apply answer_failure; (discriminate || auto)).
      destruct (falsy (lookup "summary" fields0)) eqn:E1; cbn [orb]; handler_run;
        [apply answer_failure; (discriminate || auto)|].
      destruct (falsy (lookup "trend_analysis" fields0)) eqn:E2; cbn [orb]; handler_run;
        [apply answer_failure; (discriminate || auto)|].
      destruct (isArray (lookup "key_achievements" fields0)) eqn:E3; cbn [orb negb]; handler_run;
        [|apply answer_failure; (discriminate || auto)].
      destruct (falsy (lookup "recommendation" fields0)) eqn:E4; cbn [orb]; handler_run;
        [apply answer_failure; (discriminate || auto)|].
      apply answer_ok. repeat split; assumption.
    + apply answer_failure; (discriminate || auto).
Qed.

Lemma POST_calls :
  (filter isCompletion (fst (POST w)) = [] /\ forall items, ~ passed_on w items) \/
  (exists items,
     passed_on w items /\
     filter isCompletion (fst (POST w)) = [ChatCompletion "gpt-3.5-turbo" items]).
Proof.
  unfold POST, handle, passed_on.
  destruct (requestJson w) as [e|body] eqn:Hb; handler_run.
  { left. split; [reflexivity|]. intros items (b & H & _). discriminate. }
  destruct body as [|b|n|s|items|fields]; handler_run;
    cbn [getProp falsy truthy isArray negb orb]; handler_run;
    try (left; split; [reflexivity|];
         intros items' (b' & H & R & _); injection H as <-; discriminate).
  destruct (lookup "reportHistory" fields) as [[| | | |items|]|] eqn:Hr;
    cbn [getProp falsy truthy isArray negb orb elements]; rewrite ?orb_true_r;
    handler_run;
    try (left; split; [reflexivity|];
         intros items' (b' & H & R & _); injection H as <-;
         cbn [getProp] in R; congruence).
  destruct items as [|item items]; cbn [List.length Nat.eqb]; handler_run.
  { left. split; [reflexivity|].
    intros items' (b' & H & R & N & _). injection H as <-.
    cbn [getProp] in R. congruence. }
  destruct (keyMissing (OPENAI_API_KEY w)) eqn:Hk; handler_run.
  { left. split; [reflexivity|]. intros items' (_ & _ & _ & _ & K). discriminate. }
  right. exists (item :: items). split.
  { exists (JObj fields). repeat split; try assumption. discriminate. }
  destruct (createCompletion w (item :: items)) as [e|[content|]]; handler_run.
  - destruct (isRateLimit e); handler_run; reflexivity.
  - destruct content as [|c content]; handler_run; [reflexivity|].
    destruct (JSON_parse w (String c content)) as [analysisResult|]; handler_run;
      [|reflexivity].
    destruct analysisResult; handler_run; try reflexivity;
      match goal with
      | |- context [if ?c then _ else _] => destruct c
      end; handler_run; reflexivity.
  - reflexivity.
Qed.

(** A request that is passed on to the service is not answered 400. *)
Lemma passed_on_not_400 items : passed_on w items -> status (snd (POST w)) <> 400.
Proof.
  intros (body & Hb & Hr & Hi & Hk).
  assert (Hn : body <> JNull) by (intros ->; discriminate).
  assert (Hp : prop body "reportHistory" = ret (Some (JArr items))).
  { rewrite <- Hr. destruct body; try reflexivity. congruence. }
  assert (Hl : Nat.eqb (List.length items) 0 = false).
  { destruct items; [congruence | reflexivity]. }
  assert (Hrec : forall error, status (snd (recover error)) <> 400).
  { intros error. destruct (recover_answers error) as (_ & [E|[E|E]] & _);
      cbn zeta in E; rewrite E; discriminate. }
  unfold POST, handle. rewrite Hb. cbn [lift bind]. rewrite Hp. cbn [ret bind].
  cbn [falsy truthy isArray negb orb elements]. rewrite Hl, Hk.
  handler_run.
  destruct (createCompletion w items) as [e|[content|]]; handler_run.
  - destruct (isRateLimit e); handler_run; [discriminate|apply Hrec].
  - destruct content as [|c content]; handler_run; [discriminate|].
    destruct (JSON_parse w (String c content)) as [analysisResult|]; handler_run;
      [|discriminate].
    destruct analysisResult; handler_run; try apply Hrec;
      match goal with
      | |- context [if ?c then _ else _] => destruct c
      end; handler_run; discriminate.
  - discriminate.
Qed.

End Post.

End AnalyzePatientFacts.

Section AnalyzePatientProperties.
Import JS Handler AnalyzePatient AnalyzePatientSpec AnalyzePatientFacts.

(** X6. Every request to the analysis route is answered, and the answer
    is consistent: [success] is true exactly when the status is 200; the
    status is 200, 400, 401 or 500; a success carries no message and an
    analysis with the four required fields (summary, trend_analysis and
    recommendation truthy, key_achievements an array); a failure carries
    no data and a non-empty message. *)
Theorem analyze_patient_answers (w : World) :
  let r := snd (POST w) in
  (success r = true <-> status r = 200) /\
  (status r = 200 \/ status r = 400 \/ status r = 401 \/ status r = 500) /\
  (success r = true ->
     message r = None /\ exists d, data r = Some d /\ analysis_shape d) /\
  (success r = false ->
     data r = None /\ exists msg, message r = Some msg /\ msg <> "").
Proof.
  intros r. subst r. destruct (POST_answer w) as [msg code Hm Hc|d Hd|error].
  - cbn. split; [|split; [|split]].
    + split; [discriminate|]. intros ->. destruct Hc; discriminate.
    + destruct Hc as [-> | ->]; auto.
    + discriminate.
    + intros _. split; [reflexivity|]. exists msg. auto.
  - cbn. split; [|split; [|split]].
    + split; reflexivity.
    + auto.
    + intros _. split; [reflexivity|]. exists d. auto.
    + discriminate.
  - destruct (recover_answers error) as (A & B & C & D).
    cbn zeta in A, B, C, D. split; [exact A|]. split; [tauto|]. split; [|exact D].
    intros S. destruct (C S) as [M E]. split; [exact M|].
    exists fallbackAnalysis. split; [exact E|apply fallbackAnalysis_shape].
Qed.

(** X7. The route calls the completion service exactly when the body has
    a non-empty array [reportHistory] and the API key is configured, and
    then once, with the model gpt-3.5-turbo and that array.  No other
    request reaches the service. *)
Theorem analyze_patient_service_calls (w : World) :
  (List.length (filter isCompletion (fst (POST w))) <= 1)%nat /\
  (forall model items, In (ChatCompletion model items) (fst (POST w)) <->
     model = "gpt-3.5-turbo" /\
     exists body,
       requestJson w = inr body /\
       getProp body "reportHistory" = Some (JArr items) /\
       items <> [] /\
       keyMissing (OPENAI_API_KEY w) = false).
Proof.
  assert (InC : forall e, isCompletion e = true ->
            (In e (fst (POST w)) <-> In e (filter isCompletion (fst (POST w))))).
  { intros e He. rewrite filter_In. tauto. }
  destruct (POST_calls w) as [(E & N)|(items & P & E)].
  - split; [rewrite E; cbn; lia|].
    intros model items'. rewrite (InC (ChatCompletion model items') eq_refl), E. split.
    + intros [].
    + intros (_ & H). exact (N items' H).
  - split; [rewrite E; cbn; lia|].
    intros model items'. rewrite (InC (ChatCompletion model items') eq_refl), E. split.
    + intros [H|[]]. injection H as <- <-. split; [reflexivity|exact P].
    + intros (-> & body' & B' & R' & _).
      destruct P as (body & B & R & _).
      assert (body' = body) by congruence. subst body'.
      assert (items' = items) by congruence. subst items'.
      left. reflexivity.
Qed.

End AnalyzePatientProperties.

(** ** The analytics service, every run *)

Module ServiceFacts.
Import JS JSDate JSArray AnalyticsService AnalyticsSpec SortFacts AnalyticsFacts ServiceSpec.

(** Goes through the queries of a run. *)
Ltac queries :=
  cbn; repeat split; intros;
  repeat match goal with
         | H : _ \/ _ |- _ => destruct H as [H|H]
         | H : False |- _ => destruct H
         | H : @eq Query _ _ |- _ => discriminate H
         | H : exists _, _ |- _ => destruct H as (? & ? & ?)
         | H : _ /\ _ |- _ => destruct H
         | H : Returns _ = Throws _ |- _ => discriminate H
         end;
  try congruence; eauto 6.

Section Fetch.
Variable V : Type.
Variable host : Host.
Variable toISOString : Z -> string.
Variable w : World V.

#[local] Notation "'time'" := (createdTime V host) (only parsing).

(** The [every] test accepts a chronological list. *)
Lemma chronological_isSortedAfter prev l :
  chronological time (prev :: l) -> isSortedAfter V host prev l = true.
Proof using Type.
  revert prev. induction l as [|x rest IH]; intros prev H; cbn [isSortedAfter]; [reflexivity|].
  inversion H as [|? ? Hrest Hall]; subst.
  inversion Hall as [|? ? Hx _]; subst.
  apply andb_true_intro. split; [|now apply IH].
  unfold time_le in Hx. unfold num_le.
  destruct (createdTime V host prev), (createdTime V host x); try contradiction.
  apply Z.leb_le. exact Hx.
Qed.

Lemma chronological_isSorted l :
  chronological time l -> isSorted V host l = true.
Proof using Type.
  destruct l as [|x rest]; [reflexivity|]. apply chronological_isSortedAfter.
Qed.

Lemma queriesOf_app (a b : list (Effect V)) :
  queriesOf (a ++ b) = queriesOf a ++ queriesOf b.
Proof using Type.
  induction a as [|[q|m|m|u r] a IH]; cbn [app queriesOf]; [reflexivity| |auto|auto|auto].
  now rewrite IH.
Qed.

Lemma sortHistory_length l :
  List.length (sortHistory V host l) = List.length l.
Proof using Type.
  unfold sortHistory.
  destruct (0 <? Z.of_nat (List.length l)); [|reflexivity].
  destruct (isSorted V host l); cbn [negb]; [reflexivity|].
  apply Permutation_length, sort_perm.
Qed.

Lemma mapi_from_length {A B : Type} (f : A -> nat -> B) (l : list A) : forall i,
  List.length (mapi_from f i l) = List.length l.
Proof using Type.
  induction l as [|x l IH]; intros i; cbn [mapi_from List.length]; [reflexivity|].
  now rewrite IH.
Qed.

Lemma reportHistoryOf_length docs :
  List.length (reportHistoryOf V host toISOString w docs) = List.length docs.
Proof using Type.
  unfold reportHistoryOf, mapi. now rewrite sortHistory_length, mapi_from_length.
Qed.

(** The requests among the effects of a run. *)
Lemma fetchPatientAnalytics_requests patientId :
  let run := fetchPatientAnalytics V host toISOString w patientId in
  (filter (isFetch V) (snd run) = [] /\
   (patientId = "" \/ (exists e, fst (queryVersions V w) = Throws e) \/
    fst (queryVersions V w) = Returns [])) \/
  (exists docs,
     patientId <> "" /\
     fst (queryVersions V w) = Returns docs /\ docs <> [] /\
     filter (isFetch V) (snd run)
     = [Fetch V "/api/analyze-patient"
          (slice_from (-5) (reportHistoryOf V host toISOString w docs))] /\
     fst run = match fetch V w (slice_from (-5) (reportHistoryOf V host toISOString w docs)) with
               | Throws e => Throws e
               | Returns response => readResponse response
               end).
Proof using Type.
  intros run. subst run. unfold fetchPatientAnalytics.
  destruct (String.eqb_spec patientId "") as [E|E]; [left; auto|].
  pose proof (queryVersions_no_fetch V w) as Hfx.
  destruct (queryVersions V w) as [[docs|e] fx]; cbn [fst snd] in *.
  2:{ left. split; [exact Hfx|]. right. left. eauto. }
  fold (reportHistoryOf V host toISOString w docs).
  pose proof (reportHistoryOf_length docs) as L.
  destruct docs as [|d docs].
  { left. split; [exact Hfx|]. auto. }
  rewrite L. cbn [List.length Nat.eqb].
  right. exists (d :: docs). split; [exact E|]. split; [reflexivity|].
  split; [discriminate|]. cbv zeta.
  remember (reportHistoryOf V host toISOString w (d :: docs)) as history0 eqn:Eh.
  clear Eh L.
  assert (F : forall fx', filter (isFetch V) fx' = [] ->
                filter (isFetch V) (fx' ++ [Fetch V "/api/analyze-patient" (slice_from (-5) history0)])
                = [Fetch V "/api/analyze-patient" (slice_from (-5) history0)]).
  { intros fx' H. rewrite filter_app, H. reflexivity. }
  split.
  - destruct (fetch V w (slice_from (-5) history0));
      destruct (Nat.ltb 5 _); cbn [snd];
      apply F; rewrite ?filter_app, ?Hfx; reflexivity.
  - destruct (fetch V w (slice_from (-5) history0)); reflexivity.
Qed.

(** Reading the answer succeeds on exactly one kind of answer. *)
Lemma readResponse_returns (r : Response) (a : PatientAnalytics) :
  readResponse r = Returns a <->
  resp_ok r = true /\
  exists result,
    resp_json r = Some result /\ body_success result = true /\ body_data result = Some a.
Proof using Type.
  unfold readResponse. split.
  - destruct (resp_ok r); cbn [negb].
    + destruct (resp_json r) as [result|]; [|discriminate].
      destruct (body_success result) eqn:S, (body_data result) as [data|] eqn:D;
        try (destruct (body_message result) as [[|c m]|]; discriminate).
      intros H. injection H as <-. eauto.
    + destruct (resp_json r) as [b|];
        [destruct (body_message b) as [[|c m]|]|]; discriminate.
  - intros (Hok & result & Hj & Hs & Hd). rewrite Hok, Hj, Hs, Hd. reflexivity.
Qed.

(** The body sent holds between one and five reports. *)
Lemma requestBody_size patientId reports :
  requestBody V (snd (fetchPatientAnalytics V host toISOString w patientId)) = Some reports ->
  (1 <= List.length reports <= 5)%nat.
Proof using Type.
  intros H. unfold requestBody in H.
  change (fun e : Effect V => match e with Fetch _ _ _ => true | _ => false end)
    with (isFetch V) in H.
  destruct (fetchPatientAnalytics_requests patientId) as [(E & _)|(docs & _ & _ & N & E & _)];
    cbv zeta in E; rewrite E in H; [discriminate|].
  injection H as <-.
  pose proof (reportHistoryOf_length docs) as L.
  rewrite (slice_from_last 5) by lia.
  rewrite lastn_length by lia.
  destruct docs; [congruence|]. cbn [List.length] in L. lia.
Qed.

End Fetch.

End ServiceFacts.

Section ServiceProperties.
Import JS JSDate JSArray AnalyticsService AnalyticsSpec AnalyticsFacts ServiceSpec ServiceFacts.

Variable V : Type.
Variable host : Host.
Variable toISOString : Z -> string.

(** X8. The version query falls back in a fixed order.  The query ordered
    by creation time is always issued first; the one ordered by version
    is issued exactly when the first threw failed-precondition, and the
    unordered one exactly when the second did so too.  No query is
    repeated, and the outcome is that of the last query issued: any other
    error is passed on as it is. *)
Theorem queryVersions_fallback_order (w : World V) :
  let qs := queriesOf (snd (queryVersions V w)) in
  (qs = [OrderByCreatedAt] \/
   qs = [OrderByCreatedAt; OrderByVersion] \/
   qs = [OrderByCreatedAt; OrderByVersion; Unordered]) /\
  (In OrderByVersion qs <-> index_missing w OrderByCreatedAt) /\
  (In Unordered qs <->
     index_missing w OrderByCreatedAt /\ index_missing w OrderByVersion) /\
  fst (queryVersions V w) = getDocs V w (last qs OrderByCreatedAt).
Proof.
  unfold queryVersions, index_missing.
  destruct (getDocs V w OrderByCreatedAt) as [docs|e] eqn:E1; [queries|].
  destruct (failed_precondition e) eqn:F1; [|queries].
  destruct (getDocs V w OrderByVersion) as [docs|e2] eqn:E2; [queries|].
  destruct (failed_precondition e2) eqn:F2; [|queries].
  destruct (getDocs V w Unordered) as [docs|e3] eqn:E3; queries.
Qed.

(** X9. [fetchPatientAnalytics] returns an analysis in exactly one case:
    the patient id is not empty, the version query returned at least one
    document, the request was answered, and the answer is ok with
    [success] true and data, which is what is returned.  It sends a
    request exactly when the id is not empty and the query returned at
    least one document, and then only one; with an empty id it does
    nothing at all. *)
Theorem fetchPatientAnalytics_returns (w : World V) (patientId : string) :
  let run := fetchPatientAnalytics V host toISOString w patientId in
  (forall a,
     fst run = Returns a <->
     patientId <> "" /\
     exists docs response result,
       fst (queryVersions V w) = Returns docs /\ docs <> [] /\
       fetch V w (slice_from (-5) (reportHistoryOf V host toISOString w docs))
       = Returns response /\
       resp_ok response = true /\ resp_json response = Some result /\
       body_success result = true /\ body_data result = Some a) /\
  (filter (isFetch V) (snd run) <> [] <->
     patientId <> "" /\ exists docs, fst (queryVersions V w) = Returns docs /\ docs <> []) /\
  (List.length (filter (isFetch V) (snd run)) <= 1)%nat /\
  (patientId = "" -> snd run = []).
Proof.
  intros run.
  assert (Hempty : patientId = "" -> run = (Throws (Error "Patient ID is required"), [])).
  { intros ->. reflexivity. }
  assert (Hthrow : forall e, fst (queryVersions V w) = Throws e ->
                     patientId <> "" -> fst run = Throws e).
  { intros e He Hid. subst run. unfold fetchPatientAnalytics.
    apply String.eqb_neq in Hid. rewrite Hid.
    destruct (queryVersions V w) as [[docs|e'] fx]; cbn [fst] in *; congruence. }
  assert (Hnone : fst (queryVersions V w) = Returns [] -> patientId <> "" ->
                  fst run = Throws (Error "No report versions found for this patient")).
  { intros He Hid. subst run. unfold fetchPatientAnalytics.
    apply String.eqb_neq in Hid. rewrite Hid.
    destruct (queryVersions V w) as [[docs|e'] fx]; cbn [fst] in *; [|discriminate].
    injection He as ->. reflexivity. }
  destruct (fetchPatientAnalytics_requests V host toISOString w patientId)
    as [(E & C)|(docs & Hid & Q & N & E & R)]; fold run in E; try fold run in R.
  - split; [|split; [|split]].
    + intros a. split.
      * intros H. exfalso. destruct C as [C|[(e & C)|C]].
        -- rewrite (Hempty C) in H. discriminate.
        -- destruct (String.eqb_spec patientId "") as [I|I].
           ++ rewrite (Hempty I) in H. discriminate.
           ++ rewrite (Hthrow e C I) in H. discriminate.
        -- destruct (String.eqb_spec patientId "") as [I|I].
           ++ rewrite (Hempty I) in H. discriminate.
           ++ rewrite (Hnone C I) in H. discriminate.
      * intros (Hid & docs & response & result & Q & N & _). exfalso.
        destruct C as [C|[(e & C)|C]]; congruence.
    + rewrite E. split; [congruence|].
      intros (Hid & docs & Q & N). exfalso.
      destruct C as [C|[(e & C)|C]]; congruence.
    + rewrite E. cbn. lia.
    + intros I. rewrite (Hempty I). reflexivity.
  - split; [|split; [|split]].
    + intros a. rewrite R. split.
      * intros H. split; [exact Hid|].
        destruct (fetch V w _) as [response|e] eqn:F; [|discriminate].
        apply readResponse_returns in H. destruct H as (Hok & result & Hj & Hs & Hd).
        exists docs, response, result. auto 10.
      * intros (_ & docs' & response & result & Q' & _ & F & Hok & Hj & Hs & Hd).
        assert (docs' = docs) by congruence. subst docs'.
        rewrite F. apply readResponse_returns. eauto.
    + rewrite E. split; [|discriminate]. intros _. eauto.
    + rewrite E. cbn. lia.
    + intros I. contradiction.
Qed.

(** X10. A history that is already in chronological order, as when the
    ordered query worked, is left exactly as it is: the order of the
    documents is the order of the reports. *)
Theorem sortHistory_keeps_chronological (l : list (Report V)) :
  chronological (createdTime V host) l -> sortHistory V host l = l.
Proof.
  intros H. unfold sortHistory.
  rewrite (chronological_isSorted V host l H). cbn [negb].
  destruct (0 <? Z.of_nat (List.length l)); reflexivity.
Qed.

(** X11. The service and the route fit together: the body the service
    sends holds between one and five reports, so the route never answers
    it with 400, and when the API key is configured the route passes
    exactly these reports on to the completion service, once. *)
Theorem fetchPatientAnalytics_request_accepted
  (w : World V) (patientId : string) (reports : list (Report V))
  (encode : V -> Json) (rw : AnalyzePatient.World) :
  requestBody V (snd (fetchPatientAnalytics V host toISOString w patientId)) = Some reports ->
  AnalyzePatient.requestJson rw = inr (encodeBody encode reports) ->
  (1 <= List.length reports <= 5)%nat /\
  (AnalyzePatient.keyMissing (AnalyzePatient.OPENAI_API_KEY rw) = false ->
     AnalyzePatient.status (snd (AnalyzePatient.POST rw)) <> 400 /\
     filter AnalyzePatientSpec.isCompletion (fst (AnalyzePatient.POST rw))
     = [AnalyzePatient.ChatCompletion "gpt-3.5-turbo" (map (encodeReport encode) reports)]) /\
  (AnalyzePatient.keyMissing (AnalyzePatient.OPENAI_API_KEY rw) = true ->
     AnalyzePatient.status (snd (AnalyzePatient.POST rw)) = 500 /\
     filter AnalyzePatientSpec.isCompletion (fst (AnalyzePatient.POST rw)) = []).
Proof.
  intros Hb Hr.
  pose proof (requestBody_size V host toISOString w patientId reports Hb) as Hn.
  split; [exact Hn|].
  assert (Hne : map (encodeReport encode) reports <> []).
  { destruct reports; [cbn in Hn; lia|discriminate]. }
  split.
  - intros Hk.
    assert (P : AnalyzePatientSpec.passed_on rw (map (encodeReport encode) reports)).
    { exists (encodeBody encode reports). repeat split; try assumption. }
    split; [exact (AnalyzePatientFacts.passed_on_not_400 rw _ P)|].
    destruct (AnalyzePatientFacts.POST_calls rw) as [(_ & N)|(items & P' & E)].
    + exfalso. exact (N _ P).
    + destruct P' as (body & B & R & _).
      assert (body = encodeBody encode reports) by congruence. subst body.
      cbn in R. injection R as <-. exact E.
  - intros Hk. unfold AnalyzePatient.POST, AnalyzePatient.handle.
    rewrite Hr. destruct reports as [|r reports]; [cbn in Hn; lia|].
    cbn. rewrite Hk. cbn. split; reflexivity.
Qed.

End ServiceProperties.

Section ServiceExamples.
Import JS JSDate JSArray AnalyticsService AnalyticsSpec ServiceSpec.

(** X10 on two reports created on 1 and 2 January 2024. *)
Lemma sortHistory_keeps_chronological_witness :
  let report (v : Z) (s : string) :=
    {| version := v; createdAt := s; painRating := @None string; rom := None;
       diagnosis := None; treatmentDone := None |} in
  let l := [report 2 "2024-01-01"; report 1 "2024-01-02"] in
  sortHistory string Billing.hostIST l = l.
Proof.
  intros report l.
  apply (sortHistory_keeps_chronological string Billing.hostIST l).
  repeat constructor. vm_compute. discriminate.
Defined.

(** X11 on a patient with one stored report. *)
Lemma fetchPatientAnalytics_request_accepted_witness :
  let doc :=
    {| doc_version := Some 1;
       doc_createdAt := CreatedString "2024-01-01";
       doc_reportData := None;
       doc_data := @None (ReportData string) |} in
  let w := {| getDocs := fun _ => Returns [doc];
              clock := fun _ => 0;
              fetch := fun _ => Throws (Error "offline") |} in
  let report := {| version := 1; createdAt := "2024-01-01"; painRating := @None string;
                   rom := None; diagnosis := None; treatmentDone := None |} in
  let rw := {| AnalyzePatient.requestJson := inr (encodeBody JStr [report]);
               AnalyzePatient.OPENAI_API_KEY := Some "sk-test";
               AnalyzePatient.createCompletion := fun _ => inr None;
               AnalyzePatient.JSON_parse := fun _ => None |} in
  AnalyzePatient.status (snd (AnalyzePatient.POST rw)) <> 400 /\
  filter AnalyzePatientSpec.isCompletion (fst (AnalyzePatient.POST rw))
  = [AnalyzePatient.ChatCompletion "gpt-3.5-turbo" [encodeReport JStr report]].
Proof.
  intros doc w report rw.
  destruct (fetchPatientAnalytics_request_accepted string Billing.hostIST (fun _ => "") w "P-1"
              [report] JStr rw eq_refl eq_refl) as (_ & H & _).
  exact (H eq_refl).
Defined.

End ServiceExamples.

(** ** The password-change route, further properties *)

Section ChangePasswordProperties.
Import JS Handler ChangePassword ChangePasswordFacts.



End ChangePasswordProperties.

Section ChangePasswordExamples.
Import JS Handler ChangePassword.


End ChangePasswordExamples.

(** ** Rates at the ends of the scale *)

Module RateFacts.
Import JS JSArray Float FloatSpec FloatFacts FloatExactFacts ProgressAnalytics MetricsFacts.

Lemma rate_all n : 0 < n < 2 ^ 53 -> rate n n = 100.
Proof.
  intros Hn. unfold rate, Math_round, fmul, fdiv, of_int.
  assert (E1 : (rnd (inject_Z n / inject_Z n) == inject_Z 1)%Q).
  { apply rnd_int; [|cbn; lia]. field. unfold Qeq. cbn. lia. }
  assert (E2 : (rnd (rnd (inject_Z n / inject_Z n) * inject_Z 100) == inject_Z 100)%Q).
  { apply rnd_int; [|cbn; lia]. rewrite E1. reflexivity. }
  rewrite (Qfloor_comp _ (inject_Z 100 + (1 # 2))%Q) by (rewrite E2; reflexivity).
  reflexivity.
Qed.

Lemma rate_none n : n <> 0 -> rate 0 n = 0.
Proof.
  intros Hn. unfold rate, Math_round, fmul, fdiv, of_int.
  assert (E1 : rnd (inject_Z 0 / inject_Z n) = 0%Q).
  { apply rnd_zero. unfold Qdiv. ring. }
  rewrite E1. reflexivity.
Qed.

(** The rate is 100 for the full count, and only for a count that misses
    at most half a percent. *)
Lemma rate_100 c n :
  0 <= c <= n -> 0 < n < 2 ^ 32 ->
  (c = n -> rate c n = 100) /\ (rate c n = 100 -> 200 * (n - c) <= n).
Proof.
  intros Hc Hn. split.
  - intros ->. apply rate_all. lia.
  - intros E. pose proof (rate_nearest c n Hc Hn) as B. rewrite E in B. lia.
Qed.

(** The rate is 0 for the count 0, and only for a count of at most half
    a percent. *)
Lemma rate_0 c n :
  0 <= c <= n -> 0 < n < 2 ^ 32 ->
  (c = 0 -> rate c n = 0) /\ (rate c n = 0 -> 200 * c <= n).
Proof.
  intros Hc Hn. split.
  - intros ->. apply rate_none. lia.
  - intros E. pose proof (rate_nearest c n Hc Hn) as B. rewrite E in B. lia.
Qed.

Lemma filter_all {A : Type} (f : A -> bool) (l : list A) :
  List.length (filter f l) = List.length l <-> Forall (fun x => f x = true) l.
Proof.
  induction l as [|x l IH]; cbn [filter List.length].
  - split; [constructor|reflexivity].
  - pose proof (filter_length_le f l) as L.
    destruct (f x) eqn:E; cbn [List.length]; split.
    + intros H. constructor; [exact E|]. apply IH. lia.
    + intros H. inversion H; subst. f_equal. now apply IH.
    + intros H. lia.
    + intros H. inversion H; subst. congruence.
Qed.

Lemma filter_none {A : Type} (f : A -> bool) (l : list A) :
  List.length (filter f l) = 0%nat <-> Forall (fun x => f x = false) l.
Proof.
  induction l as [|x l IH]; cbn [filter List.length].
  - split; [constructor|reflexivity].
  - destruct (f x) eqn:E; cbn [List.length]; split.
    + discriminate.
    + intros H. inversion H; subst. congruence.
    + intros H. constructor; [exact E|]. now apply IH.
    + intros H. inversion H; subst. now apply IH.
Qed.

End RateFacts.

Section ProgressProperties.
Import JS JSArray Float FloatSpec FloatFacts ProgressAnalytics MetricsFacts RateFacts.
Import CompletionStatus.

(** X14. The cumulative improvement rate of a session is 100 when every
    session up to it is marked Improved and 0 when none is.  Up to the
    199th session the converse holds: a rate of 100 means that every
    session up to it is marked Improved, a rate of 0 that none is. *)
Theorem improvementRate_extremes (versions : list ReportVersion) (i : nat) :
  (i < List.length versions)%nat ->
  Z.of_nat (List.length versions) < 2 ^ 32 ->
  let sessions := firstn (S i) versions in
  (Forall (fun v => isImproved v = true) sessions -> improvementRate versions i = 100) /\
  (Forall (fun v => isImproved v = false) sessions -> improvementRate versions i = 0) /\
  ((i < 199)%nat ->
     (improvementRate versions i = 100 -> Forall (fun v => isImproved v = true) sessions) /\
     (improvementRate versions i = 0 -> Forall (fun v => isImproved v = false) sessions)).
Proof.
  intros Hi Hlen sessions.
  pose proof (sessionsWithImprovement_count versions i Hi) as Ec.
  pose proof (sessionsWithImprovement_range versions i Hi) as Rc.
  fold sessions in Ec.
  assert (Ls : List.length sessions = S i).
  { subst sessions. rewrite length_firstn. lia. }
  rewrite improvementRate_rate. unfold rateDivisor in *.
  set (c := sessionsWithImprovement versions i) in *.
  assert (Hn : 0 < Z.of_nat i + 1 < 2 ^ 32) by lia.
  destruct (rate_100 c _ Rc Hn) as [A1 A2].
  destruct (rate_0 c _ Rc Hn) as [Z1 Z2].
  split; [|split; [|intros Hs; split]].
  - intros H. apply filter_all in H. apply A1. lia.
  - intros H. apply filter_none in H. apply Z1. lia.
  - intros H. apply A2 in H. apply filter_all. lia.
  - intros H. apply Z2 in H. apply filter_none. lia.
Qed.

(** X15. When the patient has a plan of [t] sessions of which [r] remain,
    with [0 <= r <= t]: the completed and the remaining sessions add up
    to the total, the percentage lies between 0 and 100 and is a nearest
    integer to the share of completed sessions; it is 100 when no
    session remains, and for a plan of fewer than 200 sessions only
    then. *)
Theorem completionStatus_in_plan (info : PatientInfo) (reportCount : nat) (t : Z) :
  let r := orZero (remainingSessions info) in
  let status := completionStatus (Some info) reportCount in
  totalSessions info = Some t ->
  0 < t < 2 ^ 32 ->
  0 <= r <= t ->
  total status = t /\
  remaining status = r /\
  completed status + remaining status = total status /\
  0 <= percentage status <= 100 /\
  Z.abs (2 * t * percentage status - 200 * completed status) <= t /\
  (r = 0 -> percentage status = 100) /\
  (t < 200 -> percentage status = 100 -> r = 0).
Proof.
  intros r status Ht Rt Rr. subst status. unfold completionStatus. rewrite Ht.
  destruct t as [|p|p]; try lia. fold r.
  cbn [completed total percentage remaining].
  rewrite !Z.max_r by lia.
  change (Math_round (fmul (fdiv (of_int (Z.pos p - r)) (of_int (Z.pos p))) (of_int 100)))
    with (rate (Z.pos p - r) (Z.pos p)).
  assert (Hc : 0 <= Z.pos p - r <= Z.pos p) by lia.
  pose proof (rate_range _ _ Hc ltac:(lia)).
  pose proof (rate_nearest _ _ Hc Rt).
  destruct (rate_100 _ _ Hc Rt) as [A1 A2].
  split; [reflexivity|]. split; [reflexivity|]. split; [lia|]. split; [lia|].
  split; [lia|]. split.
  - intros E. apply A1. lia.
  - intros Hs E. apply A2 in E. lia.
Qed.

End ProgressProperties.

Section ProgressExamples.
Import JS JSArray Float ProgressAnalytics CompletionStatus.

(** X14 on three sessions, all marked Improved. *)
Lemma improvementRate_extremes_witness :
  let session :=
    {| id := "r"; version := 0; createdAt := "2024-01-01T00:00:00.000Z";
       createdBy := "Unknown"; currentPainStatus := Some "Improved" |} in
  improvementRate [session; session; session] 2 = 100.
Proof.
  intros session.
  destruct (improvementRate_extremes [session; session; session] 2) as (H & _).
  - cbn. lia.
  - reflexivity.
  - apply H. repeat constructor.
Defined.

(** X15 on a plan of 12 sessions of which 3 remain: 75 percent. *)
Lemma completionStatus_in_plan_witness :
  let info := {| totalSessions := Some 12; remainingSessions := Some 3 |} in
  completed (completionStatus (Some info) 4) + 3 = 12 /\
  0 <= percentage (completionStatus (Some info) 4) <= 100.
Proof.
  intros info.
  destruct (completionStatus_in_plan info 4 12) as (Et & Er & Ec & Hp & _).
  - reflexivity.
  - lia.
  - cbn. lia.
  - split; [|exact Hp]. cbv zeta in Ec, Er, Et. rewrite Er, Et in Ec. exact Ec.
Defined.

End ProgressExamples.

(** ** The SMS route and its client, properties *)

Module SendSmsFacts.
Import JS Handler SendSms SendSmsSpec.

Ltac sms_run :=
  cbn [bind lift emit try_catch try_total ret throw app fst snd failure recover
       status success error sid smsStatus].

Section Post.
Variable w : World.

(** A body that is falsy has no fields. *)
Lemma source_fields body k :
  getProp (if truthy body then body else JObj []) k = getProp body k.
Proof.
  destruct body as [|b|n|s|items|fields]; cbn [truthy]; try reflexivity.
  - destruct b; reflexivity.
  - destruct (negb (n =? 0)); reflexivity.
  - destruct (negb (String.eqb s "")); reflexivity.
Qed.

Lemma asks_dec body :
  (exists to message, asks body to message) \/
  falsy (getProp body "to") || falsy (getProp body "message") = true.
Proof.
  unfold asks.
  destruct (getProp body "to") as [to|]; [|right; reflexivity].
  destruct (getProp body "message") as [message|]; [|right; apply orb_true_r].
  cbn [falsy]. destruct (truthy to) eqn:Et; [|right; reflexivity].
  destruct (truthy message) eqn:Em; [|right; reflexivity].
  left. exists to, message. auto.
Qed.

Lemma configured_dec :
  (exists from, configured w from) \/
  unset (TWILIO_ACCOUNT_SID w) || unset (TWILIO_AUTH_TOKEN w)
  || unset (TWILIO_PHONE_NUMBER w) = true.
Proof.
  unfold configured.
  destruct (unset (TWILIO_ACCOUNT_SID w)); [right; reflexivity|].
  destruct (unset (TWILIO_AUTH_TOKEN w)); [right; reflexivity|].
  destruct (TWILIO_PHONE_NUMBER w) as [from|]; [|right; reflexivity].
  cbn [unset orb]. destruct (String.eqb_spec from ""); [right; reflexivity|].
  left. exists from. auto.
Qed.

(** The run of the route on a request that asks for a message, on a
    configured server. *)
Lemma POST_sends body to message from :
  requestJson w = inr body -> asks body to message -> configured w from ->
  POST w =
  match createMessage w to from message with
  | inr sms =>
      ([CreateMessage to from message],
       {| status := 200; success := true; error := None;
          sid := Some (sms_sid sms); smsStatus := Some (sms_status sms) |})
  | inl e =>
      ([CreateMessage to from message; ConsoleError "Error sending SMS via Twilio:"],
       snd (recover e))
  end.
Proof.
  intros Hb (Ht & Hm & Tt & Tm) (Ca & Cb & Cf & Cn).
  unfold POST, handle. rewrite Hb. sms_run.
  rewrite !source_fields, Ht, Hm. cbn [falsy]. rewrite Tt, Tm. cbn [negb orb].
  rewrite Ca, Cb, Cf. cbn [unset orb text value].
  apply String.eqb_neq in Cn. rewrite Cn. sms_run.
  destruct (createMessage w to from message) as [e|sms]; reflexivity.
Qed.

Lemma recover_failure e :
  exists msg, snd (recover e) = failure msg 500 /\ msg <> "".
Proof.
  unfold recover. cbn [snd].
  destruct (err_message e) as [[|c m]|]; eexists; (split; [reflexivity|discriminate]).
Qed.

(** The run on a request that does not ask for a message. *)
Lemma POST_no_fields body :
  requestJson w = inr body ->
  falsy (getProp body "to") || falsy (getProp body "message") = true ->
  POST w = ([], failure missingFields 400).
Proof.
  intros Hb A. unfold POST, handle. rewrite Hb. sms_run.
  rewrite !source_fields, A. reflexivity.
Qed.

(** The run on any other request. *)
Lemma POST_refuses :
  (forall body to message from,
     requestJson w = inr body -> asks body to message -> configured w from -> False) ->
  filter isCreateMessage (fst (POST w)) = [] /\
  exists msg code,
    snd (POST w) = failure msg code /\ msg <> "" /\ (code = 400 \/ code = 500).
Proof.
  intros N.
  destruct (requestJson w) as [e|body] eqn:Hb.
  { unfold POST, handle. rewrite Hb. sms_run. split; [reflexivity|].
    destruct (recover_failure e) as (msg & E & Hm).
    unfold recover in E. cbn [snd] in E. rewrite E. eauto 6. }
  destruct (asks_dec body) as [(to & message & A)|A].
  - destruct configured_dec as [(from & C)|C].
    + exfalso. exact (N body to message from eq_refl A C).
    + unfold POST, handle. rewrite Hb. sms_run. rewrite !source_fields.
      destruct A as (Ht & Hm & Tt & Tm). rewrite Ht, Hm. cbn [falsy].
      rewrite Tt, Tm. cbn [negb orb]. rewrite C. sms_run.
      split; [reflexivity|]. eexists _, 500. split; [reflexivity|].
      split; [discriminate|auto].
  - rewrite (POST_no_fields body Hb A). split; [reflexivity|].
    exists missingFields, 400. split; [reflexivity|]. split; [discriminate|auto].
Qed.

Lemma POST_cases :
  (exists body to message from,
     requestJson w = inr body /\ asks body to message /\ configured w from) \/
  (forall body to message from,
     requestJson w = inr body -> asks body to message -> configured w from -> False).
Proof.
  destruct (requestJson w) as [e|body] eqn:Hb; [right; intros; discriminate|].
  destruct (asks_dec body) as [(to & message & A)|A].
  - destruct configured_dec as [(from & C)|C].
    + left. exists body, to, message, from. auto.
    + right. intros body' to' message' from' _ _ (Ca & Cb & Cf & Cn).
      rewrite Ca, Cb, Cf in C. cbn [unset orb] in C.
      apply String.eqb_eq in C. contradiction.
  - right. intros body' to' message' from' Hb' (Ht & Hm & Tt & Tm) _.
    injection Hb' as <-. rewrite Ht, Hm in A. cbn [falsy] in A.
    rewrite Tt, Tm in A. discriminate.
Qed.

(** The request and the configuration determine what is sent. *)
Lemma asks_unique body to message to' message' :
  asks body to message -> asks body to' message' -> to' = to /\ message' = message.
Proof. intros (A & B & _) (A' & B' & _). split; congruence. Qed.

Lemma configured_unique from from' :
  configured w from -> configured w from' -> from' = from.
Proof. intros (_ & _ & A & _) (_ & _ & B & _). congruence. Qed.

End Post.

Lemma configured_route w body from : configured (route w body) from <-> configured w from.
Proof. reflexivity. Qed.

End SendSmsFacts.

Section SendSmsProperties.
Import JS Handler SendSms SendSmsSpec SendSmsFacts.

(** X16. The SMS route calls the messaging service exactly when the body
    has truthy fields [to] and [message] and the three environment
    variables are set, and then once, with these fields and the
    configured number.  It answers [success] true exactly when that call
    succeeds, and the answer is then status 200 with the id and the status
    of the message, the call being the only effect; every other answer
    is a failure with status 400 or 500 and a non-empty error text. *)
Theorem send_sms_route (w : World) :
  let r := snd (POST w) in
  (List.length (filter isCreateMessage (fst (POST w))) <= 1)%nat /\
  (forall to from message,
     In (CreateMessage to from message) (fst (POST w)) <->
     exists body, requestJson w = inr body /\ asks body to message /\ configured w from) /\
  (success r = true <->
     exists body to message from sms,
       requestJson w = inr body /\ asks body to message /\ configured w from /\
       createMessage w to from message = inr sms) /\
  (forall body to message from sms,
     requestJson w = inr body -> asks body to message -> configured w from ->
     createMessage w to from message = inr sms ->
     POST w = ([CreateMessage to from message],
               {| status := 200; success := true; error := None;
                  sid := Some (sms_sid sms); smsStatus := Some (sms_status sms) |})) /\
  (success r = true <-> status r = 200) /\
  (success r = false ->
     (status r = 400 \/ status r = 500) /\ sid r = None /\
     exists msg, error r = Some msg /\ msg <> "").
Proof.
  intros r. subst r.
  destruct (POST_cases w) as [(body & to & message & from & Hb & A & C)|N].
  - pose proof (POST_sends w body to message from Hb A C) as E.
    assert (U : forall to' from' message',
              (exists body', requestJson w = inr body' /\ asks body' to' message' /\
                             configured w from') ->
              to' = to /\ from' = from /\ message' = message).
    { intros to' from' message' (body' & Hb' & A' & C').
      assert (body' = body) by congruence. subst body'.
      destruct (asks_unique body to message to' message' A A') as [-> ->].
      rewrite (configured_unique w from from' C C'). auto. }
    destruct (createMessage w to from message) as [e|sms] eqn:Ec; rewrite E.
    + destruct (recover_failure e) as (msg & -> & Hm). cbn.
      split; [lia|]. split; [|split; [|split; [|split]]].
      * intros to' from' message'. split.
        -- intros [H|[H|[]]]; [|discriminate]. injection H as <- <- <-. eauto.
        -- intros H. destruct (U _ _ _ H) as (-> & -> & ->). auto.
      * split; [discriminate|].
        intros (body' & to' & message' & from' & sms & Hb' & A' & C' & Ec').
        destruct (U to' from' message') as (-> & -> & ->); [eauto|]. congruence.
      * intros body' to' message' from' sms Hb' A' C' Ec'.
        destruct (U to' from' message') as (-> & -> & ->); [eauto|]. congruence.
      * split; discriminate.
      * intros _. split; [auto|]. split; [reflexivity|]. eauto.
    + cbn. split; [lia|]. split; [|split; [|split; [|split]]].
      * intros to' from' message'. split.
        -- intros [H|[]]. injection H as <- <- <-. eauto.
        -- intros H. destruct (U _ _ _ H) as (-> & -> & ->). auto.
      * split; [intros _|reflexivity].
        exists body, to, message, from, sms. auto 10.
      * intros body' to' message' from' sms' Hb' A' C' Ec'.
        destruct (U to' from' message') as (-> & -> & ->); [eauto|].
        assert (sms' = sms) by congruence. subst sms'. reflexivity.
      * split; reflexivity.
      * discriminate.
  - destruct (POST_refuses w N) as (F & msg & code & E & Hm & Hc).
    rewrite F, E. cbn. split; [lia|]. split; [|split; [|split; [|split]]].
    + intros to from message. split.
      * intros H.
        assert (Hf : In (CreateMessage to from message) (filter isCreateMessage (fst (POST w))))
          by (apply filter_In; split; [exact H|reflexivity]).
        rewrite F in Hf. destruct Hf.
      * intros (body & Hb & A & C). exfalso. exact (N body to message from Hb A C).
    + split; [discriminate|].
      intros (body & to & message & from & sms & Hb & A & C & _).
      exfalso. exact (N body to message from Hb A C).
    + intros body to message from sms Hb A C _.
      exfalso. exact (N body to message from Hb A C).
    + split; [discriminate|]. intros ->. destruct Hc; discriminate.
    + intros _. split; [exact Hc|]. split; [reflexivity|]. eauto.
Qed.

(** X17. The client and the route fit together.  [sendSms] returns
    exactly when both arguments are truthy, the server is configured and
    the messaging service accepts the message; what it returns carries
    the id and the status of that message.  With an empty recipient or
    an empty message it throws the error of the route, and the messaging
    service is not called. *)
Theorem sendSms_through_route (w : World) (to message : Json) :
  let request := JObj [("to", to); ("message", message)] in
  let fetch (body : Json) : JsError + HttpResponse :=
    inr (served (snd (POST (route w body)))) in
  let result := sendSms fetch to message in
  (forall data,
     result = Returns data <->
     truthy to = true /\ truthy message = true /\
     exists from sms,
       configured w from /\ createMessage w to from message = inr sms /\
       data = JObj [("success", JBool true); ("sid", JStr (sms_sid sms));
                    ("status", JStr (sms_status sms))]) /\
  (truthy to = false \/ truthy message = false ->
     result = Throws (Error missingFields) /\
     fst (POST (route w request)) = []).
Proof.
  intros request fetch result.
  assert (Hb : requestJson (route w request) = inr request) by reflexivity.
  assert (Ha : forall to' message', asks request to' message' ->
                 to' = to /\ message' = message /\ truthy to = true /\ truthy message = true).
  { intros to' message' (A & B & Tt & Tm). cbn in A, B.
    injection A as <-. injection B as <-. auto. }
  assert (Hthrow : forall msg code, msg <> "" -> code = 400 \/ code = 500 ->
            snd (POST (route w request)) = failure msg code ->
            result = Throws (Error msg)).
  { intros msg code Hm Hc E. subst result fetch. unfold sendSms. cbv beta.
    fold request. rewrite E.
    assert (Ok : (200 <=? code) && (code <=? 299) = false)
      by (destruct Hc as [-> | ->]; reflexivity).
    cbn. rewrite Ok. cbn.
    destruct msg as [|c m]; [congruence|reflexivity]. }
  split.
  - intros data.
    destruct (POST_cases (route w request))
      as [(body & to' & message' & from & Hb' & A & C)|N].
    + assert (body = request) by congruence. subst body.
      destruct (Ha _ _ A) as (-> & -> & Tt & Tm).
      pose proof (POST_sends (route w request) request to message from Hb A C) as E.
      change (createMessage (route w request)) with (createMessage w) in E.
      destruct (createMessage w to from message) as [e|sms] eqn:Ec.
      * destruct (recover_failure e) as (msg & R & Hm).
        assert (E' : snd (POST (route w request)) = failure msg 500)
          by (rewrite E; exact R).
        rewrite (Hthrow msg 500 Hm (or_intror eq_refl) E'). split; [discriminate|].
        intros (_ & _ & from' & sms & C' & Ec' & _).
        rewrite (configured_unique w from from' C C') in Ec'. congruence.
      * assert (R : result = Returns (JObj [("success", JBool true);
                                           ("sid", JStr (sms_sid sms));
                                           ("status", JStr (sms_status sms))])).
        { subst result fetch. unfold sendSms. cbv beta. fold request. rewrite E.
          reflexivity. }
        rewrite R. split.
        -- intros H. injection H as <-. split; [exact Tt|]. split; [exact Tm|].
           exists from, sms. auto.
        -- intros (_ & _ & from' & sms' & C' & Ec' & ->).
           rewrite (configured_unique w from from' C C') in Ec'.
           assert (sms' = sms) by congruence. subst sms'. reflexivity.
    + destruct (POST_refuses (route w request) N) as (_ & msg & code & E & Hm & Hc).
      rewrite (Hthrow msg code Hm Hc E). split; [discriminate|].
      intros (Tt & Tm & from & sms & C & _). exfalso.
      apply (N request to message from Hb); [|exact C].
      repeat split; assumption.
  - intros Hf.
    assert (A : falsy (getProp request "to") || falsy (getProp request "message") = true).
    { cbn. destruct Hf as [-> | ->]; [reflexivity|apply orb_true_r]. }
    pose proof (POST_no_fields (route w request) request Hb A) as E.
    split; [|now rewrite E].
    apply (Hthrow missingFields 400); [discriminate|auto|now rewrite E].
Qed.

End SendSmsProperties.

(** ** Text search, properties *)

Module TextFacts.
Import JS JSText UsersSpec.

Lemma lower_space c : is_space (lower c) = is_space c.
Proof. destruct c as [[] [] [] [] [] [] [] []]; reflexivity. Qed.

Lemma lower_idem c : lower (lower c) = lower c.
Proof. destruct c as [[] [] [] [] [] [] [] []]; reflexivity. Qed.

Lemma toLowerCase_idem s : toLowerCase (toLowerCase s) = toLowerCase s.
Proof.
  induction s as [|c s IH]; cbn [toLowerCase]; [reflexivity|].
  now rewrite lower_idem, IH.
Qed.

Lemma toLowerCase_app a b :
  toLowerCase (a ++ b) = (toLowerCase a ++ toLowerCase b)%string.
Proof.
  induction a as [|c a IH]; cbn [toLowerCase String.append]; [reflexivity|].
  now rewrite IH.
Qed.

Lemma trimStart_lower s : trimStart (toLowerCase s) = toLowerCase (trimStart s).
Proof.
  induction s as [|c s IH]; cbn [toLowerCase trimStart]; [reflexivity|].
  rewrite lower_space. destruct (is_space c); [exact IH|reflexivity].
Qed.

Lemma trimEnd_lower s : trimEnd (toLowerCase s) = toLowerCase (trimEnd s).
Proof.
  induction s as [|c s IH]; cbn [toLowerCase trimEnd]; [reflexivity|].
  rewrite IH, lower_space.
  destruct (trimEnd s) as [|d t]; cbn [toLowerCase]; [|reflexivity].
  destruct (is_space c); reflexivity.
Qed.

Lemma trim_lower s : trim (toLowerCase s) = toLowerCase (trim s).
Proof. unfold trim. now rewrite trimStart_lower, trimEnd_lower. Qed.

(** What is left after [trimStart] is empty or starts with something
    else than white space. *)
Lemma trimStart_head s :
  trimStart s = "" \/ exists c r, trimStart s = String c r /\ is_space c = false.
Proof.
  induction s as [|c s IH]; cbn [trimStart]; [now left|].
  destruct (is_space c) eqn:E; [exact IH|]. right. eauto.
Qed.

Lemma trimEnd_head c r :
  is_space c = false -> exists t, trimEnd (String c r) = String c t.
Proof.
  intros E. cbn [trimEnd]. destruct (trimEnd r) as [|d t]; [rewrite E|]; eauto.
Qed.

Lemma trimEnd_idem s : trimEnd (trimEnd s) = trimEnd s.
Proof.
  induction s as [|c s IH]; cbn [trimEnd]; [reflexivity|].
  destruct (trimEnd s) as [|d t] eqn:E.
  - destruct (is_space c) eqn:Ec; cbn [trimEnd]; [reflexivity|]. now rewrite Ec.
  - change (trimEnd (String c (String d t)))
      with (match trimEnd (String d t) with
            | EmptyString => if is_space c then "" else String c ""
            | t' => String c t'
            end).
    rewrite IH. reflexivity.
Qed.

Lemma trim_idem s : trim (trim s) = trim s.
Proof.
  unfold trim. destruct (trimStart_head s) as [E|(c & r & E & Hc)]; rewrite E.
  - reflexivity.
  - destruct (trimEnd_head c r Hc) as [t Et]. rewrite Et.
    cbn [trimStart]. rewrite Hc, <- Et. apply trimEnd_idem.
Qed.

(** The name and the email as the form stores them. *)
Lemma stored_text s :
  trimmed (trim s) /\ trimmed (toLowerCase (trim s)) /\ lowercase (toLowerCase (trim s)).
Proof.
  unfold trimmed, lowercase. split; [apply trim_idem|]. split.
  - now rewrite trim_lower, trim_idem.
  - apply toLowerCase_idem.
Qed.

Lemma startsWith_spec q : forall s,
  startsWith s q = true <-> exists b : string, s = (q ++ b)%string.
Proof.
  induction q as [|a q IH]; intros s; cbn [startsWith String.append].
  - split; [intros _; now exists s|reflexivity].
  - destruct s as [|b s].
    + split; [discriminate|]. intros (t & H). discriminate.
    + rewrite andb_true_iff, IH. split.
      * intros (E & t & ->). apply Ascii.eqb_eq in E. subst b. now exists t.
      * intros (t & H). injection H as -> ->. split; [apply Ascii.eqb_refl|now exists t].
Qed.

Lemma includes_spec q s : includes s q = true <-> occurs q s.
Proof.
  unfold occurs. induction s as [|c s IH]; cbn [includes].
  - rewrite orb_false_r, startsWith_spec. split.
    + intros (b & E). now exists "", b.
    + intros (a & b & E). destruct a as [|x a]; [now exists b|discriminate].
  - rewrite orb_true_iff, startsWith_spec, IH. split.
    + intros [(b & E)|(a & b & E)].
      * now exists "", b.
      * exists (String c a), b. cbn [String.append]. now rewrite E.
    + intros (a & b & E). destruct a as [|x a].
      * left. now exists b.
      * right. cbn [String.append] in E. injection E as -> ->. now exists a, b.
Qed.

End TextFacts.

(** ** The users page, properties *)

Module UsersViewFacts.
Import JS JSArray JSText Users UsersView UsersSpec TextFacts SortFacts.

Lemma role_eqb_eq a b : role_eqb a b = true <-> a = b.
Proof. destruct a, b; cbn; split; (reflexivity || discriminate). Qed.

Lemma count_split {A : Type} (f : A -> bool) (l : list A) :
  count f l + count (fun x => negb (f x)) l = Z.of_nat (List.length l).
Proof.
  unfold count. induction l as [|x l IH]; cbn [filter List.length]; [reflexivity|].
  destruct (f x); cbn [negb List.length]; lia.
Qed.

Lemma count_range {A : Type} (f : A -> bool) (l : list A) :
  0 <= count f l <= Z.of_nat (List.length l).
Proof. unfold count. pose proof (filter_length_le f l). lia. Qed.

(** Three counts of records taken by role do not exceed the number of
    records. *)
Lemma count_roles (l : list Employee) :
  count (fun emp => role_eqb (role emp) FrontDesk) l
  + count (fun emp => role_eqb (role emp) ClinicalTeam) l
  + count (fun emp => role_eqb (role emp) Admin) l
  <= Z.of_nat (List.length l).
Proof.
  unfold count. induction l as [|x l IH]; cbn [filter List.length]; [lia|].
  destruct (role x); cbn [role_eqb List.length]; lia.
Qed.

Lemma count_none {A : Type} (f : A -> bool) (l : list A) :
  Forall (fun x => f x = false) l -> count f l = 0.
Proof.
  unfold count. induction 1 as [|x l Hx _ IH]; cbn [filter]; [reflexivity|].
  now rewrite Hx.
Qed.

(** The view without search term and role filter. *)
Lemma filteredEmployees_all employees showDeleted :
  filteredEmployees employees "" AllRoles showDeleted
  = filter (fun e => Bool.eqb (isDeleted e) showDeleted) employees.
Proof.
  unfold filteredEmployees. apply filter_ext. intros e.
  destruct showDeleted, (isDeleted e); reflexivity.
Qed.

(** Closes a case on the effects of a submission that cannot arise. *)
Ltac submit_absurd :=
  repeat match goal with
         | H : _ \/ _ |- _ => destruct H as [H|H]
         | H : False |- _ => destruct H
         | H : _ /\ _ |- _ => destruct H
         | H : @eq Effect _ _ |- _ => first [discriminate H | injection H as ? ? ? ?; subst]
         | H : @eq (list Effect) _ _ |- _ => discriminate H
         | H : @eq (_ + _) _ _ |- _ => discriminate H
         | H : ?x <> ?x |- _ => destruct (H eq_refl)
         end;
  try congruence.

(** Goes through the six statements about one submission. *)
Ltac submit_leaf :=
  cbn;
  split; [lia|];
  split; [split; intros ?|];
  [submit_absurd; auto 10; try lia ..|];
  split; [intros ? ? ? ? ?; submit_absurd; eauto 10|];
  split; [intros ? ? ? ? ?; submit_absurd; auto 10|];
  split; [split; intros ?; submit_absurd; auto 10; try lia|];
  intros ?; submit_absurd; auto.

Section Snapshot.
Variable localeCompare : string -> string -> Z.

Lemma staffRecords_roles records :
  Forall (fun e => role e <> Admin) (staffRecords localeCompare records).
Proof.
  unfold staffRecords.
  eapply Permutation_Forall; [apply Permutation_sym, sort_perm|].
  apply Forall_forall. intros e He. apply filter_In in He. destruct He as [_ He].
  intros E. rewrite E in He. discriminate.
Qed.

End Snapshot.

End UsersViewFacts.

Section UsersViewProperties.
Import JS JSArray JSText Users UsersView UsersSpec TextFacts SortFacts UsersViewFacts.

(** X18. The list shown holds exactly the employees that are deleted or
    not as the page shows, pass the role filter and match the search
    term: the term, trimmed, is empty or occurs in the name, the email or
    the role label, letter case apart. *)
Theorem filteredEmployees_shown (employees : list Employee) (searchTerm : string)
  (roleFilter : RoleFilter) (showDeletedEmployees : bool) (e : Employee) :
  In e (filteredEmployees employees searchTerm roleFilter showDeletedEmployees) <->
  In e employees /\
  isDeleted e = showDeletedEmployees /\
  passes roleFilter e /\
  matches searchTerm e.
Proof.
  unfold filteredEmployees, matches, passes. rewrite filter_In.
  set (q := toLowerCase (trim searchTerm)).
  rewrite <- !includes_spec.
  assert (Hq : String.eqb q "" = true <-> q = "") by apply String.eqb_eq.
  assert (Hr : match roleFilter with
               | AllRoles => true
               | OnlyRole r => role_eqb (role e) r
               end = true <->
               match roleFilter with
               | AllRoles => True
               | OnlyRole r => role e = r
               end).
  { destruct roleFilter; [tauto|apply role_eqb_eq]. }
  split.
  - intros (Hin & H). split; [exact Hin|].
    destruct showDeletedEmployees, (isDeleted e); cbn [andb negb] in H; try discriminate;
      (split; [reflexivity|]);
      apply andb_prop in H; destruct H as [Hs Hm];
      (split; [now apply Hr|]);
      rewrite !orb_true_iff in Hs; rewrite <- Hq; tauto.
  - intros (Hin & Hd & Hp & Hm). split; [exact Hin|].
    rewrite Hd. destruct showDeletedEmployees; cbn [andb negb];
      (apply andb_true_intro; split; [|now apply Hr]);
      rewrite !orb_true_iff, Hq; tauto.
Qed.

(** X19. The counters of the page are consistent with each other and
    with the two lists: current and past employees add up to all
    employees, active and inactive to the current ones; the counts by
    role stay within the current ones; the list of current employees has
    [total] entries and the list of past employees [deletedCount].  For
    the records the page keeps, the count of administrators is 0. *)
Theorem analytics_counters (employees : list Employee) :
  let a := analytics employees in
  total a + deletedCount a = Z.of_nat (List.length employees) /\
  active a + inactive a = total a /\
  0 <= active a <= total a /\
  0 <= frontDesk a /\ 0 <= clinical a /\ 0 <= adminCount a /\
  frontDesk a + clinical a + adminCount a <= total a /\
  Z.of_nat (List.length (filteredEmployees employees "" AllRoles false)) = total a /\
  Z.of_nat (List.length (filteredEmployees employees "" AllRoles true)) = deletedCount a /\
  (forall localeCompare records,
     employees = staffRecords localeCompare records -> adminCount a = 0).
Proof.
  intros a. subst a. unfold analytics.
  cbn [total active inactive frontDesk clinical adminCount deletedCount].
  set (current := filter (fun emp => negb (isDeleted emp)) employees).
  pose proof (count_split isDeleted employees) as S.
  fold (count (fun emp => negb (isDeleted emp)) employees) in S.
  change (Z.of_nat (List.length current))
    with (count (fun emp => negb (isDeleted emp)) employees).
  pose proof (count_range (fun emp => status_eqb (status emp) Active) current) as A.
  pose proof (count_range (fun emp => role_eqb (role emp) FrontDesk) current).
  pose proof (count_range (fun emp => role_eqb (role emp) ClinicalTeam) current).
  pose proof (count_range (fun emp => role_eqb (role emp) Admin) current).
  pose proof (count_roles current) as R.
  change (Z.of_nat (List.length current))
    with (count (fun emp => negb (isDeleted emp)) employees) in A, R.
  split; [lia|]. split; [lia|]. split; [lia|]. split; [lia|]. split; [lia|].
  split; [lia|]. split; [lia|]. split; [|split].
  - rewrite filteredEmployees_all. unfold count.
    rewrite (filter_ext _ (fun emp => negb (isDeleted emp))); [reflexivity|].
    intros e. destruct (isDeleted e); reflexivity.
  - rewrite filteredEmployees_all. unfold count.
    rewrite (filter_ext _ isDeleted); [reflexivity|].
    intros e. destruct (isDeleted e); reflexivity.
  - intros localeCompare records E. apply count_none.
    pose proof (staffRecords_roles localeCompare records) as F. rewrite <- E in F.
    apply Forall_forall. intros e He. subst current. apply filter_In in He.
    destruct He as [He _]. rewrite Forall_forall in F. specialize (F e He).
    destruct (role e); try reflexivity. congruence.
Qed.

(** X20. [handleSubmit] writes to the database at most once, and exactly
    when the form is valid: name and email not blank, and for a new
    employee a password that is blank or has at least six characters.
    Editing updates the record being edited, with the trimmed name, the
    role and the status, and never adds a record; adding stores the
    trimmed name and the trimmed, lower-cased email, on which trimming and
    lower-casing change nothing any more.  The dialog closes exactly when
    the write succeeds, and once the saving flag has been raised the last
    thing done is to lower it. *)
Theorem handleSubmit_writes (errToString : JsError -> string) (w : World)
  (formState : FormState) (editingEmployee : option Employee) :
  let fx := handleSubmit errToString w formState editingEmployee in
  let editing := match editingEmployee with Some _ => true | None => false end in
  let name := trim (form_userName formState) in
  let email := toLowerCase (trim (form_userEmail formState)) in
  let written :=
    match editingEmployee with
    | Some e => updateDoc w (id e) name (form_userRole formState) (form_userStatus formState)
    | None => addDoc w name email (form_userRole formState) (form_userStatus formState)
    end in
  (List.length (filter isWrite fx) <= 1)%nat /\
  (filter isWrite fx <> [] <-> valid_form formState editing) /\
  (forall i n r s, In (UpdateDoc i n r s) fx ->
     exists e, editingEmployee = Some e /\ i = id e /\ n = name /\
               r = form_userRole formState /\ s = form_userStatus formState) /\
  (forall n m r s, In (AddDoc n m r s) fx ->
     editingEmployee = None /\ n = name /\ m = email /\
     trimmed n /\ trimmed m /\ lowercase m /\
     r = form_userRole formState /\ s = form_userStatus formState) /\
  (In CloseDialog fx <-> valid_form formState editing /\ written = inr tt) /\
  (In (SetSaving true) fx -> last fx PreventDefault = SetSaving false).
Proof.
  intros fx editing name email written.
  destruct (stored_text (form_userName formState)) as (Tn & _ & _).
  destruct (stored_text (form_userEmail formState)) as (_ & Tm & Lm).
  subst fx. unfold handleSubmit, valid_form. fold name. fold email.
  destruct (String.eqb_spec name "") as [En|En]; cbn [orb]; [submit_leaf|].
  destruct (String.eqb_spec email "") as [Em|Em]; [submit_leaf|].
  destruct editingEmployee as [e|]; subst editing written; cbn [andb].
  - destruct (updateDoc w (id e) name (form_userRole formState) (form_userStatus formState))
      as [err|[]] eqn:Ew; submit_leaf.
  - destruct (String.eqb_spec (trim (form_password formState)) "") as [Ep|Ep]; cbn [negb andb].
    + destruct (addDoc w name email (form_userRole formState) (form_userStatus formState))
        as [err|[]] eqn:Ew; submit_leaf.
    + destruct (Nat.ltb_spec (String.length (trim (form_password formState))) 6) as [El|El].
      * submit_leaf.
      * destruct (addDoc w name email (form_userRole formState) (form_userStatus formState))
          as [err|[]] eqn:Ew; submit_leaf.
Qed.

(** X21. Opening the edit dialog on an employee of the list and saving
    without a change writes back the employee's own role and status, and
    the name, trimmed: nothing is lost by looking.  (The list never
    holds an administrator, whose role the dialog would replace.) *)
Theorem edit_unchanged_keeps_record (errToString : JsError -> string) (w : World)
  (localeCompare : string -> string -> Z) (records : list Employee) (e : Employee) :
  In e (staffRecords localeCompare records) ->
  trim (userName e) <> "" ->
  toLowerCase (trim (userEmail e)) <> "" ->
  filter isWrite (handleSubmit errToString w (openEditDialog e) (Some e))
  = [UpdateDoc (id e) (trim (userName e)) (role e) (status e)].
Proof.
  intros Hin Hn Hm.
  pose proof (staffRecords_roles localeCompare records) as F.
  rewrite Forall_forall in F. specialize (F e Hin).
  assert (Er : (if role_eqb (role e) Admin then FrontDesk else role e) = role e).
  { destruct (role e); try reflexivity. congruence. }
  unfold handleSubmit, openEditDialog.
  cbn [form_userName form_userEmail form_userRole form_userStatus form_password].
  apply String.eqb_neq in Hn, Hm. rewrite Hn, Hm, Er. cbn [orb andb].
  destruct (updateDoc w _ _ _ _) as [err|[]]; reflexivity.
Qed.

End UsersViewProperties.

Section UsersViewExamples.
Import JS JSArray JSText Users UsersView UsersSpec.

(** X21 on a list of one physiotherapist. *)
Lemma edit_unchanged_keeps_record_witness :
  let e := {| id := "s1"; userName := "Asha Rao"; userEmail := "asha@clinic.in";
              role := Physiotherapist; status := Active; createdAt := None;
              deleted := None; deletedAt := None; phone := None; address := None;
              dateOfBirth := None; dateOfJoining := None; gender := None;
              bloodGroup := None; emergencyContact := None; emergencyPhone := None;
              qualifications := None; specialization := None; experience := None;
              professionalAim := None; profileImage := None |} in
  let w := {| updateDoc := fun _ _ _ _ => inr tt; addDoc := fun _ _ _ _ => inr tt |} in
  filter isWrite (handleSubmit (fun _ => "Error") w (openEditDialog e) (Some e))
  = [UpdateDoc "s1" "Asha Rao" Physiotherapist Active].
Proof.
  intros e w.
  apply (edit_unchanged_keeps_record (fun _ => "Error") w (fun _ _ => 0) [e] e).
  - left. reflexivity.
  - discriminate.
  - discriminate.
Defined.

End UsersViewExamples.

(** ** Notifications of leave requests, properties *)

Module LeaveFacts.
Import JS JSText JSArray LeaveNotification LeaveSpec.

Lemma has_In set x : has set x = true <-> In x set.
Proof.
  unfold has. rewrite existsb_exists. split.
  - intros (y & Hy & E). apply String.eqb_eq in E. now subst.
  - intros H. exists x. split; [exact H|apply String.eqb_refl].
Qed.

Section Component.
Variable toLocaleDateString : string -> string.
Variable adminEmail : string.

#[local] Notation "'snapshot'" := (onSnapshot toLocaleDateString adminEmail) (only parsing).
#[local] Notation "'runs'" := (run toLocaleDateString adminEmail) (only parsing).
#[local] Notation "'added'" := (LeaveSpec.added toLocaleDateString adminEmail) (only parsing).

(** The toasts made for a list of requests are for these requests. *)
Lemma toasts_requests (now : nat -> Z) (l : list LeaveRequest) : forall start,
  map leaveRequestId
    (mapi_from (fun request n => toastFor toLocaleDateString (now n) request) start l)
  = map id l.
Proof using Type.
  induction l as [|r l IH]; intros start; cbn [mapi_from map]; [reflexivity|].
  now rewrite IH.
Qed.

Lemma request_ids docs :
  map id (map (toRequest) (filter (addressed adminEmail) docs)) = addressedIds adminEmail docs.
Proof using Type.
  unfold addressedIds. rewrite map_map. reflexivity.
Qed.

Lemma snapshot_toasts s docs now :
  toasts (snapshot s docs now) = toasts s ++ added s docs now.
Proof using Type.
  unfold onSnapshot, LeaveSpec.added. cbn [toasts].
  destruct (hasInitialized s); [reflexivity|now rewrite app_nil_r].
Qed.

Lemma added_ids s docs now rid :
  hasInitialized s = true ->
  In rid (map leaveRequestId (added s docs now)) <->
  In rid (addressedIds adminEmail docs) /\ ~ In rid (previousRequestIds s).
Proof using Type.
  intros H. unfold LeaveSpec.added, mapi. rewrite H, toasts_requests.
  rewrite <- request_ids, !in_map_iff. split.
  - intros (r & <- & Hr). apply filter_In in Hr. destruct Hr as [Hr Hn].
    split; [now exists r|]. rewrite <- has_In.
    destruct (has (previousRequestIds s) (id r)); [discriminate|congruence].
  - intros ((r & <- & Hr) & Hn). exists r. split; [reflexivity|].
    apply filter_In. split; [exact Hr|]. rewrite <- has_In in Hn.
    destruct (has (previousRequestIds s) (id r)); [congruence|reflexivity].
Qed.

Lemma run_snoc events e :
  runs (events ++ [e]) = step toLocaleDateString adminEmail (runs events) e.
Proof using Type. unfold run. now rewrite fold_left_app. Qed.

(** Until a first snapshot has been handled there is no toast, and
    handling it makes none. *)
Lemma run_quiet events :
  (snapshots events <= 1)%nat ->
  toasts (runs events) = [] /\
  (snapshots events = 0%nat -> hasInitialized (runs events) = false).
Proof using Type.
  induction events as [|e events IH] using rev_ind; intros H.
  - split; reflexivity.
  - rewrite run_snoc.
    assert (Hs : forall l k, snapshots (l ++ k) = (snapshots l + snapshots k)%nat).
    { clear. induction l as [|[d n|t] l IHl]; intros k; cbn [snapshots app];
        [reflexivity| |apply IHl]. now rewrite IHl. }
    rewrite Hs in H |- *. destruct e as [docs now|toastId]; cbn [snapshots] in *.
    + destruct IH as [T I]; [lia|]. cbn [step]. split; [|lia].
      rewrite snapshot_toasts, T. unfold LeaveSpec.added. rewrite I by lia. reflexivity.
    + destruct IH as [T I]; [lia|]. cbn [step removeToast toasts hasInitialized].
      rewrite T. split; [reflexivity|]. intros E. apply I. lia.
Qed.

End Component.

End LeaveFacts.

Section LeaveProperties.
Import JS JSText JSArray LeaveNotification LeaveSpec LeaveFacts.

Variable toLocaleDateString : string -> string.
Variable adminEmail : string.

(** X22. After a snapshot the count shown is the number of pending
    requests addressed to the user, letter case of the address apart, and
    these are remembered.  The first snapshot adds no toast; a later one
    adds toasts, after those already shown, for exactly the addressed
    requests that were not in the snapshot before. *)
Theorem onSnapshot_announces_new (s : State) (docs : list LeaveDoc) (now : nat -> Z) :
  let s' := onSnapshot toLocaleDateString adminEmail s docs now in
  pendingCount s' = Z.of_nat (List.length (addressedIds adminEmail docs)) /\
  previousRequestIds s' = addressedIds adminEmail docs /\
  hasInitialized s' = true /\
  exists new,
    toasts s' = toasts s ++ new /\
    (hasInitialized s = false -> new = []) /\
    (hasInitialized s = true ->
       forall rid, In rid (map leaveRequestId new) <->
                   In rid (addressedIds adminEmail docs) /\ ~ In rid (previousRequestIds s)).
Proof.
  intros s'. subst s'. split; [|split; [|split]].
  - cbn [onSnapshot pendingCount]. unfold addressedIds. now rewrite !length_map.
  - cbn [onSnapshot previousRequestIds]. apply request_ids.
  - reflexivity.
  - exists (added toLocaleDateString adminEmail s docs now).
    split; [apply snapshot_toasts|]. split.
    + intros H. unfold added. now rewrite H.
    + intros H rid. now apply added_ids.
Qed.

(** X23. However the events fall, requests that were already pending
    when the component loaded are never announced: as long as at most
    one snapshot has been handled there is no toast. *)
Theorem no_toast_for_initial_requests (events : list Event) :
  (snapshots events <= 1)%nat ->
  toasts (run toLocaleDateString adminEmail events) = [].
Proof.
  intros H. now apply run_quiet.
Qed.

(** X24. A snapshot that brings no request beyond those of the snapshot
    just before it announces nothing, whatever happened earlier: a
    request is announced once, not at every change of the collection. *)
Theorem no_toast_for_known_requests (events : list Event)
  (docs1 docs2 : list LeaveDoc) (now1 now2 : nat -> Z) :
  incl (addressedIds adminEmail docs2) (addressedIds adminEmail docs1) ->
  toasts (run toLocaleDateString adminEmail
            (events ++ [Snapshot docs1 now1; Snapshot docs2 now2]))
  = toasts (run toLocaleDateString adminEmail (events ++ [Snapshot docs1 now1])).
Proof.
  intros Hsub.
  replace (events ++ [Snapshot docs1 now1; Snapshot docs2 now2])
    with ((events ++ [Snapshot docs1 now1]) ++ [Snapshot docs2 now2])
    by (rewrite <- app_assoc; reflexivity).
  rewrite (run_snoc _ _ (events ++ [Snapshot docs1 now1])). cbn [step].
  rewrite snapshot_toasts.
  set (s := run toLocaleDateString adminEmail (events ++ [Snapshot docs1 now1])).
  assert (Hs : hasInitialized s = true /\ previousRequestIds s = addressedIds adminEmail docs1).
  { subst s. rewrite run_snoc. cbn [step onSnapshot hasInitialized previousRequestIds].
    split; [reflexivity|apply request_ids]. }
  destruct Hs as [Hi Hp].
  destruct (added toLocaleDateString adminEmail s docs2 now2) as [|t rest] eqn:E;
    [apply app_nil_r|exfalso].
  assert (Hin : In (leaveRequestId t)
                   (map leaveRequestId (added toLocaleDateString adminEmail s docs2 now2)))
    by (rewrite E; now left).
  apply (added_ids _ _ _ _ _ _ Hi) in Hin. destruct Hin as [H1 H2].
  apply H2. rewrite Hp. now apply Hsub.
Qed.

End LeaveProperties.

Section LeaveExamples.
Import JS JSText JSArray LeaveNotification LeaveSpec.

(** X23 on a request addressed to the user that is pending when the
    component loads. *)
Lemma no_toast_for_initial_requests_witness :
  let d := {| doc_id := "r1"; doc_approvalRequestedToEmail := Some "Admin@Clinic.in";
              doc_userName := Some "Asha"; doc_leaveType := Some "Sick";
              doc_startDate := Some "2024-03-01"; doc_endDate := Some "2024-03-02" |} in
  toasts (run (fun s => s) "admin@clinic.in" [Snapshot [d] (fun _ => 0)]) = [].
Proof.
  intros d.
  apply (no_toast_for_initial_requests (fun s => s) "admin@clinic.in").
  cbn. lia.
Defined.

(** X24 on the same request, seen again in a second snapshot. *)
Lemma no_toast_for_known_requests_witness :
  let d := {| doc_id := "r1"; doc_approvalRequestedToEmail := Some "Admin@Clinic.in";
              doc_userName := Some "Asha"; doc_leaveType := Some "Sick";
              doc_startDate := Some "2024-03-01"; doc_endDate := Some "2024-03-02" |} in
  toasts (run (fun s => s) "admin@clinic.in"
            ([] ++ [Snapshot [d] (fun _ => 0); Snapshot [d] (fun _ => 1)]))
  = toasts (run (fun s => s) "admin@clinic.in" ([] ++ [Snapshot [d] (fun _ => 0)])).
Proof.
  intros d.
  apply (no_toast_for_known_requests (fun s => s) "admin@clinic.in" [] [d] [d]).
  intros x Hx. exact Hx.
Defined.

End LeaveExamples.

(** ** The analytics modal, properties *)

Module AnalyticsModalFacts.
Import JS AnalyticsService AnalyticsModal.

Lemma nth_error_last {A : Type} (l : list A) (x : A) :
  nth_error (l ++ [x]) (List.length l) = Some x.
Proof. induction l as [|y l IH]; [reflexivity | exact IH]. Qed.

Lemma remove_nth_last {A : Type} (l : list A) (x : A) :
  remove_nth (List.length l) (l ++ [x]) = l.
Proof. induction l as [|y l IH]; [reflexivity | cbn; now rewrite IH]. Qed.

End AnalyticsModalFacts.

Section AnalyticsModalProperties.
Import JS AnalyticsService AnalyticsModal AnalyticsModalFacts.

Variable V : Type.
Variable host : JSDate.Host.
Variable toISOString : Z -> string.

(** X25. The modal opened for a patient shows the spinner, no analysis
    and no error, and has one more load in flight.  If that load settles
    before anything else happens, the modal stops loading and shows an
    analysis or an error but not both: the analysis exactly when the
    service returned one for the patient, and an error that is never
    empty.  Closed, the modal shows neither and calls nothing, but the
    loads in flight stay in flight: whenever one of them settles, later,
    its analysis is put on show and the spinner is stopped, whatever
    patient the modal is open for by then, if it is open at all. *)
Theorem modal_shows_analysis_or_error (w : World V) (patient : string) (m : Modal) :
  let opened := step V host toISOString m (Change true patient) in
  let settled := step V host toISOString (fst opened) (Settle (List.length (pending m)) w) in
  let outcome := fst (fetchPatientAnalytics V host toISOString w patient) in
  patient <> "" ->
  (snd opened = [] /\
   loading (view (fst opened)) = true /\
   analytics (view (fst opened)) = None /\ error (view (fst opened)) = None /\
   pending (fst opened) = pending m ++ [patient]) /\
  (loading (view (fst settled)) = false /\
   pending (fst settled) = pending m /\
   (forall a, analytics (view (fst settled)) = Some a <-> outcome = Returns a) /\
   (forall msg, error (view (fst settled)) = Some msg <->
      exists e, outcome = Throws e /\
                msg = match err_message e with
                      | Some (String c rest) => String c rest
                      | _ => "Failed to load patient analytics"
                      end) /\
   (forall msg, error (view (fst settled)) = Some msg -> msg <> "") /\
   (analytics (view (fst settled)) = None \/ error (view (fst settled)) = None) /\
   (analytics (view (fst settled)) <> None \/ error (view (fst settled)) <> None)) /\
  (forall m' p,
     let closed := step V host toISOString m' (Change false p) in
     snd closed = [] /\
     analytics (view (fst closed)) = None /\ error (view (fst closed)) = None /\
     loading (view (fst closed)) = false /\
     pending (fst closed) = pending m') /\
  (forall m' k p w' a,
     nth_error (pending m') k = Some p ->
     fst (fetchPatientAnalytics V host toISOString w' p) = Returns a ->
     let late := fst (step V host toISOString m' (Settle k w')) in
     analytics (view late) = Some a /\ loading (view late) = false /\
     isOpen late = isOpen m' /\ patientId late = patientId m').
Proof.
  intros opened settled outcome Hp.
  assert (E : opened = (loadAnalytics {| isOpen := true; patientId := patient;
                                         view := view m; pending := pending m |}, [])).
  { subst opened. unfold step. apply String.eqb_neq in Hp. rewrite Hp. reflexivity. }
  split; [|split; [|split]].
  - rewrite E. cbn. auto.
  - subst settled outcome. rewrite E.
    cbn [fst step loadAnalytics pending view isOpen patientId].
    rewrite nth_error_last, remove_nth_last. unfold settle.
    destruct (fetchPatientAnalytics V host toISOString w patient) as [[result|err] fx];
      cbn [fst snd setLoading setError setAnalytics analytics loading error view pending].
    + split; [reflexivity|]. split; [reflexivity|]. split; [|split; [|split; [|split]]].
      * intros a. split; intros H; injection H as <-; reflexivity.
      * intros msg. split; [discriminate|]. intros (e & H & _). discriminate.
      * discriminate.
      * right. reflexivity.
      * left. discriminate.
    + split; [reflexivity|]. split; [reflexivity|]. split; [|split; [|split; [|split]]].
      * intros a. split; discriminate.
      * intros msg. split.
        -- intros H. injection H as <-. exists err. auto.
        -- intros (e & H & ->). injection H as <-. reflexivity.
      * intros msg H. injection H as <-.
        destruct (err_message err) as [[|c rest]|]; discriminate.
      * left. reflexivity.
      * right. discriminate.
  - intros m' p closed. subst closed. cbn. auto.
  - intros m' k p w' a Hk Hr late. subst late.
    cbn [step]. rewrite Hk. unfold settle.
    destruct (fetchPatientAnalytics V host toISOString w' p) as [[result|err] fx];
      cbn [fst] in Hr; [|discriminate].
    injection Hr as <-. cbn. auto.
Qed.

End AnalyticsModalProperties.

Section AnalyticsModalExamples.
Import JS AnalyticsService AnalyticsModal.

(** X25 on a patient with one stored report, the endpoint being out of
    reach: opened from the closed modal, the modal ends up showing the
    error of the request. *)
Lemma modal_shows_analysis_or_error_witness :
  let doc :=
    {| doc_version := Some 1;
       doc_createdAt := CreatedString "2024-01-01";
       doc_reportData := None;
       doc_data := @None (ReportData string) |} in
  let w := {| getDocs := fun _ => Returns [doc];
              clock := fun _ => 0;
              fetch := fun _ => Throws (Error "offline") |} in
  let m := run string Billing.hostIST (fun _ => "") initial [Change true "P-1"; Settle 0 w] in
  loading (view m) = false /\ pending m = [] /\
  analytics (view m) = None /\ error (view m) = Some "offline".
Proof.
  intros doc w m.
  destruct (modal_shows_analysis_or_error string Billing.hostIST (fun _ => "") w "P-1" initial)
    as (_ & (L & P & _ & E & _) & _).
  - discriminate.
  - split; [exact L|]. split; [exact P|]. split; [reflexivity|].
    apply E. exists (Error "offline"). split; reflexivity.
Defined.

End AnalyticsModalExamples.

(** ** The script that deletes sample appointments, properties *)

Module SampleFacts.
Import JS JSText SampleAppointments SampleSpec TextFacts.

Lemma listed_In names x : listed names x = true <-> In x names.
Proof.
  unfold listed. rewrite existsb_exists. split.
  - intros (y & Hy & E). apply String.eqb_eq in E. now subst.
  - intros H. exists x. split; [exact H|apply String.eqb_refl].
Qed.

Lemma matchesPattern_spec s : matchesPattern s = true <-> sample_id s.
Proof.
  unfold sample_id. split.
  - intros H. unfold matchesPattern in H.
    destruct s as [|p [|a [|t [|d1 [|d2 [|d3 [|d4 [|x s]]]]]]]]; try discriminate;
      try (destruct p as [[] [] [] [] [] [] [] []]; discriminate);
      try (destruct p as [[] [] [] [] [] [] [] []]; try discriminate;
           destruct a as [[] [] [] [] [] [] [] []]; discriminate);
      try (destruct p as [[] [] [] [] [] [] [] []]; try discriminate;
           destruct a as [[] [] [] [] [] [] [] []]; try discriminate;
           destruct t as [[] [] [] [] [] [] [] []]; discriminate).
    destruct p as [[] [] [] [] [] [] [] []]; try discriminate;
      destruct a as [[] [] [] [] [] [] [] []]; try discriminate;
      destruct t as [[] [] [] [] [] [] [] []]; try discriminate.
    apply andb_prop in H. destruct H as [H H4].
    apply andb_prop in H. destruct H as [H H3].
    apply andb_prop in H. destruct H as [H1 H2].
    exists d1, d2, d3, d4. auto.
  - intros (a & b & c & d & -> & Ha & Hb & Hc & Hd). cbn. now rewrite Ha, Hb, Hc, Hd.
Qed.

(** A non-empty text of one of the lists or of the pattern. *)
Lemma truthyAnd_spec (x : option string) (test : string -> bool) :
  test "" = false ->
  (truthyAnd x test = true <-> exists s, x = Some s /\ test s = true).
Proof.
  intros H0. unfold truthyAnd. destruct x as [[|c s]|].
  - split; [discriminate|]. intros (s & E & T). injection E as <-. congruence.
  - split; [eauto|]. intros (s' & E & T). injection E as <-. exact T.
  - split; [discriminate|]. intros (s & E & _). discriminate.
Qed.

Section Script.
Variable w : World.

(** The loop tries each appointment of the list once, in order, and
    counts each attempt as a deletion or as an error. *)
Lemma deleteAll_spec ids : forall deleted errors,
  deletions (fst (deleteAll w ids deleted errors)) = ids /\
  fst (snd (deleteAll w ids deleted errors))
  = deleted + Z.of_nat (List.length
                          (filter (fun id => match deleteDoc w id with
                                             | inr _ => true
                                             | inl _ => false
                                             end) ids)) /\
  fst (snd (deleteAll w ids deleted errors)) + snd (snd (deleteAll w ids deleted errors))
  = deleted + errors + Z.of_nat (List.length ids).
Proof.
  induction ids as [|id rest IH]; intros deleted errors; cbn [deleteAll].
  - cbn. repeat split; lia.
  - destruct (deleteDoc w id) as [e|[]] eqn:E; cbn [fst snd].
    + specialize (IH deleted (errors + 1)).
      destruct (deleteAll w rest deleted (errors + 1)) as [fx final].
      cbn [fst snd deletions map filter List.length] in *. rewrite E.
      destruct IH as (A & B & C). repeat split; [now rewrite A|exact B|lia].
    + specialize (IH (deleted + 1) errors).
      destruct (deleteAll w rest (deleted + 1) errors) as [fx final].
      cbn [fst snd deletions map filter List.length] in *. rewrite E.
      destruct IH as (A & B & C). cbn [List.length].
      repeat split; [now rewrite A|lia|lia].
Qed.

End Script.

End SampleFacts.

Section SampleProperties.
Import JS JSText SampleAppointments SampleSpec TextFacts SampleFacts.

(** X26. The script classifies an appointment as sample data exactly when
    its notes contain the word sample or testing, letter case apart, or
    its patient or doctor is one of the names of the seed data, or its
    patient id is PAT followed by four digits. *)
Theorem isSample_marks (data : Appointment) :
  isSample data = true <-> marked data.
Proof.
  unfold isSample, marked. rewrite !orb_true_iff.
  rewrite !truthyAnd_spec by reflexivity.
  split.
  - intros [[[(n & E & H)|(p & E & H)]|(d & E & H)]|(i & E & H)].
    + left. exists n. split; [exact E|].
      apply orb_true_iff in H. rewrite !includes_spec in H. exact H.
    + right. left. exists p. split; [exact E|now apply listed_In].
    + right. right. left. exists d. split; [exact E|now apply listed_In].
    + right. right. right. exists i. split; [exact E|now apply matchesPattern_spec].
  - intros [(n & E & H)|[(p & E & H)|[(d & E & H)|(i & E & H)]]].
    + left. left. left. exists n. split; [exact E|].
      apply orb_true_iff. rewrite !includes_spec. exact H.
    + left. left. right. exists p. split; [exact E|now apply listed_In].
    + left. right. exists d. split; [exact E|now apply listed_In].
    + right. exists i. split; [exact E|now apply matchesPattern_spec].
Qed.

(** X27. The script tries to delete exactly the appointments it
    classifies as sample data, each once and in the order of the
    collection; an appointment without mark is left alone.  A deletion
    that fails does not stop the others: deletions and errors add up to
    the number of sample appointments.  When the collection cannot be
    read, or holds no sample appointment, nothing is deleted. *)
Theorem deleteSampleAppointments_deletes_samples_only (w : World) :
  let run := deleteSampleAppointments w in
  (forall snapshot, getAppointments w = inr snapshot ->
     deletions (fst run) = map ap_id (filter isSample snapshot)) /\
  (forall e, getAppointments w = inl e -> run = ([], Failed)) /\
  (forall c, snd run = Deleted c ->
     deletedCount c + errorCount c = foundCount c /\
     foundCount c = Z.of_nat (List.length (fst run)) /\
     0 < foundCount c <= checkedCount c /\
     deletedCount c
     = Z.of_nat (List.length (filter (fun id => match deleteDoc w id with
                                                | inr _ => true
                                                | inl _ => false
                                                end) (deletions (fst run))))) /\
  (fst run = [] <-> forall c, snd run <> Deleted c).
Proof.
  intros run. subst run. unfold deleteSampleAppointments.
  destruct (getAppointments w) as [e|[|d snapshot]] eqn:G.
  - cbn. repeat split; intros; try discriminate; try reflexivity.
  - cbn. repeat split; intros; try discriminate; try reflexivity.
    injection H as <-. reflexivity.
  - set (docs := d :: snapshot).
    set (ids := map ap_id (filter isSample docs)).
    pose proof (filter_length_le isSample docs) as L.
    assert (Li : List.length ids = List.length (filter isSample docs))
      by (subst ids; apply length_map).
    destruct (Nat.eqb_spec (List.length ids) 0) as [E|E].
    + cbn [fst snd]. repeat split; intros; try discriminate; try reflexivity.
      injection H as <-. fold docs. fold ids.
      destruct ids; [reflexivity|discriminate].
    + destruct (deleteAll_spec w ids 0 0) as (A & B & C).
      destruct (deleteAll w ids 0 0) as [fx counts] eqn:R. cbn [fst snd] in *.
      assert (Lf : List.length fx = List.length ids).
      { rewrite <- A. unfold deletions. now rewrite length_map. }
      split; [|split; [|split]].
      * intros s H. injection H as <-. exact A.
      * discriminate.
      * intros c H. injection H as <-.
        cbn [deletedCount errorCount foundCount checkedCount].
        rewrite A.
        change (Z.pos (Pos.of_succ_nat (List.length snapshot)))
          with (Z.of_nat (List.length docs)).
        clearbody ids docs.
        split; [lia|]. split; [now rewrite Lf|]. split; [clear - L Li E; lia|exact B].
      * split.
        -- intros H. rewrite H in Lf. cbn [List.length] in Lf. congruence.
        -- intros H. exfalso. eapply H. reflexivity.
Qed.

End SampleProperties.

(** ** The script that creates the admin user, properties *)

Module AdminFacts.
Import JS JSText Handler CreateAdminUser AdminSpec.

Ltac admin_run :=
  cbv zeta; cbn [bind lift emit try_catch try_total ret throw app fst snd].

(** Takes apart what is known of the world and closes a case that the
    answers of the services contradict. *)
Ltac admin_facts :=
  unfold resolved, not_found, adminProfile in *;
  repeat match goal with
         | H : _ /\ _ |- _ => destruct H
         | H : exists _, _ |- _ => destruct H
         | H : _ \/ _ |- _ => destruct H
         end;
  subst; cbv beta iota in *; try congruence.

(** The two accounts of the creation of the user, as the run shows
    them. *)
Ltac admin_created :=
  split;
  [split;
   [first [intros H; exfalso; apply H; reflexivity
          |intros _; split; [reflexivity | unfold not_found; eauto 10]]
   |first [intros _; discriminate
          |intros [_ H]; exfalso; admin_facts]]
  |split; [first [intros H; exfalso; apply H; reflexivity | intros _; reflexivity]|]].

(** A run that ends in failure. *)
Ltac admin_failure :=
  admin_run; cbn [filter isCreate List.length];
  split; [lia|];
  admin_created;
  split; [right; reflexivity|];
  split; [split; [discriminate
                 |intros (_ & uid' & isNew' & R & Hc & Hp); exfalso; admin_facts]|];
  split; [intros uid' isNew' _ R Hc Hp; exfalso; admin_facts|];
  intros _;
  match goal with
  | |- exists pre, ?l = _ => exists (removelast l); reflexivity
  end.

(** A run that ends in success. *)
Ltac admin_success :=
  admin_run; cbn [filter isCreate List.length];
  split; [lia|];
  admin_created;
  split; [left; reflexivity|];
  split; [split; [|reflexivity];
          intros _; split; [reflexivity|];
          eexists; eexists;
          split; [unfold resolved, not_found;
                  first [left; split; [reflexivity | solve [eauto]]
                        |right; split; [reflexivity | solve [eauto 10]]]
                 |split; eassumption]|];
  split; [|discriminate];
  intros uid' isNew' _ R Hc Hp;
  match goal with
  | |- exists pre, ?l = _ /\ _ => exists (removelast (removelast l))
  end;
  cbn [removelast app filter isClaims isProfile];
  admin_facts;
  (split; [repeat f_equal; congruence | split; reflexivity]).

End AdminFacts.

Section AdminProperties.
Import JS JSText Handler CreateAdminUser AdminSpec AdminFacts TextFacts.

(** X28. The project id the script resolves is never empty, and the
    database id is never empty, never the text (default) and never the
    word default in any letter case: these name the default database,
    for which the script passes no id.  With no variable set the script
    uses its two built-in ids. *)
Theorem resolved_ids (env : string -> option string) (serviceAccountProjectId : option string) :
  (exists id, resolveProjectId env serviceAccountProjectId = Some id /\ id <> "") /\
  (forall id, resolveDatabaseId env = Some id ->
     id <> "" /\ id <> "(default)" /\ toLowerCase id <> "default") /\
  ((forall k, env k = None) ->
     resolveProjectId env None = Some DEFAULT_PROJECT_ID /\
     resolveDatabaseId env = Some DEFAULT_DATABASE_ID).
Proof.
  split; [|split].
  - unfold resolveProjectId.
    destruct (or_ (if isStaging env then _ else _) serviceAccountProjectId) as [[|c s]|];
      cbn [or_]; eexists; (split; [reflexivity|discriminate]).
  - intros id. unfold resolveDatabaseId.
    destruct (or_ (if isStaging env then _ else _) (Some DEFAULT_DATABASE_ID)) as [[|c s]|];
      try discriminate.
    destruct (String.eqb_spec (String c s) "(default)") as [E1|E1]; cbn [orb];
      [discriminate|].
    destruct (String.eqb_spec (toLowerCase (String c s)) "default") as [E2|E2];
      [discriminate|].
    intros H. injection H as <-. split; [discriminate|]. split; assumption.
  - intros H. unfold resolveProjectId, resolveDatabaseId, isStaging. rewrite !H.
    split; reflexivity.
Qed.

(** X29. The script creates an account exactly when the SDK is
    initialised and looking the admin user up, or updating it, fails with
    the code auth/user-not-found, and then only one.  It exits with code
    0 exactly when the SDK is initialised, the account is there (updated
    or created), and setting the role and writing the profile both
    succeed; the last two things it has done are then to set the Admin
    role and to write the profile, in this order and for that account,
    and the profile has a creation date exactly when the account is new.
    After a failure it does nothing more than report it. *)
Theorem createAdminUser_protocol (env : string -> option string)
  (toISOString : Z -> string) (w : World) :
  let run := createAdminUser env toISOString w in
  (List.length (filter isCreate (fst run)) <= 1)%nat /\
  (filter isCreate (fst run) <> [] <->
     initializeFirebaseAdmin w = inr tt /\ not_found w) /\
  (filter isCreate (fst run) <> [] ->
     filter isCreate (fst run) = [CreateUser ADMIN_EMAIL ADMIN_PASSWORD ADMIN_DISPLAY_NAME]) /\
  (snd run = 0 \/ snd run = 1) /\
  (snd run = 0 <->
     initializeFirebaseAdmin w = inr tt /\
     exists uid isNew,
       resolved w uid isNew /\
       setCustomUserClaims w uid = inr tt /\
       setProfile w uid (adminProfile toISOString w isNew) = inr tt) /\
  (forall uid isNew,
     initializeFirebaseAdmin w = inr tt ->
     resolved w uid isNew ->
     setCustomUserClaims w uid = inr tt ->
     setProfile w uid (adminProfile toISOString w isNew) = inr tt ->
     exists pre,
       fst run = pre ++ [SetCustomUserClaims uid ADMIN_ROLE;
                         SetProfile (resolveDatabaseId env) uid
                           (adminProfile toISOString w isNew)] /\
       filter isClaims pre = [] /\ filter isProfile pre = []) /\
  (snd run = 1 -> exists pre, fst run = pre ++ [ConsoleError "Error creating admin user:"]).
Proof.
  intros run. subst run. unfold createAdminUser, create.
  destruct (initializeFirebaseAdmin w) as [e0|[]] eqn:I.
  { admin_run. cbn [filter isCreate List.length].
    split; [lia|]. split; [split; [intros H; exfalso; apply H; reflexivity|intros [H _]; discriminate H]|].
    split; [intros H; exfalso; apply H; reflexivity|].
    split; [right; reflexivity|].
    split; [split; [discriminate|intros [H _]; discriminate H]|].
    split; [intros uid isNew H; discriminate H|].
    intros _. exists []. reflexivity. }
  admin_run.
  destruct (getUserByEmail w ADMIN_EMAIL) as [e1|uid0] eqn:G.
  - admin_run. destruct (code_is e1 "auth/user-not-found") eqn:C1; [|admin_failure].
    admin_run. destruct (createUser w ADMIN_EMAIL) as [e2|uid] eqn:Cr; [admin_failure|].
    admin_run. destruct (setCustomUserClaims w uid) as [e3|[]] eqn:Cl; [admin_failure|].
    admin_run. destruct (setProfile w uid _) as [e4|[]] eqn:Sp; [admin_failure|].
    admin_success.
  - admin_run. destruct (updateUser w uid0) as [e1|uid1] eqn:U.
    + admin_run. destruct (code_is e1 "auth/user-not-found") eqn:C1; [|admin_failure].
      admin_run. destruct (createUser w ADMIN_EMAIL) as [e2|uid] eqn:Cr; [admin_failure|].
      admin_run. destruct (setCustomUserClaims w uid) as [e3|[]] eqn:Cl; [admin_failure|].
      admin_run. destruct (setProfile w uid _) as [e4|[]] eqn:Sp; [admin_failure|].
      admin_success.
    + admin_run. destruct (setCustomUserClaims w uid1) as [e3|[]] eqn:Cl; [admin_failure|].
      admin_run. destruct (setProfile w uid1 _) as [e4|[]] eqn:Sp; [admin_failure|].
      admin_success.
Qed.

End AdminProperties.
